(** * Comment engine: reactions, listing, pagination and client merge

    A shallow embedding of the comment back end
    (backend/models/Comment.js, backend/controllers/commentController.js,
    backend/utils/validation.js) and of the socket handlers of the
    CommentItem component, with the properties the specification
    states about them.

    Conventions.
    - Identifiers (Mongo ObjectIds printed with [toString]) are strings.
    - A JavaScript string is a Rocq [string]; each [ascii] stands for the
      UTF-16 code unit of the same number.
    - Dates are integers (milliseconds); counts are [nat]; the numbers
      the pagination code computes with are [Z].
    - A request handler is a function from the store to a response and
      the store that results; [req.io.emit] appends to the list of
      emitted events. *)

From Stdlib Require Import String Ascii List ZArith Lia Bool Arith.
From Stdlib Require Import Permutation Sorted.
From Stdlib Require DecimalString DecimalZ DecimalPos.
Import ListNotations.

Local Open Scope string_scope.
Local Open Scope list_scope.
Local Open Scope nat_scope.

(* ================================================================= *)
(** ** Strings as the validators see them *)

Module Js.

(** [\s] of a JavaScript regular expression and the white space of
    [String.prototype.trim], on code units below 256. *)
Definition isWhiteSpace (c : ascii) : bool :=
  let n := nat_of_ascii c in
  ((9 <=? n) && (n <=? 13)) || (n =? 32) || (n =? 160).

Fixpoint trimStart (s : string) : string :=
  match s with
  | EmptyString => EmptyString
  | String c s' => if isWhiteSpace c then trimStart s' else s
  end.

Definition reverse (s : string) : string :=
  string_of_list_ascii (rev (list_ascii_of_string s)).

Definition trimEnd (s : string) : string :=
  reverse (trimStart (reverse s)).

Definition trim (s : string) : string := trimEnd (trimStart s).

(** validator.js [escape]: eight characters are replaced by HTML
    entities. *)
Definition escapeChar (c : ascii) : string :=
  match nat_of_ascii c with
  | 38 => "&amp;"
  | 34 => "&quot;"
  | 39 => "&#x27;"
  | 60 => "&lt;"
  | 62 => "&gt;"
  | 47 => "&#x2F;"
  | 92 => "&#x5C;"
  | 96 => "&#96;"
  | _ => String c EmptyString
  end.

Fixpoint escape (s : string) : string :=
  match s with
  | EmptyString => EmptyString
  | String c s' => (escapeChar c ++ escape s')%string
  end.

Definition isHexDigit (c : ascii) : bool :=
  let n := nat_of_ascii c in
  ((48 <=? n) && (n <=? 57)) || ((97 <=? n) && (n <=? 102))
  || ((65 <=? n) && (n <=? 70)).

(** The pattern [/^[0-9a-fA-F]{24}$/] of [validateObjectId].  Of the
    strings of 24 characters these are also the ones the database
    library casts to an ObjectId. *)
Definition isHex24 (s : string) : bool :=
  (String.length s =? 24) && forallb isHexDigit (list_ascii_of_string s).

(** The validator [isHexadecimal], pattern [/^(0x|0h)?[0-9A-F]+$/i]:
    an optional prefix, then at least one hexadecimal digit. *)
Definition isHexadecimal (s : string) : bool :=
  let digits :=
    match s with
    | String "0" (String c rest) =>
        if (Ascii.eqb c "x" || Ascii.eqb c "X" || Ascii.eqb c "h"
            || Ascii.eqb c "H")%bool
        then rest else s
    | _ => s
    end in
  (1 <=? String.length digits)
  && forallb isHexDigit (list_ascii_of_string digits).

(** The validator [isMongoId]: [isHexadecimal(str) && str.length === 24]. *)
Definition isMongoId (s : string) : bool :=
  isHexadecimal s && (String.length s =? 24).

(** [n] copies of one character. *)
Fixpoint repeat (c : ascii) (n : nat) : string :=
  match n with
  | O => EmptyString
  | S k => String c (repeat c k)
  end.

End Js.

(* ================================================================= *)
(** ** The Comment model (models/Comment.js) *)

Definition UserId := string.
Definition CommentId := string.

(** One entry of [likes] or [dislikes]: [{ user, createdAt }]. *)
Module Reaction.
Record t : Type := mk { user : UserId; createdAt : Z }.
End Reaction.

Record Comment : Type := mkComment {
  _id : CommentId;
  content : string;
  author : UserId;
  parentComment : option CommentId;
  likes : list Reaction.t;
  dislikes : list Reaction.t;
  isEdited : bool;
  editedAt : option Z;
  isActive : bool;
  createdAt : Z
}.

Definition set_likes (l : list Reaction.t) (c : Comment) : Comment :=
  mkComment (_id c) (content c) (author c) (parentComment c) l (dislikes c)
            (isEdited c) (editedAt c) (isActive c) (createdAt c).

Definition set_dislikes (l : list Reaction.t) (c : Comment) : Comment :=
  mkComment (_id c) (content c) (author c) (parentComment c) (likes c) l
            (isEdited c) (editedAt c) (isActive c) (createdAt c).

Definition set_isActive (b : bool) (c : Comment) : Comment :=
  mkComment (_id c) (content c) (author c) (parentComment c) (likes c)
            (dislikes c) (isEdited c) (editedAt c) b (createdAt c).

Definition set_edited (txt : string) (now : Z) (c : Comment) : Comment :=
  mkComment (_id c) txt (author c) (parentComment c) (likes c)
            (dislikes c) true (Some now) (isActive c) (createdAt c).

(** Virtuals. *)
Definition likeCount (c : Comment) : nat := length (likes c).
Definition dislikeCount (c : Comment) : nat := length (dislikes c).
Definition engagementScore (c : Comment) : Z :=
  (Z.of_nat (length (likes c)) - Z.of_nat (length (dislikes c)))%Z.

(** [reaction.user.toString() === userId.toString()] *)
Definition byUser (userId : UserId) (r : Reaction.t) : bool :=
  String.eqb (Reaction.user r) userId.

Definition isLikedBy (c : Comment) (userId : UserId) : bool :=
  existsb (byUser userId) (likes c).

Definition isDislikedBy (c : Comment) (userId : UserId) : bool :=
  existsb (byUser userId) (dislikes c).

Definition notByUser (userId : UserId) (r : Reaction.t) : bool :=
  negb (byUser userId r).

(** [addLike]: drop the user's dislike, then push a like unless one is
    there.  [now] is the default of the pushed entry's [createdAt]. *)
Definition addLike (now : Z) (userId : UserId) (c : Comment) : Comment :=
  let c1 := set_dislikes (filter (notByUser userId) (dislikes c)) c in
  if negb (isLikedBy c1 userId)
  then set_likes (likes c1 ++ [Reaction.mk userId now]) c1
  else c1.

Definition addDislike (now : Z) (userId : UserId) (c : Comment) : Comment :=
  let c1 := set_likes (filter (notByUser userId) (likes c)) c in
  if negb (isDislikedBy c1 userId)
  then set_dislikes (dislikes c1 ++ [Reaction.mk userId now]) c1
  else c1.

(** The schema method [removeReaction]; the controller of the same name
    comes with the handlers. *)
Definition removeReactionOf (userId : UserId) (c : Comment) : Comment :=
  let c1 := set_likes (filter (notByUser userId) (likes c)) c in
  set_dislikes (filter (notByUser userId) (dislikes c1)) c1.

Definition canModify (c : Comment) (userId : UserId) : bool :=
  String.eqb (author c) userId.

(** The three reaction operations, each with the caller and the time of
    the call. *)
Inductive ReactionOp : Type :=
| OpLike (userId : UserId) (now : Z)
| OpDislike (userId : UserId) (now : Z)
| OpRemove (userId : UserId).

Definition applyOp (c : Comment) (op : ReactionOp) : Comment :=
  match op with
  | OpLike u now => addLike now u c
  | OpDislike u now => addDislike now u c
  | OpRemove u => removeReactionOf u c
  end.

Definition applyOps (ops : list ReactionOp) (c : Comment) : Comment :=
  fold_left applyOp ops c.

(** The users of a reaction list. *)
Definition usersOf (l : list Reaction.t) : list UserId :=
  map Reaction.user l.

(** The invariant of the data model: one entry per user in each list,
    and no user in both. *)
Definition reactionsOk (c : Comment) : Prop :=
  NoDup (usersOf (likes c)) /\
  NoDup (usersOf (dislikes c)) /\
  (forall u, In u (usersOf (likes c)) -> ~ In u (usersOf (dislikes c))).

(** The state of one user on one comment (section 4.1). *)
Inductive UserState : Type := NONE | LIKED | DISLIKED.

Definition userState (c : Comment) (u : UserId) : UserState :=
  if isLikedBy c u then LIKED
  else if isDislikedBy c u then DISLIKED
  else NONE.

(* ================================================================= *)
(** ** The collection and the broadcast channel *)

(** Payload of [commentReaction] and [replyReaction]. *)
Module ReactionData.
Record t : Type := mk {
  commentId : CommentId;
  type : string;
  likeCount : nat;
  dislikeCount : nat;
  userId : UserId
}.
End ReactionData.

(** What [req.io.emit] sends.  [commentDeleted] is only emitted for a
    top-level comment, where [totalCount] has been computed. *)
Inductive Event : Type :=
| newComment (comment : Comment) (totalCount : nat)
| newReply (comment : Comment)
| commentUpdated (comment : Comment)
| replyUpdated (comment : Comment)
| commentDeleted (id : CommentId) (totalCount : nat)
| replyDeleted (id : CommentId)
| commentReaction (data : ReactionData.t)
| replyReaction (data : ReactionData.t).

Record State : Type := mkState {
  comments : list Comment;
  emitted : list Event
}.

Definition hasId (id : CommentId) (c : Comment) : bool :=
  String.eqb (_id c) id.

(** [Comment.findById] *)
Definition findById (id : CommentId) (db : list Comment) : option Comment :=
  find (hasId id) db.

(** [comment.save()] of a document that was read from the collection. *)
Definition save (c : Comment) (db : list Comment) : list Comment :=
  map (fun d => if hasId (_id c) d then c else d) db.

(** [Comment.countDocuments(query)] *)
Definition countDocuments (query : Comment -> bool) (db : list Comment) : nat :=
  length (filter query db).

(** Every stored comment has well-formed reaction lists. *)
Definition storeOk (st : State) : Prop :=
  Forall reactionsOk (comments st).

(** The comment a request names is missing or inactive. *)
Definition gone (id : CommentId) (st : State) : Prop :=
  findById id (comments st) = None \/
  exists c, findById id (comments st) = Some c /\ isActive c = false.

Definition emit (e : Event) (st : State) : State :=
  mkState (comments st) (emitted st ++ [e]).

Definition isSome {A : Type} (o : option A) : bool :=
  match o with Some _ => true | None => false end.

(** A string in a condition, and [s || null]: the empty string counts
    as absent. *)
Definition truthy (o : option string) : option string :=
  match o with
  | Some EmptyString => None
  | _ => o
  end.

(** The query [{ isActive: true, parentComment: p }]. *)
Definition activeWithParent (p : option CommentId) (c : Comment) : bool :=
  isActive c &&
  match p, parentComment c with
  | None, None => true
  | Some x, Some y => String.eqb y x
  | _, _ => false
  end.

(* ================================================================= *)
(** ** Validation (utils/validation.js and the schema) *)

(** [body('content').trim().isLength({ min: 1, max: 500 }).escape()]:
    the sanitised content, or [None] when the chain records an error. *)
Definition validateContent (raw : string) : option string :=
  let t := Js.trim raw in
  if (1 <=? String.length t) && (String.length t <=? 500)
  then Some (Js.escape t)
  else None.

(** The length the validator measures. *)
Definition trimmedLength (raw : string) : nat := String.length (Js.trim raw).

(** [body('parentComment').optional().isMongoId()] *)
Definition validateParent (p : option string) : bool :=
  match p with
  | None => true
  | Some s => Js.isMongoId s
  end.

Module Body.
Record t : Type := mk { content : string; parentComment : option string }.
End Body.

(** [validateCreateComment] followed by [validationResult(req)]: the
    body as the controller reads it, or [None] when there are errors. *)
Definition validateCreateComment (b : Body.t) : option Body.t :=
  match validateContent (Body.content b) with
  | Some c =>
      if validateParent (Body.parentComment b)
      then Some (Body.mk c (Body.parentComment b))
      else None
  | None => None
  end.

Definition validateUpdateComment (raw : string) : option string :=
  validateContent raw.

(** The [content] path of the schema: [trim: true], required,
    [maxlength: 1000].  [None] is the ValidationError that
    [Comment.create] and [save] raise. *)
Definition schemaContent (txt : string) : option string :=
  let t := Js.trim txt in
  if (String.length t =? 0) || (1000 <? String.length t)
  then None
  else Some t.

(** [validateObjectId(param)], which the routes run before every handler
    that takes an id. *)
Definition validateObjectId (id : string) : bool := Js.isHex24 id.

(* ================================================================= *)
(** ** Responses *)

Module View.
(** A lean document with the fields the list handlers add.
    [replyCount] is populated by [getComments] only. *)
Record t : Type := mk {
  doc : Comment;
  replyCount : option nat;
  isLikedByUser : bool;
  isDislikedByUser : bool;
  canEdit : bool;
  likeCount : nat;
  dislikeCount : nat;
  engagementScore : Z
}.
End View.

Module Pagination.
Record t : Type := mk {
  currentPage : Z;
  limit : Z;
  total : Z;
  totalPages : Z;
  hasNextPage : bool;
  hasPrevPage : bool;
  isFirstPage : bool;
  isLastPage : bool;
  startIndex : Z;
  endIndex : Z;
  remainingItems : Z
}.
End Pagination.

Inductive Response : Type :=
| ValidationErrors
| ParentNotFound
| CommentNotFound
| NotAuthorized
| ServerError
| Created (comment : Comment)
| Updated (comment : Comment)
| Deleted
| Reacted (likeCount dislikeCount : nat) (isLikedByUser isDislikedByUser : bool)
| InvalidPagination
| InvalidSort
| InvalidParentId
| InvalidCommentId
| ParentInactive
| PageExceeds (currentPage totalPages total : Z)
| Listed (items : list View.t) (pagination : Pagination.t).

(** The HTTP status each response is sent with. *)
Definition status (r : Response) : Z :=
  match r with
  | ValidationErrors | ParentNotFound => 400
  | CommentNotFound | ParentInactive => 404
  | NotAuthorized => 403
  | ServerError => 500
  | Created _ => 201
  | Updated _ | Deleted | Reacted _ _ _ _ | Listed _ _ => 200
  | InvalidPagination | InvalidSort | InvalidParentId | InvalidCommentId
  | PageExceeds _ _ _ => 400
  end%Z.

Definition success (r : Response) : bool :=
  match r with
  | Created _ | Updated _ | Deleted | Reacted _ _ _ _ | Listed _ _ => true
  | _ => false
  end.

(* ================================================================= *)
(** ** Mutating handlers (controllers/commentController.js)

    Each handler runs behind [protect], so the caller's id is given.
    The database answers every call it can: the rejections the [catch]
    blocks turn into a 500 are here the ValidationError of the schema
    and, in [createComment], the CastError of [findById] on a parent id
    that is no ObjectId (the validator lets a [0x] or [0h] prefix
    through).  A lost connection, which can reject any [await], also
    one that follows a write, is not part of these definitions. *)

Definition createComment (now : Z) (freshId : CommentId) (caller : UserId)
    (body : Body.t) (st : State) : Response * State :=
  match validateCreateComment body with
  | None => (ValidationErrors, st)
  | Some b =>
      let parent := truthy (Body.parentComment b) in
      let castFails :=
        match parent with
        | Some p => negb (Js.isHex24 p)
        | None => false
        end in
      let parentOk :=
        match parent with
        | Some p =>
            match findById p (comments st) with
            | Some parentExists => isActive parentExists
            | None => false
            end
        | None => true
        end in
      if castFails then (ServerError, st)
      else if negb parentOk then (ParentNotFound, st)
      else
        match schemaContent (Body.content b) with
        | None => (ServerError, st)
        | Some txt =>
            let comment :=
              mkComment freshId txt caller parent [] [] false None true now in
            let db := comments st ++ [comment] in
            let totalCount := countDocuments (activeWithParent None) db in
            let st1 := mkState db (emitted st) in
            (Created comment,
             emit (if isSome parent then newReply comment
                   else newComment comment totalCount) st1)
        end
  end.

Definition updateComment (now : Z) (caller : UserId) (id : CommentId)
    (raw : string) (st : State) : Response * State :=
  match validateUpdateComment raw with
  | None => (ValidationErrors, st)
  | Some txt =>
      match findById id (comments st) with
      | None => (CommentNotFound, st)
      | Some comment =>
          if negb (isActive comment) then (CommentNotFound, st)
          else if negb (canModify comment caller) then (NotAuthorized, st)
          else
            match schemaContent txt with
            | None => (ServerError, st)
            | Some txt' =>
                let comment' := set_edited txt' now comment in
                let st1 := mkState (save comment' (comments st)) (emitted st) in
                (Updated comment',
                 emit (if isSome (parentComment comment')
                       then replyUpdated comment'
                       else commentUpdated comment') st1)
            end
      end
  end.

Definition deleteComment (caller : UserId) (id : CommentId) (st : State)
    : Response * State :=
  match findById id (comments st) with
  | None => (CommentNotFound, st)
  | Some comment =>
      if negb (canModify comment caller) then (NotAuthorized, st)
      else
        let comment' := set_isActive false comment in
        let db := save comment' (comments st) in
        let st1 := mkState db (emitted st) in
        (Deleted,
         emit (if isSome (parentComment comment')
               then replyDeleted (_id comment')
               else commentDeleted (_id comment')
                      (countDocuments (activeWithParent None) db)) st1)
  end.

(** The part the three reaction handlers share: look the comment up,
    apply the model method, save, broadcast, answer with the counts. *)
Definition react (kind : string) (method : Comment -> Comment)
    (liked disliked : bool) (caller : UserId) (id : CommentId) (st : State)
    : Response * State :=
  match findById id (comments st) with
  | None => (CommentNotFound, st)
  | Some comment =>
      if negb (isActive comment) then (CommentNotFound, st)
      else
        let comment' := method comment in
        let st1 := mkState (save comment' (comments st)) (emitted st) in
        let reactionData :=
          ReactionData.mk (_id comment') kind (likeCount comment')
                          (dislikeCount comment') caller in
        (Reacted (likeCount comment') (dislikeCount comment') liked disliked,
         emit (if isSome (parentComment comment')
               then replyReaction reactionData
               else commentReaction reactionData) st1)
  end.

Definition likeComment (now : Z) (caller : UserId) (id : CommentId)
    (st : State) : Response * State :=
  react "like" (addLike now caller) true false caller id st.

Definition dislikeComment (now : Z) (caller : UserId) (id : CommentId)
    (st : State) : Response * State :=
  react "dislike" (addDislike now caller) false true caller id st.

Definition removeReaction (caller : UserId) (id : CommentId) (st : State)
    : Response * State :=
  react "remove" (removeReactionOf caller) false false caller id st.

(* ================================================================= *)
(** ** Sorting *)

(** A stable insertion sort: [x] goes in front of the first element
    [y] with [before x y], so elements that compare equal keep their
    order.  It stands for the sort of the database and for
    [Array.prototype.sort] of the client.  Among documents that tie
    the database promises no order: this sort gives one of the orders
    it can give. *)
Fixpoint insertSorted {A : Type} (before : A -> A -> bool) (x : A)
    (l : list A) : list A :=
  match l with
  | [] => [x]
  | y :: l' => if before x y then x :: l else y :: insertSorted before x l'
  end.

Definition stableSort {A : Type} (before : A -> A -> bool) (l : list A)
    : list A :=
  fold_right (insertSorted before) [] l.

(** Two neighbours of a sorted list. *)
Definition inOrder {A : Type} (before : A -> A -> bool) (x y : A) : Prop :=
  before x y = true.

(** The sort documents the handlers build; every key has direction -1. *)
Inductive SortField : Type := ByLikes | ByDislikes | ByCreatedAt.

Definition SortObj := list SortField.

(** [Math.ceil(a / b)] for a positive [b]. *)
Definition ceilDiv (a b : Z) : Z := (- ((- a) / b))%Z.

(** [parseInt(x) || d]: [None] is NaN; NaN and 0 give the default. *)
Definition orDefault (o : option Z) (d : Z) : Z :=
  match o with
  | None => d
  | Some 0%Z => d
  | Some n => n
  end.

Module Query.
(** [req.query]: [page] and [limit] are the results of [parseInt]. *)
Record t : Type := mk {
  page : option Z;
  limit : option Z;
  sort : option string;
  parentComment : option string
}.
End Query.

(** The first lines of both list handlers: [page] is raised to 1,
    [limit] is brought into 1..100, [sort] defaults to newest. *)
Definition pageOf (q : Query.t) : Z :=
  Z.max 1 (orDefault (Query.page q) 1).

Definition limitOf (q : Query.t) : Z :=
  Z.min (Z.max 1 (orDefault (Query.limit q) 10)) 100.

Definition sortOf (q : Query.t) : string :=
  match truthy (Query.sort q) with Some s => s | None => "newest" end.

Definition validSortOptions : list string :=
  ["newest"; "mostLiked"; "mostDisliked"].

Definition includes (l : list string) (s : string) : bool :=
  existsb (String.eqb s) l.

(** The [switch (sort)] of both list handlers. *)
Definition sortObjOf (sort : string) : SortObj :=
  if String.eqb sort "mostLiked" then [ByLikes; ByCreatedAt]
  else if String.eqb sort "mostDisliked" then [ByDislikes; ByCreatedAt]
  else [ByCreatedAt].

(** The pagination block of a successful list response. *)
Definition paginationOf (page limit total : Z) : Pagination.t :=
  let skip := ((page - 1) * limit)%Z in
  let totalPages := ceilDiv total limit in
  Pagination.mk page limit total totalPages
    (page <? totalPages)%Z
    (1 <? page)%Z
    (page =? 1)%Z
    (page =? totalPages)%Z
    (skip + 1)%Z
    (Z.min (skip + limit) total)
    (Z.max 0 (total - (skip + limit))).

(** The fields both list handlers add to each document. *)
Definition annotate (user : option UserId) (replyCount : option nat)
    (c : Comment) : View.t :=
  match truthy user with
  | Some uid =>
      View.mk c replyCount
        (existsb (byUser uid) (likes c))
        (existsb (byUser uid) (dislikes c))
        (String.eqb (author c) uid)
        (length (likes c)) (length (dislikes c))
        (Z.of_nat (length (likes c)) - Z.of_nat (length (dislikes c)))%Z
  | None =>
      View.mk c replyCount false false false
        (length (likes c)) (length (dislikes c))
        (Z.of_nat (length (likes c)) - Z.of_nat (length (dislikes c)))%Z
  end.

(** The virtual [replyCount]: active comments whose parent is [c]. *)
Definition replyCountOf (db : list Comment) (c : Comment) : nat :=
  countDocuments (activeWithParent (Some (_id c))) db.

(** The query each handler counts and pages over. *)
Definition commentsQuery (q : Query.t) : Comment -> bool :=
  activeWithParent (truthy (Query.parentComment q)).

Definition totalOf (query : Comment -> bool) (st : State) : Z :=
  Z.of_nat (countDocuments query (comments st)).

Section Listing.

(** Two things the database library decides.  [bson_compare] is
    MongoDB's order on the stored entries of a reaction array (the
    comparison of embedded documents).  [ObjectId_isValid] is
    [mongoose.Types.ObjectId.isValid] on a string. *)
Variable bson_compare : Reaction.t -> Reaction.t -> comparison.
Variable ObjectId_isValid : string -> bool.

(** The key MongoDB sorts an array field by when the direction is
    descending: the largest element; an empty array has none and
    sorts below every array that has one. *)
Fixpoint largest (l : list Reaction.t) : option Reaction.t :=
  match l with
  | [] => None
  | r :: l' =>
      match largest l' with
      | None => Some r
      | Some m =>
          match bson_compare r m with
          | Gt => Some r
          | _ => Some m
          end
      end
  end.

Definition compareKey (a b : option Reaction.t) : comparison :=
  match a, b with
  | None, None => Eq
  | None, Some _ => Lt
  | Some _, None => Gt
  | Some x, Some y => bson_compare x y
  end.

Definition compareField (f : SortField) (a b : Comment) : comparison :=
  match f with
  | ByLikes => compareKey (largest (likes a)) (largest (likes b))
  | ByDislikes => compareKey (largest (dislikes a)) (largest (dislikes b))
  | ByCreatedAt => Z.compare (createdAt a) (createdAt b)
  end.

Fixpoint compareBy (s : SortObj) (a b : Comment) : comparison :=
  match s with
  | [] => Eq
  | f :: s' =>
      match compareField f a b with
      | Eq => compareBy s' a b
      | r => r
      end
  end.

(** Descending on every key: [a] comes first unless it is smaller. *)
Definition beforeDesc (s : SortObj) (a b : Comment) : bool :=
  match compareBy s a b with
  | Lt => false
  | _ => true
  end.

(** [Comment.find(query).sort(sortObj).skip(skip).limit(limit)] *)
Definition findPage (query : Comment -> bool) (s : SortObj)
    (skip limit : Z) (db : list Comment) : list Comment :=
  firstn (Z.to_nat limit)
    (skipn (Z.to_nat skip) (stableSort (beforeDesc s) (filter query db))).

(** What both list handlers do once the query is fixed. *)
Definition listPage (user : option UserId) (withReplyCount : bool)
    (query : Comment -> bool) (s : SortObj) (page limit : Z)
    (db : list Comment) : Response :=
  let skip := ((page - 1) * limit)%Z in
  let found := findPage query s skip limit db in
  let total := Z.of_nat (countDocuments query db) in
  let totalPages := ceilDiv total limit in
  if (length found =? 0) && (totalPages <? page)%Z && (0 <? totalPages)%Z
  then PageExceeds page totalPages total
  else
    Listed
      (map (fun c => annotate user
              (if withReplyCount then Some (replyCountOf db c) else None) c)
           found)
      (paginationOf page limit total).

Definition getComments (user : option UserId) (q : Query.t) (st : State)
    : Response :=
  let page := pageOf q in
  let limit := limitOf q in
  let sort := sortOf q in
  let parentCommentId := Query.parentComment q in
  let skip := ((page - 1) * limit)%Z in
  if (skip <? 0)%Z then InvalidPagination
  else if negb (includes validSortOptions sort) then InvalidSort
  else
    let sortObj := sortObjOf sort in
    let query := activeWithParent (truthy parentCommentId) in
    match truthy parentCommentId with
    | Some p =>
        if negb (ObjectId_isValid p) then InvalidParentId
        else listPage user true query sortObj page limit (comments st)
    | None => listPage user true query sortObj page limit (comments st)
    end.

Definition getReplies (user : option UserId) (id : CommentId)
    (q : Query.t) (st : State) : Response :=
  let page := pageOf q in
  let limit := limitOf q in
  let sort := sortOf q in
  let skip := ((page - 1) * limit)%Z in
  if (skip <? 0)%Z then InvalidPagination
  else if negb (ObjectId_isValid id) then InvalidCommentId
  else if negb (includes validSortOptions sort) then InvalidSort
  else
    let sortObj := sortObjOf sort in
    match findById id (comments st) with
    | None => ParentInactive
    | Some parent =>
        if negb (isActive parent) then ParentInactive
        else
          listPage user false (activeWithParent (Some id)) sortObj
                   page limit (comments st)
    end.

End Listing.

(** One order MongoDB can have on the stored reaction entries: field
    by field, [user] first and [createdAt] second. *)
Definition compareString (a b : string) : comparison := String.compare a b.

Definition userThenDate (x y : Reaction.t) : comparison :=
  match compareString (Reaction.user x) (Reaction.user y) with
  | Eq => Z.compare (Reaction.createdAt x) (Reaction.createdAt y)
  | r => r
  end.

(** The other field order: [createdAt] first and [user] second. *)
Definition dateThenUser (x y : Reaction.t) : comparison :=
  match Z.compare (Reaction.createdAt x) (Reaction.createdAt y) with
  | Eq => compareString (Reaction.user x) (Reaction.user y)
  | r => r
  end.

(* ================================================================= *)
(** ** The client: socket handlers of the CommentItem component *)

Module Client.

(** The [Comment] interface of services/api.ts, with the fields the
    handlers read or write. *)
Record Comment : Type := mkComment {
  _id : CommentId;
  content : string;
  parentComment : option CommentId;
  likeCount : nat;
  dislikeCount : nat;
  replyCount : option nat;
  isLikedByUser : bool;
  isDislikedByUser : bool;
  createdAt : Z
}.

(** The state of one CommentItem: the comment it shows, the replies
    loaded from the server and the replies received over the
    socket. *)
Record Item : Type := mkItem {
  currentComment : Comment;
  replies : list Comment;
  realTimeReplies : list Comment
}.

Definition set_counts (l d : nat) (c : Comment) : Comment :=
  mkComment (_id c) (content c) (parentComment c) l d (replyCount c)
            (isLikedByUser c) (isDislikedByUser c) (createdAt c).

Definition set_flags (liked disliked : bool) (c : Comment) : Comment :=
  mkComment (_id c) (content c) (parentComment c) (likeCount c)
            (dislikeCount c) (replyCount c) liked disliked (createdAt c).

Definition set_replyCount (n : nat) (c : Comment) : Comment :=
  mkComment (_id c) (content c) (parentComment c) (likeCount c)
            (dislikeCount c) (Some n) (isLikedByUser c)
            (isDislikedByUser c) (createdAt c).

Definition set_currentComment (c : Comment) (st : Item) : Item :=
  mkItem c (replies st) (realTimeReplies st).

(** [data.userId === user?.id]; [user] is [None] when nobody is
    logged in. *)
Definition isCaller (user : option UserId) (data : ReactionData.t) : bool :=
  match user with
  | Some uid => String.eqb (ReactionData.userId data) uid
  | None => false
  end.

(** The object both reaction handlers build: the counts of the event,
    and the flags of the event's type when the event is the
    caller's. *)
Definition applyReaction (user : option UserId) (data : ReactionData.t)
    (prev : Comment) : Comment :=
  let newComment :=
    set_counts (ReactionData.likeCount data)
               (ReactionData.dislikeCount data) prev in
  if isCaller user data then
    if String.eqb (ReactionData.type data) "like"
    then set_flags true false newComment
    else if String.eqb (ReactionData.type data) "dislike"
    then set_flags false true newComment
    else if String.eqb (ReactionData.type data) "remove"
    then set_flags false false newComment
    else newComment
  else newComment.

Definition handleCommentReaction (user : option UserId)
    (data : ReactionData.t) (st : Item) : Item :=
  if String.eqb (ReactionData.commentId data) (_id (currentComment st))
  then set_currentComment (applyReaction user data (currentComment st)) st
  else st.

Definition updateReplyReaction (user : option UserId)
    (data : ReactionData.t) (reply : Comment) : Comment :=
  if String.eqb (_id reply) (ReactionData.commentId data)
  then applyReaction user data reply
  else reply.

Definition handleReplyReaction (user : option UserId)
    (data : ReactionData.t) (st : Item) : Item :=
  if String.eqb (ReactionData.commentId data) (_id (currentComment st))
  then st
  else mkItem (currentComment st)
              (map (updateReplyReaction user data) (replies st))
              (map (updateReplyReaction user data) (realTimeReplies st)).

Definition hasId (id : CommentId) (c : Comment) : bool :=
  String.eqb (_id c) id.

Definition orZero (o : option nat) : nat :=
  match o with Some n => n | None => 0 end.

Definition handleNewReply (newComment : Comment) (st : Item) : Item :=
  match parentComment newComment with
  | Some p =>
      if String.eqb p (_id (currentComment st)) then
        let exists_ := existsb (hasId (_id newComment)) (realTimeReplies st) in
        mkItem
          (set_replyCount (orZero (replyCount (currentComment st)) + 1)
                          (currentComment st))
          (replies st)
          (if negb exists_ then newComment :: realTimeReplies st
           else realTimeReplies st)
      else st
  | None => st
  end.

(** The comparator [(a, b) => time(b) - time(a)] is at most 0 when [a]
    is not older than [b]. *)
Definition newerFirst (a b : Comment) : bool :=
  (createdAt b - createdAt a <=? 0)%Z.

(** The list the component renders: socket replies whose id is not
    among the server replies, then the server replies, newest
    first. *)
Definition allReplies (st : Item) : list Comment :=
  let serverReplyIds := map _id (replies st) in
  let uniqueRealTimeReplies :=
    filter (fun reply => negb (existsb (String.eqb (_id reply)) serverReplyIds))
           (realTimeReplies st) in
  stableSort newerFirst (uniqueRealTimeReplies ++ replies st).

(** The [commentReaction] listener of the CommentList component, on
    one comment of the list it maps over. *)
Definition listReaction (user : option UserId) (data : ReactionData.t)
    (comment : Comment) : Comment :=
  if String.eqb (_id comment) (ReactionData.commentId data) then
    mkComment (_id comment) (content comment) (parentComment comment)
      (ReactionData.likeCount data) (ReactionData.dislikeCount data)
      (replyCount comment)
      (if isCaller user data then
         if String.eqb (ReactionData.type data) "like" then true
         else if String.eqb (ReactionData.type data) "remove" then false
         else isLikedByUser comment
       else isLikedByUser comment)
      (if isCaller user data then
         if String.eqb (ReactionData.type data) "dislike" then true
         else if String.eqb (ReactionData.type data) "remove" then false
         else isDislikedByUser comment
       else isDislikedByUser comment)
      (createdAt comment)
  else comment.

Definition onCommentReaction (user : option UserId) (data : ReactionData.t)
    (comments : list Comment) : list Comment :=
  map (listReaction user data) comments.

(** The ids of a list of replies. *)
Definition ids (l : list Comment) : list CommentId := map _id l.

(** The socket replies that are rendered: those whose id is not among
    the server replies. *)
Definition fresh (server : list Comment) (reply : Comment) : bool :=
  negb (existsb (String.eqb (_id reply)) (map _id server)).

End Client.

(* ================================================================= *)
(** ** Sample data *)

Module Sample.

Definition idA : CommentId := "aaaaaaaaaaaaaaaaaaaaaaaa".
Definition idB : CommentId := "bbbbbbbbbbbbbbbbbbbbbbbb".
Definition idC : CommentId := "cccccccccccccccccccccccc".

Definition ann : UserId := "0000000000000000000000a1".
Definition bob : UserId := "0000000000000000000000b2".
Definition cyd : UserId := "0000000000000000000000c3".

(** A top-level comment and a reply to it, both active. *)
Definition top : Comment :=
  mkComment idA "first" ann None [] [] false None true 100.

Definition reply : Comment :=
  mkComment idB "second" bob (Some idA) [] [] false None true 200.

Definition thread : State := mkState [top; reply] [].

(** A comment its author has deleted. *)
Definition deleted : Comment :=
  mkComment idA "first" ann None [] [] false None false 100.

Definition afterDelete : State := mkState [deleted] [].

(** 201 apostrophes. *)
Definition quotes : string := Js.repeat "'"%char 201.

Definition empty : State := mkState [] [].

(** Two top-level comments: the newer one has two likes, the older
    one has one like, by the user with the largest id and at the
    latest time. *)
Definition twoLikes : Comment :=
  mkComment idA "liked twice" ann None
    [Reaction.mk ann 10; Reaction.mk bob 20] [] false None true 200.

Definition oneLike : Comment :=
  mkComment idB "liked once" bob None
    [Reaction.mk cyd 30] [] false None true 100.

Definition liked : State := mkState [twoLikes; oneLike] [].

(** Twenty-five top-level comments, created at times 1 to 25. *)
Definition numbered (i : nat) : Comment :=
  mkComment (Js.repeat "a"%char i ++ Js.repeat "b"%char (24 - i))%string
            "text" ann None [] [] false None true (Z.of_nat (S i)).

Definition many : State := mkState (map numbered (seq 0 25)) [].

Definition page (n : Z) : Query.t :=
  Query.mk (Some n) (Some 10%Z) None None.

Definition byMostLiked : Query.t :=
  Query.mk None None (Some "mostLiked") None.

Definition pageTwo : Query.t := Query.mk (Some 2%Z) None None None.

(** A CommentItem that shows [idA] with one reply received over the
    socket, and a like of [idA] by [bob]. *)
Definition shown : Client.Comment :=
  Client.mkComment idA "first" None 0 0 (Some 1) false false 100.

Definition received : Client.Comment :=
  Client.mkComment idB "second" (Some idA) 0 0 None false false 200.

Definition item : Client.Item := Client.mkItem shown [] [received].

Definition bobLikes : ReactionData.t :=
  ReactionData.mk idA "like" 1 0 bob.

End Sample.

(* ================================================================= *)
(** ** Further notions for the back end *)

(** The user an operation is made by. *)
Definition opUser (op : ReactionOp) : UserId :=
  match op with
  | OpLike u _ => u
  | OpDislike u _ => u
  | OpRemove u => u
  end.

(** The characters [escape] replaces, the ampersand apart: none of them
    is part of an entity. *)
Definition isMarkup (c : ascii) : bool :=
  let n := nat_of_ascii c in
  (n =? 34) || (n =? 39) || (n =? 60) || (n =? 62) || (n =? 47)
  || (n =? 92) || (n =? 96).

Definition hasMarkup (s : string) : bool :=
  existsb isMarkup (list_ascii_of_string s).

(** 1 for [true], 0 for [false]. *)
Definition indicator (b : bool) : nat := if b then 1 else 0.

(** The events that are about a reply. *)
Definition isReplyEvent (e : Event) : bool :=
  match e with
  | newReply _ | replyUpdated _ | replyDeleted _ | replyReaction _ => true
  | _ => false
  end.

(** What a handler may do to one stored document when the request names
    [id]: keep its id, and keep all of it when its id is another. *)
Definition touchesOnly (id : CommentId) (d d' : Comment) : Prop :=
  _id d' = _id d /\ (_id d <> id -> d' = d).

(** The same request for another page. *)
Definition withPage (n : Z) (q : Query.t) : Query.t :=
  Query.mk (Some n) (Query.limit q) (Query.sort q) (Query.parentComment q).

(** The documents of a list answer; an error carries none. *)
Definition docsOf (r : Response) : list Comment :=
  match r with
  | Listed items _ => map View.doc items
  | _ => []
  end.

(** An order a sort can follow: of two documents one goes before the
    other, and going before is transitive. *)
Definition linear {A : Type} (before : A -> A -> bool) : Prop :=
  (forall x y, before x y = false -> before y x = true) /\
  (forall x y z, before x y = true -> before y z = true -> before x z = true).

(** No two different elements of [l] tie: each goes before the other
    only when they are the same. *)
Definition noTies {A : Type} (before : A -> A -> bool) (l : list A) : Prop :=
  forall x y, In x l -> In y l ->
              before x y = true -> before y x = true -> x = y.

(** The same request with another [limit], or none. *)
Definition withLimit (l : option Z) (q : Query.t) : Query.t :=
  Query.mk (Query.page q) l (Query.sort q) (Query.parentComment q).

(** A request to one of the six mutating routes, with what the server
    adds to it: the time, and for a create the id the database
    assigns. *)
Inductive Request : Type :=
| ReqCreate (now : Z) (freshId : CommentId) (caller : UserId) (body : Body.t)
| ReqUpdate (now : Z) (caller : UserId) (id : CommentId) (raw : string)
| ReqDelete (caller : UserId) (id : CommentId)
| ReqLike (now : Z) (caller : UserId) (id : CommentId)
| ReqDislike (now : Z) (caller : UserId) (id : CommentId)
| ReqRemove (caller : UserId) (id : CommentId).

Definition handle (r : Request) (st : State) : Response * State :=
  match r with
  | ReqCreate now freshId caller body =>
      createComment now freshId caller body st
  | ReqUpdate now caller id raw => updateComment now caller id raw st
  | ReqDelete caller id => deleteComment caller id st
  | ReqLike now caller id => likeComment now caller id st
  | ReqDislike now caller id => dislikeComment now caller id st
  | ReqRemove caller id => removeReaction caller id st
  end.

(** The collection and the channel after a sequence of requests. *)
Definition serve (st : State) (requests : list Request) : State :=
  fold_left (fun s r => snd (handle r s)) requests st.

(** What holds of every comment of a collection [db] that the handlers
    built: well-formed reaction lists, [isEdited] exactly when there is
    an [editedAt], a sanitised content of 1 to 1000 characters, and a
    parent, if any, that is stored. *)
Definition wellFormedIn (db : list Comment) (c : Comment) : Prop :=
  reactionsOk c /\
  isEdited c = isSome (editedAt c) /\
  hasMarkup (content c) = false /\
  (1 <= String.length (content c) <= 1000) /\
  (forall p, parentComment c = Some p -> In p (map _id db)).

Definition wellFormed (st : State) : Prop :=
  Forall (wellFormedIn (comments st)) (comments st).

(** No two stored comments share an id. *)
Definition uniqueIds (st : State) : Prop :=
  NoDup (map _id (comments st)).

(* ================================================================= *)
(** ** The client: the other handlers of CommentItem *)

Module CommentItem.
Import Client.

(** [{ ...prev, replyCount: Math.max(0, (prev.replyCount || 0) - 1) }] *)
Definition decrement (prev : Comment) : Comment :=
  set_replyCount
    (Z.to_nat (Z.max 0 (Z.of_nat (orZero (replyCount prev)) - 1))) prev.

(** [reply => reply._id !== commentId] *)
Definition isNot (commentId : CommentId) (reply : Comment) : bool :=
  negb (String.eqb (_id reply) commentId).

(** [handleReplyDeleted]: each of the two updaters lowers the counter
    when its list holds the reply, and filters the reply out. *)
Definition handleReplyDeleted (commentId : CommentId) (st : Item) : Item :=
  let c1 :=
    if isSome (find (hasId commentId) (replies st))
    then decrement (currentComment st) else currentComment st in
  let c2 :=
    if isSome (find (hasId commentId) (realTimeReplies st))
    then decrement c1 else c1 in
  mkItem c2 (filter (isNot commentId) (replies st))
         (filter (isNot commentId) (realTimeReplies st)).

(** [reply => reply._id === updatedComment._id ? updatedComment : reply] *)
Definition replaceBy (updatedComment reply : Comment) : Comment :=
  if String.eqb (_id reply) (_id updatedComment) then updatedComment
  else reply.

Definition handleReplyUpdated (updatedComment : Comment) (st : Item) : Item :=
  mkItem (currentComment st)
         (map (replaceBy updatedComment) (replies st))
         (map (replaceBy updatedComment) (realTimeReplies st)).

End CommentItem.

(* ================================================================= *)
(** ** The client: the CommentList component *)

Module CommentList.
Import Client.

(** The pagination state of the component. *)
Record Paging : Type := mkPaging {
  currentPage : Z;
  totalPages : Z;
  total : Z;
  hasNextPage : bool;
  hasPrevPage : bool;
  isFirstPage : bool;
  isLastPage : bool;
  startIndex : Z;
  endIndex : Z;
  remainingItems : Z
}.

Record t : Type := mk {
  comments : list Comment;
  pagination : Paging
}.

(** [x || y] on numbers. *)
Definition orElse (x y : Z) : Z := if (x =? 0)%Z then y else x.

(** The mapping of the back end's pagination block in
    [fetchComments]. *)
Definition fromBackend (b : Pagination.t) : Paging :=
  mkPaging
    (Pagination.currentPage b)
    (Pagination.totalPages b)
    (Pagination.total b)
    (Pagination.hasNextPage b)
    (Pagination.hasPrevPage b)
    (Pagination.isFirstPage b || (Pagination.currentPage b =? 1)%Z)
    (Pagination.isLastPage b
     || (Pagination.currentPage b =? Pagination.totalPages b)%Z)
    (orElse (Pagination.startIndex b)
            ((Pagination.currentPage b - 1) * 10 + 1))
    (orElse (Pagination.endIndex b)
            (Z.min (Pagination.currentPage b * 10) (Pagination.total b)))
    (orElse (Pagination.remainingItems b)
            (Z.max 0 (Pagination.total b - Pagination.currentPage b * 10))).

(** The update both [newComment] and [commentDeleted] make when the
    event carries a total. *)
Definition refreshed (totalCount : Z) (prev : Paging) : Paging :=
  mkPaging (currentPage prev) (ceilDiv totalCount 10) totalCount
           (hasNextPage prev) (hasPrevPage prev) (isFirstPage prev)
           (isLastPage prev) (startIndex prev)
           (Z.min totalCount (currentPage prev * 10))
           (Z.max 0 (totalCount - currentPage prev * 10)).

Definition onNewComment (comment : Comment) (totalCount : option Z)
    (st : t) : t :=
  if isSome (truthy (parentComment comment)) then st
  else mk (comment :: comments st)
          (match totalCount with
           | Some n => refreshed n (pagination st)
           | None => pagination st
           end).

Definition addReply (parent : CommentId) (comment : Comment) : Comment :=
  if String.eqb (_id comment) parent
  then set_replyCount (orZero (replyCount comment) + 1) comment
  else comment.

Definition onNewReply (newComment : Comment) (st : t) : t :=
  match truthy (parentComment newComment) with
  | Some parent => mk (map (addReply parent) (comments st)) (pagination st)
  | None => st
  end.

Definition onCommentUpdated (updatedComment : Comment) (st : t) : t :=
  mk (map (CommentItem.replaceBy updatedComment) (comments st))
     (pagination st).

Definition dropReply (parent : CommentId) (comment : Comment) : Comment :=
  if String.eqb (_id comment) parent then CommentItem.decrement comment
  else comment.

(** [commentDeleted].  [captured] is the [comments] the listener closed
    over when the effect ran; the pagination is refreshed unless the
    comment found there is a reply. *)
Definition onCommentDeleted (captured : list Comment) (id : CommentId)
    (totalCount : option Z) (st : t) : t :=
  let comments' :=
    match find (hasId id) (comments st) with
    | Some deletedComment =>
        match truthy (parentComment deletedComment) with
        | Some parent =>
            filter (CommentItem.isNot id)
                   (map (dropReply parent) (comments st))
        | None => filter (CommentItem.isNot id) (comments st)
        end
    | None => filter (CommentItem.isNot id) (comments st)
    end in
  let staleIsReply :=
    match find (hasId id) captured with
    | Some deletedComment => isSome (truthy (parentComment deletedComment))
    | None => false
    end in
  mk comments'
     (match totalCount with
      | Some n =>
          if staleIsReply then pagination st else refreshed n (pagination st)
      | None => pagination st
      end).

End CommentList.

(* ================================================================= *)
(** ** The client: page controls *)

Module Paging.

(** The pages a [for (let i = a; i <= b; i++)] loop visits. *)
Definition range (a b : Z) : list Z :=
  map (fun i => (a + Z.of_nat i)%Z) (seq 0 (Z.to_nat (b - a + 1))).

(** [renderPageNumbers] of the Pagination component: the numbers of
    the page buttons. *)
Definition renderPageNumbers (currentPage totalPages : Z) : list Z :=
  let maxVisiblePages := 5%Z in
  let startPage := Z.max 1 (currentPage - maxVisiblePages / 2) in
  let endPage := Z.min totalPages (startPage + maxVisiblePages - 1) in
  let startPage :=
    if (endPage - startPage + 1 <? maxVisiblePages)%Z
    then Z.max 1 (endPage - maxVisiblePages + 1)
    else startPage in
  range startPage endPage.

(** An entry of [pageNumbers] of EnhancedPagination: a page or the
    string of three dots. *)
Inductive Entry : Type :=
| Page (n : Z)
| Dots.

Definition pageNumbers (maxVisiblePages currentPage totalPages : Z)
    : list Entry :=
  if (totalPages <=? maxVisiblePages)%Z
  then map Page (range 1 totalPages)
  else
    let halfVisible := ((maxVisiblePages - 3) / 2)%Z in
    let start := Z.max 2 (currentPage - halfVisible) in
    let end_ := Z.min (totalPages - 1) (currentPage + halfVisible) in
    let end_ :=
      if (currentPage <=? halfVisible + 1)%Z then (maxVisiblePages - 2)%Z
      else end_ in
    let start :=
      if (currentPage <=? halfVisible + 1)%Z then start
      else if (totalPages - halfVisible <=? currentPage)%Z
           then (totalPages - maxVisiblePages + 3)%Z
           else start in
    [Page 1]
    ++ (if (2 <? start)%Z then [Dots] else [])
    ++ map Page (range start end_)
    ++ (if (end_ <? totalPages - 1)%Z then [Dots] else [])
    ++ (if (1 <? totalPages)%Z then [Page totalPages] else []).

(** The numbers among the entries. *)
Definition numbers (l : list Entry) : list Z :=
  flat_map (fun e => match e with Page n => [n] | Dots => [] end) l.

(** [handlePageChange]: the page handed to [onPageChange], if any. *)
Definition handlePageChange (totalPages : Z) (loading : bool) (page : Z)
    : option Z :=
  if (page <? 1)%Z || (totalPages <? page)%Z || loading then None
  else Some page.

(** [handleJumpToPage]; [parsed] is [parseInt(jumpToPageValue)], [None]
    for NaN. *)
Definition handleJumpToPage (totalPages : Z) (loading : bool)
    (parsed : option Z) : option Z :=
  match parsed with
  | Some page =>
      if (1 <=? page)%Z && (page <=? totalPages)%Z
      then handlePageChange totalPages loading page
      else None
  | None => None
  end.

End Paging.

(* ================================================================= *)
(** ** The client: utils/formatCount.ts and the two forms *)

Module Format.

(** [count.toString()] of an integer. *)
Definition toString (n : Z) : string :=
  DecimalString.NilZero.string_of_int (Z.to_int n).

(** [formatCount]; [None] is a value that is not a number, or NaN. *)
Definition formatCount (count : option Z) : string :=
  match count with
  | None => "0"
  | Some n => if (99 <? n)%Z then "99+" else toString n
  end.

Definition formatCountWithText (count : option Z) (singular : string)
    (plural : option string) : string :=
  let formattedCount := formatCount count in
  let word :=
    match count with
    | Some 1%Z => singular
    | _ =>
        match truthy plural with
        | Some p => p
        | None => (singular ++ "s")%string
        end
    end in
  (formattedCount ++ " " ++ word)%string.

End Format.

Module CommentForm.

(** The state of the form: the text and whether a typing signal is
    out. *)
Record t : Type := mk { content : string; isTyping : bool }.

Inductive Signal : Type := typing | stopTyping.

(** [handleChange]: the new state and the signal emitted, if any. *)
Definition handleChange (newValue : string) (st : t) : t * list Signal :=
  let content' :=
    if String.length newValue <=? 500 then newValue else content st in
  if negb (isTyping st) && (0 <? String.length newValue)
  then (mk content' true, [typing])
  else if isTyping st && (String.length newValue =? 0)
  then (mk content' false, [stopTyping])
  else (mk content' (isTyping st), []).

Definition handleBlur (st : t) : t * list Signal :=
  if isTyping st then (mk (content st) false, [stopTyping]) else (st, []).

(** [handleSubmit] up to the request: the content sent, or [None] when
    the form refuses to send. *)
Definition submitted (st : t) : option string :=
  if String.length (Js.trim (content st)) =? 0 then None
  else Some (content st).

(** The same for the ReplyForm, which sends the trimmed text. *)
Definition replySubmitted (content : string) : option string :=
  if String.length (Js.trim content) =? 0 then None
  else if 500 <? String.length content then None
  else Some (Js.trim content).

Inductive Input : Type :=
| Change (newValue : string)
| Blur.

Definition step (st : t) (i : Input) : t * list Signal :=
  match i with
  | Change v => handleChange v st
  | Blur => handleBlur st
  end.

(** The state and the signals after a sequence of inputs. *)
Fixpoint run (st : t) (inputs : list Input) : t * list Signal :=
  match inputs with
  | [] => (st, [])
  | i :: rest =>
      let '(st1, out1) := step st i in
      let '(st2, out2) := run st1 rest in
      (st2, out1 ++ out2)
  end.

(** Signals alternate, starting with the one that fits [isTyping]. *)
Fixpoint alternates (typingNow : bool) (l : list Signal) : Prop :=
  match l with
  | [] => True
  | typing :: l' => typingNow = false /\ alternates true l'
  | stopTyping :: l' => typingNow = true /\ alternates false l'
  end.

(** Whether a [typing] is out after the signals [l]. *)
Fixpoint settles (typingNow : bool) (l : list Signal) : bool :=
  match l with
  | [] => typingNow
  | typing :: l' => settles true l'
  | stopTyping :: l' => settles false l'
  end.

End CommentForm.

(* ================================================================= *)
(** * Properties *)

(** The test of [createComment] on the parent id: destruct it where
    it guards the goal. *)
Ltac cast_cases :=
  match goal with
  | |- context [match ?o with Some p => negb (Js.isHex24 p) | None => false end] =>
      destruct (match o with Some p => negb (Js.isHex24 p) | None => false end)
        eqn:?
  end.

(** ** Reaction lists *)

Lemma byUser_true (u : UserId) (r : Reaction.t) :
  byUser u r = true <-> Reaction.user r = u.
Proof. unfold byUser. apply String.eqb_eq. Qed.

Lemma existsb_byUser (u : UserId) (l : list Reaction.t) :
  existsb (byUser u) l = true <-> In u (usersOf l).
Proof.
  unfold usersOf. rewrite existsb_exists, in_map_iff. split.
  - intros [r [Hin Hr]]. exists r. split; [now apply byUser_true | exact Hin].
  - intros [r [Hr Hin]]. exists r. split; [exact Hin | now apply byUser_true].
Qed.

Lemma usersOf_app (l1 l2 : list Reaction.t) :
  usersOf (l1 ++ l2) = usersOf l1 ++ usersOf l2.
Proof. apply map_app. Qed.

Lemma usersOf_filter_In (f : Reaction.t -> bool) (l : list Reaction.t) (v : UserId) :
  In v (usersOf (filter f l)) -> In v (usersOf l).
Proof.
  unfold usersOf. rewrite !in_map_iff. intros [r [Hr Hin]].
  apply filter_In in Hin. exists r. tauto.
Qed.

Lemma usersOf_filter_notByUser (u : UserId) (l : list Reaction.t) :
  ~ In u (usersOf (filter (notByUser u) l)).
Proof.
  unfold usersOf. rewrite in_map_iff. intros [r [Hr Hin]].
  apply filter_In in Hin. destruct Hin as [_ Hn].
  unfold notByUser in Hn. apply negb_true_iff in Hn.
  apply byUser_true in Hr. congruence.
Qed.

Lemma NoDup_usersOf_filter (f : Reaction.t -> bool) (l : list Reaction.t) :
  NoDup (usersOf l) -> NoDup (usersOf (filter f l)).
Proof.
  induction l as [|r l IH]; simpl; intros H.
  - constructor.
  - inversion H as [|x xs Hnotin Hnd]; subst.
    destruct (f r); simpl.
    + constructor; [|now apply IH].
      intros Hin. apply Hnotin. now apply usersOf_filter_In in Hin.
    + now apply IH.
Qed.

Lemma NoDup_snoc (u : UserId) (l : list UserId) :
  NoDup l -> ~ In u l -> NoDup (l ++ [u]).
Proof.
  intros Hnd Hnotin. apply NoDup_rev in Hnd.
  rewrite <- (rev_involutive (l ++ [u])). apply NoDup_rev.
  rewrite rev_app_distr. simpl. constructor; [|exact Hnd].
  rewrite <- in_rev. exact Hnotin.
Qed.

(** Filtering a user out of a list they are not in changes nothing. *)
Lemma filter_notByUser_id (u : UserId) (l : list Reaction.t) :
  existsb (byUser u) l = false -> filter (notByUser u) l = l.
Proof.
  induction l as [|r l IH]; simpl; intros H; [reflexivity|].
  apply orb_false_iff in H. destruct H as [Hr Hl].
  unfold notByUser at 1. rewrite Hr. simpl. now rewrite IH.
Qed.

Lemma existsb_filter_notByUser (u : UserId) (l : list Reaction.t) :
  existsb (byUser u) (filter (notByUser u) l) = false.
Proof.
  destruct (existsb (byUser u) (filter (notByUser u) l)) eqn:E; [|reflexivity].
  apply existsb_byUser in E. now apply usersOf_filter_notByUser in E.
Qed.

Lemma existsb_byUser_snoc (u : UserId) (now : Z) (l : list Reaction.t) :
  existsb (byUser u) (l ++ [Reaction.mk u now]) = true.
Proof.
  rewrite existsb_app. simpl. unfold byUser at 2. simpl.
  rewrite String.eqb_refl. now rewrite orb_true_r.
Qed.

Lemma addLike_ok (now : Z) (u : UserId) (c : Comment) :
  reactionsOk c -> reactionsOk (addLike now u c).
Proof.
  intros (HL & HD & HX). unfold addLike, isLikedBy. simpl.
  destruct (existsb (byUser u) (likes c)) eqn:E; simpl; unfold reactionsOk; simpl.
  - repeat split.
    + exact HL.
    + now apply NoDup_usersOf_filter.
    + intros v Hv Hd. apply usersOf_filter_In in Hd. now apply (HX v).
  - assert (Hu : ~ In u (usersOf (likes c))).
    { intros Hin. apply existsb_byUser in Hin. congruence. }
    repeat split.
    + rewrite usersOf_app. simpl. now apply NoDup_snoc.
    + now apply NoDup_usersOf_filter.
    + intros v Hv Hd. rewrite usersOf_app in Hv. apply in_app_or in Hv.
      destruct Hv as [Hv | Hv].
      * apply usersOf_filter_In in Hd. now apply (HX v).
      * simpl in Hv. destruct Hv as [<- | []].
        now apply usersOf_filter_notByUser in Hd.
Qed.

Lemma addDislike_ok (now : Z) (u : UserId) (c : Comment) :
  reactionsOk c -> reactionsOk (addDislike now u c).
Proof.
  intros (HL & HD & HX). unfold addDislike, isDislikedBy. simpl.
  destruct (existsb (byUser u) (dislikes c)) eqn:E; simpl; unfold reactionsOk; simpl.
  - repeat split.
    + now apply NoDup_usersOf_filter.
    + exact HD.
    + intros v Hv Hd. apply usersOf_filter_In in Hv. now apply (HX v).
  - assert (Hu : ~ In u (usersOf (dislikes c))).
    { intros Hin. apply existsb_byUser in Hin. congruence. }
    repeat split.
    + now apply NoDup_usersOf_filter.
    + rewrite usersOf_app. simpl. now apply NoDup_snoc.
    + intros v Hv Hd. rewrite usersOf_app in Hd. apply in_app_or in Hd.
      destruct Hd as [Hd | Hd].
      * apply usersOf_filter_In in Hv. now apply (HX v).
      * simpl in Hd. destruct Hd as [<- | []].
        now apply usersOf_filter_notByUser in Hv.
Qed.

Lemma removeReactionOf_ok (u : UserId) (c : Comment) :
  reactionsOk c -> reactionsOk (removeReactionOf u c).
Proof.
  intros (HL & HD & HX). unfold removeReactionOf, reactionsOk. simpl.
  repeat split; try now apply NoDup_usersOf_filter.
  intros v Hv Hd. apply usersOf_filter_In in Hv, Hd. now apply (HX v).
Qed.

Lemma applyOp_ok (c : Comment) (op : ReactionOp) :
  reactionsOk c -> reactionsOk (applyOp c op).
Proof.
  destruct op; simpl;
    [apply addLike_ok | apply addDislike_ok | apply removeReactionOf_ok].
Qed.

Lemma applyOps_ok (ops : list ReactionOp) :
  forall c, reactionsOk c -> reactionsOk (applyOps ops c).
Proof.
  unfold applyOps. induction ops as [|op ops IH]; simpl; intros c H.
  - exact H.
  - apply IH. now apply applyOp_ok.
Qed.

(** A comment starts with both lists empty, where the invariant holds. *)
Lemma reactionsOk_empty (c : Comment) :
  likes c = [] -> dislikes c = [] -> reactionsOk c.
Proof.
  intros HL HD. unfold reactionsOk. rewrite HL, HD. simpl.
  repeat split; try constructor. intros u [].
Qed.

(** C1.  A comment starts with empty reaction lists, which hold at most
    one entry per user and share no user.  On a comment whose lists are
    so, [addLike], [addDislike] and [removeReaction] each give such a
    comment again, and so does every sequence of these operations by
    any users; each operation reads nothing but the caller's id and
    the two lists. *)
Theorem reactions_invariant (c : Comment) :
  (likes c = [] -> dislikes c = [] -> reactionsOk c) /\
  (reactionsOk c ->
   (forall now u, reactionsOk (addLike now u c)) /\
   (forall now u, reactionsOk (addDislike now u c)) /\
   (forall u, reactionsOk (removeReactionOf u c)) /\
   (forall ops, reactionsOk (applyOps ops c))).
Proof.
  split; [apply reactionsOk_empty|].
  intros H. split; [|split; [|split]].
  - intros t u. now apply addLike_ok.
  - intros t u. now apply addDislike_ok.
  - intros u. now apply removeReactionOf_ok.
  - intros ops. now apply applyOps_ok.
Qed.

Lemma reactions_invariant_witness :
  reactionsOk
    (applyOps [OpLike Sample.ann 1; OpDislike Sample.ann 2;
               OpLike Sample.bob 3; OpRemove Sample.bob; OpLike Sample.ann 4]
              Sample.top).
Proof.
  destruct (reactions_invariant Sample.top) as [Hnew Hkeep].
  apply Hkeep. apply Hnew; reflexivity.
Defined.

(** ** The collection *)

Lemma hasId_true (id : CommentId) (c : Comment) :
  hasId id c = true <-> _id c = id.
Proof. unfold hasId. apply String.eqb_eq. Qed.

Lemma findById_id (id : CommentId) (db : list Comment) (c : Comment) :
  findById id db = Some c -> _id c = id.
Proof.
  unfold findById. intros H. apply find_some in H. now apply hasId_true.
Qed.

Lemma findById_In (id : CommentId) (db : list Comment) (c : Comment) :
  findById id db = Some c -> In c db.
Proof. unfold findById. intros H. now apply find_some in H. Qed.

(** After [save], reading the document back gives what was saved. *)
Lemma findById_save (c' c : Comment) (db : list Comment) :
  findById (_id c') db = Some c -> findById (_id c') (save c' db) = Some c'.
Proof.
  unfold findById, save.
  induction db as [|d db IH]; simpl; [discriminate|].
  destruct (hasId (_id c') d) eqn:E; simpl.
  - intros _. assert (Hc : hasId (_id c') c' = true) by now apply hasId_true.
    now rewrite Hc.
  - rewrite E. exact IH.
Qed.

Lemma save_save (c : Comment) (db : list Comment) :
  save c (save c db) = save c db.
Proof.
  unfold save. rewrite map_map. apply map_ext. intros d.
  destruct (hasId (_id c) d) eqn:E.
  - assert (Hc : hasId (_id c) c = true) by now apply hasId_true.
    now rewrite Hc.
  - now rewrite E.
Qed.

Lemma comments_emit (e : Event) (st : State) :
  comments (emit e st) = comments st.
Proof. reflexivity. Qed.

Lemma set_dislikes_same (c : Comment) : set_dislikes (dislikes c) c = c.
Proof. now destruct c. Qed.

Lemma set_likes_same (c : Comment) : set_likes (likes c) c = c.
Proof. now destruct c. Qed.

(** ** The reaction methods, one user at a time *)

Lemma addLike_id (now : Z) (u : UserId) (c : Comment) :
  _id (addLike now u c) = _id c /\
  isActive (addLike now u c) = isActive c /\
  parentComment (addLike now u c) = parentComment c.
Proof. unfold addLike. now destruct (negb _). Qed.

Lemma removeReactionOf_id (u : UserId) (c : Comment) :
  _id (removeReactionOf u c) = _id c /\
  isActive (removeReactionOf u c) = isActive c /\
  parentComment (removeReactionOf u c) = parentComment c.
Proof. now unfold removeReactionOf. Qed.

Lemma addLike_liked (now : Z) (u : UserId) (c : Comment) :
  isLikedBy (addLike now u c) u = true /\
  isDislikedBy (addLike now u c) u = false.
Proof.
  unfold addLike, isLikedBy, isDislikedBy. simpl.
  destruct (existsb (byUser u) (likes c)) eqn:E; simpl.
  - split; [exact E | apply existsb_filter_notByUser].
  - split; [apply existsb_byUser_snoc | apply existsb_filter_notByUser].
Qed.

(** [addLike] by a user who likes the comment and does not dislike it
    returns the comment as it is. *)
Lemma addLike_when_liked (now : Z) (u : UserId) (c : Comment) :
  isLikedBy c u = true -> isDislikedBy c u = false -> addLike now u c = c.
Proof.
  unfold addLike, isLikedBy, isDislikedBy. intros HL HD. simpl.
  rewrite HL. simpl. rewrite (filter_notByUser_id u _ HD).
  apply set_dislikes_same.
Qed.

Lemma addLike_twice (t1 t2 : Z) (u : UserId) (c : Comment) :
  addLike t2 u (addLike t1 u c) = addLike t1 u c.
Proof.
  destruct (addLike_liked t1 u c) as [HL HD]. now apply addLike_when_liked.
Qed.

(** [removeReaction] by a user who holds no reaction returns the
    comment as it is. *)
Lemma removeReactionOf_none (u : UserId) (c : Comment) :
  userState c u = NONE -> removeReactionOf u c = c.
Proof.
  unfold userState, removeReactionOf, isLikedBy, isDislikedBy.
  destruct (existsb (byUser u) (likes c)) eqn:EL; [discriminate|].
  destruct (existsb (byUser u) (dislikes c)) eqn:ED; [discriminate|].
  intros _. simpl. rewrite (filter_notByUser_id u _ EL).
  rewrite (filter_notByUser_id u _ ED). now destruct c.
Qed.

Lemma removeReactionOf_state (u : UserId) (c : Comment) :
  userState (removeReactionOf u c) u = NONE.
Proof.
  unfold userState, removeReactionOf, isLikedBy, isDislikedBy. simpl.
  now rewrite !existsb_filter_notByUser.
Qed.

Lemma removeReactionOf_twice (u : UserId) (c : Comment) :
  removeReactionOf u (removeReactionOf u c) = removeReactionOf u c.
Proof. apply removeReactionOf_none, removeReactionOf_state. Qed.

(** ** The reaction handlers *)

Lemma react_found (kind : string) (method : Comment -> Comment)
    (liked disliked : bool) (caller : UserId) (id : CommentId) (st : State)
    (c : Comment) :
  findById id (comments st) = Some c -> isActive c = true ->
  fst (react kind method liked disliked caller id st) =
    Reacted (likeCount (method c)) (dislikeCount (method c)) liked disliked /\
  comments (snd (react kind method liked disliked caller id st)) =
    save (method c) (comments st).
Proof.
  intros Hf Ha. unfold react. rewrite Hf, Ha. simpl. split; reflexivity.
Qed.

(** C8.  When a user likes an active comment twice in a row, the second
    call answers with success and the same counts as the first, and it
    leaves the whole collection, hence the comment's likes and
    dislikes, as the first call left it. *)
Theorem like_twice_same_state (now1 now2 : Z) (caller : UserId)
    (id : CommentId) (st : State) (c : Comment) :
  findById id (comments st) = Some c ->
  isActive c = true ->
  let once := likeComment now1 caller id st in
  let twice := likeComment now2 caller id (snd once) in
  let c1 := addLike now1 caller c in
  findById id (comments (snd once)) = Some c1 /\
  findById id (comments (snd twice)) = Some c1 /\
  comments (snd twice) = comments (snd once) /\
  fst once = Reacted (likeCount c1) (dislikeCount c1) true false /\
  fst twice = fst once /\
  success (fst twice) = true.
Proof.
  intros Hf Ha once twice c1.
  destruct (addLike_id now1 caller c) as (Hid & Hact & _).
  pose proof (findById_id _ _ _ Hf) as Hc.
  destruct (react_found "like" (addLike now1 caller) true false caller id st c
              Hf Ha) as [Hr1 Hs1].
  fold (likeComment now1 caller id st) in Hr1, Hs1. fold once in Hr1, Hs1.
  fold c1 in Hr1, Hs1, Hid, Hact.
  assert (Hf1 : findById id (comments (snd once)) = Some c1).
  { rewrite Hs1. rewrite <- Hc, <- Hid. apply (findById_save c1 c).
    now rewrite Hid, Hc. }
  assert (Ha1 : isActive c1 = true) by congruence.
  destruct (react_found "like" (addLike now2 caller) true false caller id
              (snd once) c1 Hf1 Ha1) as [Hr2 Hs2].
  fold (likeComment now2 caller id (snd once)) in Hr2, Hs2.
  fold twice in Hr2, Hs2.
  unfold c1 in Hr2, Hs2. rewrite addLike_twice in Hr2, Hs2. fold c1 in Hr2, Hs2.
  assert (Hsame : comments (snd twice) = comments (snd once)).
  { rewrite Hs2, Hs1. apply save_save. }
  repeat split.
  - exact Hf1.
  - now rewrite Hsame.
  - exact Hsame.
  - exact Hr1.
  - now rewrite Hr2, Hr1.
  - now rewrite Hr2.
Qed.

Lemma like_twice_same_state_witness :
  fst (likeComment 2 Sample.bob Sample.idA
         (snd (likeComment 1 Sample.bob Sample.idA Sample.thread)))
    = fst (likeComment 1 Sample.bob Sample.idA Sample.thread) /\
  comments (snd (likeComment 2 Sample.bob Sample.idA
                   (snd (likeComment 1 Sample.bob Sample.idA Sample.thread))))
    = comments (snd (likeComment 1 Sample.bob Sample.idA Sample.thread)).
Proof.
  destruct (like_twice_same_state 1 2 Sample.bob Sample.idA Sample.thread
              Sample.top eq_refl eq_refl) as (_ & _ & Hc & _ & Hr & _).
  split; [exact Hr | exact Hc].
Defined.

(** C10.  On an active comment [removeReaction] succeeds whatever the
    caller's state is and answers with the counts of the stored
    comment; when the caller holds no reaction the comment, with both
    lists, stays as it was; a second call answers the same and leaves
    the collection as the first call left it. *)
Theorem remove_reaction_always_succeeds (caller : UserId) (id : CommentId)
    (st : State) (c : Comment) :
  findById id (comments st) = Some c ->
  isActive c = true ->
  let once := removeReaction caller id st in
  let twice := removeReaction caller id (snd once) in
  let c1 := removeReactionOf caller c in
  success (fst once) = true /\
  fst once = Reacted (likeCount c1) (dislikeCount c1) false false /\
  findById id (comments (snd once)) = Some c1 /\
  (userState c caller = NONE -> c1 = c) /\
  fst twice = fst once /\
  comments (snd twice) = comments (snd once).
Proof.
  intros Hf Ha once twice c1.
  destruct (removeReactionOf_id caller c) as (Hid & Hact & _).
  pose proof (findById_id _ _ _ Hf) as Hc.
  destruct (react_found "remove" (removeReactionOf caller) false false caller
              id st c Hf Ha) as [Hr1 Hs1].
  fold (removeReaction caller id st) in Hr1, Hs1. fold once in Hr1, Hs1.
  fold c1 in Hr1, Hs1, Hid, Hact.
  assert (Hf1 : findById id (comments (snd once)) = Some c1).
  { rewrite Hs1. rewrite <- Hc, <- Hid. apply (findById_save c1 c).
    now rewrite Hid, Hc. }
  assert (Ha1 : isActive c1 = true) by congruence.
  destruct (react_found "remove" (removeReactionOf caller) false false caller
              id (snd once) c1 Hf1 Ha1) as [Hr2 Hs2].
  fold (removeReaction caller id (snd once)) in Hr2, Hs2.
  fold twice in Hr2, Hs2.
  unfold c1 in Hr2, Hs2. rewrite removeReactionOf_twice in Hr2, Hs2.
  fold c1 in Hr2, Hs2.
  repeat split.
  - now rewrite Hr1.
  - exact Hr1.
  - exact Hf1.
  - intros Hn. now apply removeReactionOf_none.
  - now rewrite Hr2, Hr1.
  - rewrite Hs2, Hs1. apply save_save.
Qed.

Lemma remove_reaction_always_succeeds_witness :
  success (fst (removeReaction Sample.cyd Sample.idB Sample.thread)) = true /\
  findById Sample.idB
    (comments (snd (removeReaction Sample.cyd Sample.idB Sample.thread)))
    = Some Sample.reply.
Proof.
  destruct (remove_reaction_always_succeeds Sample.cyd Sample.idB
              Sample.thread Sample.reply eq_refl eq_refl)
    as (Hs & _ & Hf & _).
  split; [exact Hs | exact Hf].
Defined.

(** ** The invariant on the whole collection *)

Lemma save_ok (c : Comment) (db : list Comment) :
  reactionsOk c -> Forall reactionsOk db -> Forall reactionsOk (save c db).
Proof.
  intros Hc Hdb. unfold save. apply Forall_map.
  apply Forall_impl with (P := reactionsOk); [|exact Hdb].
  intros d Hd. now destruct (hasId (_id c) d).
Qed.

Lemma react_ok (kind : string) (method : Comment -> Comment)
    (liked disliked : bool) (caller : UserId) (id : CommentId) (st : State) :
  (forall c, reactionsOk c -> reactionsOk (method c)) ->
  storeOk st -> storeOk (snd (react kind method liked disliked caller id st)).
Proof.
  intros Hm Hst. unfold react.
  destruct (findById id (comments st)) as [c|] eqn:Hf; [|exact Hst].
  destruct (negb (isActive c)); [exact Hst|].
  unfold storeOk. simpl. apply save_ok; [|exact Hst].
  apply Hm. apply findById_In in Hf.
  unfold storeOk in Hst. rewrite Forall_forall in Hst. now apply Hst.
Qed.

(** Every mutating handler keeps every stored comment's reaction lists
    well formed. *)
Lemma handlers_keep_storeOk (st : State) :
  storeOk st ->
  (forall now fresh caller body,
      storeOk (snd (createComment now fresh caller body st))) /\
  (forall now caller id raw,
      storeOk (snd (updateComment now caller id raw st))) /\
  (forall caller id, storeOk (snd (deleteComment caller id st))) /\
  (forall now caller id, storeOk (snd (likeComment now caller id st))) /\
  (forall now caller id, storeOk (snd (dislikeComment now caller id st))) /\
  (forall caller id, storeOk (snd (removeReaction caller id st))).
Proof.
  intros Hst. split; [|split; [|split; [|split; [|split]]]].
  - intros t fresh caller body. unfold createComment.
    destruct (validateCreateComment body) as [b|]; [|exact Hst].
    cast_cases; [exact Hst|].
    destruct (negb _); [exact Hst|].
    destruct (schemaContent (Body.content b)); [|exact Hst].
    unfold storeOk. simpl. apply Forall_app. split; [exact Hst|].
    constructor; [|constructor]. now apply reactionsOk_empty.
  - intros t caller id raw. unfold updateComment.
    destruct (validateUpdateComment raw); [|exact Hst].
    destruct (findById id (comments st)) as [c|] eqn:Hf; [|exact Hst].
    destruct (negb (isActive c)); [exact Hst|].
    destruct (negb (canModify c caller)); [exact Hst|].
    destruct (schemaContent s); [|exact Hst].
    unfold storeOk. simpl. apply save_ok; [|exact Hst].
    apply findById_In in Hf. unfold storeOk in Hst.
    rewrite Forall_forall in Hst. exact (Hst c Hf).
  - intros caller id. unfold deleteComment.
    destruct (findById id (comments st)) as [c|] eqn:Hf; [|exact Hst].
    destruct (negb (canModify c caller)); [exact Hst|].
    unfold storeOk. simpl. apply save_ok; [|exact Hst].
    apply findById_In in Hf. unfold storeOk in Hst.
    rewrite Forall_forall in Hst. exact (Hst c Hf).
  - intros t caller id. apply react_ok; [|exact Hst].
    intros c. apply addLike_ok.
  - intros t caller id. apply react_ok; [|exact Hst].
    intros c. apply addDislike_ok.
  - intros caller id. apply react_ok; [|exact Hst].
    intros c. apply removeReactionOf_ok.
Qed.

(** ** Update, delete and the reactions on a missing or inactive comment *)

Lemma react_gone (kind : string) (method : Comment -> Comment)
    (liked disliked : bool) (caller : UserId) (id : CommentId) (st : State) :
  gone id st ->
  react kind method liked disliked caller id st = (CommentNotFound, st).
Proof.
  unfold react. intros [Hn | [c [Hc Ha]]].
  - now rewrite Hn.
  - now rewrite Hc, Ha.
Qed.

(** Update and the three reaction handlers answer 404 and change
    nothing when the comment is missing or inactive; delete does so
    when the comment is missing. *)
Lemma not_found_when_gone (id : CommentId) (st : State) :
  gone id st ->
  (forall now caller raw txt,
      validateUpdateComment raw = Some txt ->
      updateComment now caller id raw st = (CommentNotFound, st)) /\
  (forall now caller, likeComment now caller id st = (CommentNotFound, st)) /\
  (forall now caller, dislikeComment now caller id st = (CommentNotFound, st)) /\
  (forall caller, removeReaction caller id st = (CommentNotFound, st)) /\
  (findById id (comments st) = None ->
   forall caller, deleteComment caller id st = (CommentNotFound, st)).
Proof.
  intros Hg. split; [|split; [|split; [|split]]].
  - intros t caller raw txt Hv. unfold updateComment. rewrite Hv.
    destruct Hg as [Hn | [c [Hc Ha]]].
    + now rewrite Hn.
    + now rewrite Hc, Ha.
  - intros t caller. now apply react_gone.
  - intros t caller. now apply react_gone.
  - intros caller. now apply react_gone.
  - intros Hn caller. unfold deleteComment. now rewrite Hn.
Qed.

(** Delete does not read [isActive]: the author of a comment that is
    already inactive deletes it again with success, and the event is
    broadcast again. *)
Lemma delete_ignores_isActive (caller : UserId) (id : CommentId)
    (st : State) (c : Comment) :
  findById id (comments st) = Some c ->
  canModify c caller = true ->
  fst (deleteComment caller id st) = Deleted /\
  length (emitted (snd (deleteComment caller id st))) = S (length (emitted st)).
Proof.
  intros Hf Hm. unfold deleteComment. rewrite Hf, Hm. simpl.
  split; [reflexivity|]. rewrite length_app. simpl. lia.
Qed.

(** C2, at the failing input.  The author deletes a comment whose
    [isActive] is already false: the answer is the 200 of a successful
    delete, not 404, and [commentDeleted] is emitted. *)
Theorem delete_twice_is_200 :
  findById Sample.idA (comments Sample.afterDelete) = Some Sample.deleted /\
  isActive Sample.deleted = false /\
  deleteComment Sample.ann Sample.idA Sample.afterDelete =
    (Deleted, mkState [Sample.deleted] [commentDeleted Sample.idA 0]) /\
  status Deleted = 200%Z.
Proof. repeat split. Qed.

(** ** Create *)

Lemma validateCreateComment_parent (body b : Body.t) :
  validateCreateComment body = Some b ->
  Body.parentComment b = Body.parentComment body /\
  validateContent (Body.content body) = Some (Body.content b).
Proof.
  unfold validateCreateComment.
  destruct (validateContent (Body.content body)) as [c|]; [|discriminate].
  destruct (validateParent (Body.parentComment body)); [|discriminate].
  intros H. injection H as <-. now split.
Qed.

(** A create that does not succeed leaves the collection and the
    channel as they were. *)
Lemma createComment_rejected (now : Z) (fresh : CommentId) (caller : UserId)
    (body : Body.t) (st : State) :
  success (fst (createComment now fresh caller body st)) = false ->
  snd (createComment now fresh caller body st) = st.
Proof.
  unfold createComment.
  destruct (validateCreateComment body) as [b|]; [|reflexivity].
  cast_cases; [reflexivity|].
  destruct (negb _); [reflexivity|].
  destruct (schemaContent (Body.content b)); [|reflexivity].
  simpl. discriminate.
Qed.

(** C3, as the code has it.  A create that carries a parent id succeeds
    only if that comment exists and is active; when it is missing or
    inactive the create is rejected, and a rejected create stores no
    comment and emits no event. *)
Theorem create_checks_parent (now : Z) (fresh : CommentId) (caller : UserId)
    (body : Body.t) (st : State) (p : CommentId) :
  truthy (Body.parentComment body) = Some p ->
  let r := fst (createComment now fresh caller body st) in
  let st' := snd (createComment now fresh caller body st) in
  (success r = true ->
   exists parent, findById p (comments st) = Some parent /\
                  isActive parent = true) /\
  (gone p st -> success r = false) /\
  (success r = false -> st' = st).
Proof.
  intros Hp r st'. split; [|split].
  - subst r. unfold createComment.
    destruct (validateCreateComment body) as [b|] eqn:Hv; [|discriminate].
    destruct (validateCreateComment_parent _ _ Hv) as [Hpb _].
    rewrite Hpb, Hp. cbv zeta iota.
    destruct (negb (Js.isHex24 p)); [discriminate|].
    destruct (findById p (comments st)) as [parent|]; [|discriminate].
    destruct (isActive parent) eqn:Ha; [|discriminate].
    intros _. now exists parent.
  - intros Hg. subst r. unfold createComment.
    destruct (validateCreateComment body) as [b|] eqn:Hv; [|reflexivity].
    destruct (validateCreateComment_parent _ _ Hv) as [Hpb _].
    rewrite Hpb, Hp. cbv zeta iota.
    destruct (negb (Js.isHex24 p)); [reflexivity|].
    destruct Hg as [Hn | [c [Hc Ha]]].
    + now rewrite Hn.
    + now rewrite Hc, Ha.
  - apply createComment_rejected.
Qed.

Lemma create_checks_parent_witness :
  success (fst (createComment 300 Sample.idC Sample.cyd
                  (Body.mk "third" (Some Sample.idA)) Sample.thread)) = true /\
  exists parent,
    findById Sample.idA (comments Sample.thread) = Some parent /\
    isActive parent = true.
Proof.
  split; [reflexivity|].
  apply (create_checks_parent 300 Sample.idC Sample.cyd
           (Body.mk "third" (Some Sample.idA)) Sample.thread Sample.idA);
    reflexivity.
Defined.

(** C3, as stated, fails: a create whose parent is an active reply is
    accepted, stored with that reply as its parent, and broadcast. *)
Lemma create_reply_of_reply_accepted :
  let nested :=
    mkComment Sample.idC "third" Sample.cyd (Some Sample.idB) [] [] false
              None true 300 in
  findById Sample.idB (comments Sample.thread) = Some Sample.reply /\
  parentComment Sample.reply = Some Sample.idA /\
  createComment 300 Sample.idC Sample.cyd
      (Body.mk "third" (Some Sample.idB)) Sample.thread =
    (Created nested,
     mkState [Sample.top; Sample.reply; nested] [newReply nested]).
Proof. repeat split. Qed.

(** A parent id with the prefix [0x] passes the validator; it is no
    ObjectId, so [findById] rejects and the create ends in a 500 with
    nothing stored and nothing emitted. *)
Lemma create_with_prefixed_parent :
  let p := ("0x" ++ Js.repeat "a"%char 22)%string in
  String.length p = 24 /\
  validateParent (Some p) = true /\
  validateObjectId p = false /\
  createComment 300 Sample.idC Sample.cyd (Body.mk "third" (Some p))
      Sample.thread = (ServerError, Sample.thread).
Proof. repeat split. Qed.

(** ** Content length *)

(** The validator chain accepts exactly the contents whose trimmed
    length is between 1 and 500. *)
Lemma validateContent_accepts (raw : string) :
  isSome (validateContent raw) = true <->
  1 <= trimmedLength raw <= 500.
Proof.
  unfold validateContent, trimmedLength.
  destruct ((1 <=? String.length (Js.trim raw)) &&
            (String.length (Js.trim raw) <=? 500)) eqn:E; simpl.
  - apply andb_true_iff in E. destruct E as [E1 E2].
    apply Nat.leb_le in E1, E2. split; [lia | reflexivity].
  - apply andb_false_iff in E. split; [discriminate|].
    intros [H1 H2]. destruct E as [E | E]; apply Nat.leb_gt in E; lia.
Qed.

(** Create and update succeed only on such contents, and a content
    whose trimmed length is over 500 (or 0) is answered with the 400 of
    a validation error, nothing stored, nothing emitted. *)
Lemma content_length_checked (raw : string) (st : State) :
  (forall now fresh caller parent,
      success (fst (createComment now fresh caller (Body.mk raw parent) st))
        = true -> 1 <= trimmedLength raw <= 500) /\
  (forall now caller id,
      success (fst (updateComment now caller id raw st)) = true ->
      1 <= trimmedLength raw <= 500) /\
  (~ (1 <= trimmedLength raw <= 500) ->
   (forall now fresh caller parent,
       createComment now fresh caller (Body.mk raw parent) st
         = (ValidationErrors, st)) /\
   (forall now caller id,
       updateComment now caller id raw st = (ValidationErrors, st))).
Proof.
  split; [|split].
  - intros t fresh caller parent. unfold createComment, validateCreateComment.
    simpl. destruct (validateContent raw) eqn:E; [|discriminate].
    intros _. apply validateContent_accepts. now rewrite E.
  - intros t caller id. unfold updateComment, validateUpdateComment.
    destruct (validateContent raw) eqn:E; [|discriminate].
    intros _. apply validateContent_accepts. now rewrite E.
  - intros Hn.
    assert (E : validateContent raw = None).
    { destruct (validateContent raw) eqn:E; [|reflexivity].
      exfalso. apply Hn. apply validateContent_accepts. now rewrite E. }
    split.
    + intros t fresh caller parent. unfold createComment, validateCreateComment.
      simpl. now rewrite E.
    + intros t caller id. unfold updateComment, validateUpdateComment.
      now rewrite E.
Qed.

(** C7, at the failing input.  A content of 201 apostrophes has trimmed
    length 201, within 1..500, and passes the validator; escaped it is
    1206 characters long, over the schema's 1000, so the create ends in
    the 500 of a server error with nothing stored; an update of the
    author's own comment to it ends the same way. *)
Theorem escaped_content_rejected :
  trimmedLength Sample.quotes = 201 /\
  isSome (validateContent Sample.quotes) = true /\
  String.length (Js.escape (Js.trim Sample.quotes)) = 1206 /\
  createComment 300 Sample.idC Sample.cyd (Body.mk Sample.quotes None)
      Sample.empty = (ServerError, Sample.empty) /\
  updateComment 300 Sample.ann Sample.idA Sample.quotes Sample.thread
    = (ServerError, Sample.thread) /\
  status ServerError = 500%Z.
Proof. vm_compute. repeat split. Qed.

(** ** Sorting *)

Section StableSort.

Context {A : Type}.
Variable before : A -> A -> bool.

Lemma insertSorted_perm (x : A) (l : list A) :
  Permutation (insertSorted before x l) (x :: l).
Proof.
  induction l as [|y l IH]; simpl.
  - apply Permutation_refl.
  - destruct (before x y).
    + apply Permutation_refl.
    + apply perm_trans with (y :: x :: l).
      * now apply perm_skip.
      * apply perm_swap.
Qed.

Lemma stableSort_perm (l : list A) : Permutation (stableSort before l) l.
Proof.
  unfold stableSort. induction l as [|x l IH]; simpl.
  - apply perm_nil.
  - apply perm_trans with (x :: fold_right (insertSorted before) [] l).
    + apply insertSorted_perm.
    + now apply perm_skip.
Qed.

Lemma stableSort_length (l : list A) :
  length (stableSort before l) = length l.
Proof. apply Permutation_length, stableSort_perm. Qed.

(** When of two elements one always goes before the other, the
    result is in order. *)
Hypothesis before_total :
  forall x y, before x y = false -> before y x = true.

Lemma insertSorted_sorted (x : A) (l : list A) :
  Sorted (inOrder before) l -> Sorted (inOrder before) (insertSorted before x l).
Proof.
  induction l as [|y l IH]; simpl; intros Hs.
  - repeat constructor.
  - destruct (before x y) eqn:E.
    + constructor; [exact Hs|]. constructor. exact E.
    + inversion Hs as [|y' l' Hs' Hhd]; subst.
      constructor; [now apply IH|].
      destruct l as [|z l]; simpl.
      * constructor. now apply before_total.
      * destruct (before x z).
        -- constructor. now apply before_total.
        -- inversion Hhd; subst. now constructor.
Qed.

Lemma stableSort_sorted (l : list A) : Sorted (inOrder before) (stableSort before l).
Proof.
  unfold stableSort. induction l as [|x l IH]; simpl.
  - constructor.
  - now apply insertSorted_sorted.
Qed.

End StableSort.

Lemma Sorted_tail {A : Type} (R : A -> A -> Prop) (x : A) (l : list A) :
  Sorted R (x :: l) -> Sorted R l.
Proof. intros H. now inversion H. Qed.

Lemma Sorted_skipn {A : Type} (R : A -> A -> Prop) (n : nat) :
  forall l : list A, Sorted R l -> Sorted R (skipn n l).
Proof.
  induction n as [|n IH]; intros [|x l] H; simpl; try assumption.
  apply IH. now apply Sorted_tail in H.
Qed.

Lemma Sorted_firstn {A : Type} (R : A -> A -> Prop) (n : nat) :
  forall l : list A, Sorted R l -> Sorted R (firstn n l).
Proof.
  induction n as [|n IH]; intros [|x l] H; simpl; try constructor.
  - apply IH. now apply Sorted_tail in H.
  - inversion H as [|x' l' Hs Hhd]; subst.
    destruct l as [|y l]; [destruct n; constructor|].
    destruct n; simpl; constructor. now inversion Hhd.
Qed.

(** ** Pagination arithmetic *)

(** [ceilDiv a b] is the least [n] with [a <= n * b]. *)
Lemma ceilDiv_spec (a b : Z) :
  (0 < b)%Z ->
  (a <= ceilDiv a b * b /\ (ceilDiv a b - 1) * b < a)%Z.
Proof.
  intros Hb. unfold ceilDiv.
  pose proof (Z.div_mod (- a) b ltac:(lia)) as Hdm.
  pose proof (Z.mod_pos_bound (- a) b Hb) as Hm.
  nia.
Qed.

Lemma ceilDiv_nonneg (a b : Z) : (0 < b)%Z -> (0 <= a)%Z -> (0 <= ceilDiv a b)%Z.
Proof. intros Hb Ha. destruct (ceilDiv_spec a b Hb). nia. Qed.

Lemma ceilDiv_pos (a b : Z) : (0 < b)%Z -> (0 < a)%Z -> (0 < ceilDiv a b)%Z.
Proof. intros Hb Ha. destruct (ceilDiv_spec a b Hb). nia. Qed.

Lemma limitOf_range (q : Query.t) : (1 <= limitOf q <= 100)%Z.
Proof. unfold limitOf. lia. Qed.

Lemma pageOf_range (q : Query.t) : (1 <= pageOf q)%Z.
Proof. unfold pageOf. lia. Qed.

Lemma skip_nonneg (q : Query.t) : ((pageOf q - 1) * limitOf q <? 0)%Z = false.
Proof.
  apply Z.ltb_ge. pose proof (limitOf_range q). pose proof (pageOf_range q). nia.
Qed.

(** The two pages the specification works out. *)
Lemma paginationOf_examples :
  paginationOf 1 10 25 = Pagination.mk 1 10 25 3 true false true false 1 10 15 /\
  paginationOf 3 10 25 = Pagination.mk 3 10 25 3 false true false true 21 25 0.
Proof. split; reflexivity. Qed.

(** ** The list handlers *)

Section ListingProperties.

Variable bson_compare : Reaction.t -> Reaction.t -> comparison.
Variable ObjectId_isValid : string -> bool.


Lemma listPage_Listed (user : option UserId) (w : bool)
    (query : Comment -> bool) (s : SortObj) (page limit : Z)
    (db : list Comment) (items : list View.t) (pg : Pagination.t) :
  listPage bson_compare user w query s page limit db = Listed items pg ->
  pg = paginationOf page limit (Z.of_nat (countDocuments query db)) /\
  map View.doc items = findPage bson_compare query s ((page - 1) * limit) limit db.
Proof.
  unfold listPage. destruct (_ && _ && _); [discriminate|].
  intros H. injection H as <- <-. split; [reflexivity|].
  rewrite map_map. rewrite <- (map_id (findPage bson_compare _ _ _ _ _)) at 2.
  apply map_ext. intros c. unfold annotate. now destruct (truthy user).
Qed.

(** A successful list answer carries the pagination block of the
    effective page and limit and of the number of matching
    documents. *)
Lemma list_pagination (user : option UserId) (q : Query.t) (st : State)
    (items : list View.t) (pg : Pagination.t) :
  getComments bson_compare ObjectId_isValid user q st = Listed items pg \/
  (exists id, getReplies bson_compare ObjectId_isValid user id q st = Listed items pg) ->
  exists total,
    (0 <= total)%Z /\ pg = paginationOf (pageOf q) (limitOf q) total.
Proof.
  intros [H | [id H]].
  - exists (totalOf (commentsQuery q) st). split; [unfold totalOf; lia|].
    unfold getComments in H.
    destruct (_ <? 0)%Z; [discriminate|].
    destruct (negb (includes _ _)); [discriminate|].
    destruct (truthy (Query.parentComment q)) as [p|] eqn:Ep.
    + destruct (negb (ObjectId_isValid p)); [discriminate|].
      apply listPage_Listed in H. unfold totalOf, commentsQuery.
      rewrite Ep. tauto.
    + apply listPage_Listed in H. unfold totalOf, commentsQuery.
      rewrite Ep. tauto.
  - exists (totalOf (activeWithParent (Some id)) st).
    split; [unfold totalOf; lia|].
    unfold getReplies in H.
    destruct (_ <? 0)%Z; [discriminate|].
    destruct (negb (ObjectId_isValid id)); [discriminate|].
    destruct (negb (includes _ _)); [discriminate|].
    destruct (findById id (comments st)) as [parent|]; [|discriminate].
    destruct (negb (isActive parent)); [discriminate|].
    apply listPage_Listed in H. tauto.
Qed.

(** The pagination block of a successful answer is that of the
    effective page and limit and of the number of documents that match
    the query of the handler. *)
Lemma list_pagination_total (user : option UserId) (q : Query.t)
    (st : State) (items : list View.t) (pg : Pagination.t) :
  (getComments bson_compare ObjectId_isValid user q st = Listed items pg ->
   pg = paginationOf (pageOf q) (limitOf q)
          (Z.of_nat (countDocuments
                       (activeWithParent (truthy (Query.parentComment q)))
                       (comments st)))) /\
  (forall id,
      getReplies bson_compare ObjectId_isValid user id q st = Listed items pg ->
      pg = paginationOf (pageOf q) (limitOf q)
             (Z.of_nat (countDocuments (activeWithParent (Some id))
                                       (comments st)))).
Proof.
  split.
  - unfold getComments.
    destruct (_ <? 0)%Z; [discriminate|].
    destruct (negb (includes _ _)); [discriminate|].
    destruct (truthy (Query.parentComment q)) as [p|] eqn:Ep.
    + destruct (negb (ObjectId_isValid p)); [discriminate|].
      intros H. apply listPage_Listed in H. tauto.
    + intros H. apply listPage_Listed in H. tauto.
  - intros id. unfold getReplies.
    destruct (_ <? 0)%Z; [discriminate|].
    destruct (negb (ObjectId_isValid id)); [discriminate|].
    destruct (negb (includes _ _)); [discriminate|].
    destruct (findById id (comments st)) as [parent|]; [|discriminate].
    destruct (negb (isActive parent)); [discriminate|].
    intros H. apply listPage_Listed in H. tauto.
Qed.

(** A page and a limit inside their ranges are taken as they are. *)
Lemma pageOf_given (q : Query.t) (page : Z) :
  Query.page q = Some page -> (1 <= page)%Z -> pageOf q = page.
Proof.
  unfold pageOf. intros -> H. destruct page; simpl; try lia.
Qed.

Lemma limitOf_given (q : Query.t) (limit : Z) :
  Query.limit q = Some limit -> (1 <= limit <= 100)%Z -> limitOf q = limit.
Proof.
  unfold limitOf. intros -> H. destruct limit; simpl; try lia.
Qed.

(** C5.  Take a request that gives a [page] of at least 1 and a
    [limit] from 1 to 100, and let [total] be the number of stored
    documents that match the query of the handler (active, with the
    parent of the request for [getComments], with the comment asked
    about as parent for [getReplies]).  Every successful answer
    reports this page, this limit and this total, and with them:
    [startIndex] is [(page-1)*limit + 1], [endIndex] is
    [min(page*limit, total)], [remainingItems] is
    [max(0, total - page*limit)], [totalPages] is the ceiling of
    [total/limit], and the four flags are [page < totalPages],
    [page > 1], [page = 1] and [page = totalPages].  For 25 matching
    documents and limit 10, the answers for page 1 and for page 3 have
    the values the specification gives. *)
Theorem pagination_metadata (user : option UserId) (q : Query.t)
    (st : State) (items : list View.t) (pg : Pagination.t)
    (page limit total : Z) :
  Query.page q = Some page -> (1 <= page)%Z ->
  Query.limit q = Some limit -> (1 <= limit <= 100)%Z ->
  (getComments bson_compare ObjectId_isValid user q st = Listed items pg /\
   total = Z.of_nat (countDocuments
                       (activeWithParent (truthy (Query.parentComment q)))
                       (comments st))) \/
  (exists id,
      getReplies bson_compare ObjectId_isValid user id q st = Listed items pg /\
      total = Z.of_nat (countDocuments (activeWithParent (Some id))
                                       (comments st))) ->
  let totalPages := Pagination.totalPages pg in
  (Pagination.currentPage pg = page /\
   Pagination.limit pg = limit /\
   Pagination.total pg = total /\
   Pagination.startIndex pg = (page - 1) * limit + 1 /\
   Pagination.endIndex pg = Z.min (page * limit) total /\
   Pagination.remainingItems pg = Z.max 0 (total - page * limit) /\
   (total <= totalPages * limit /\ (totalPages - 1) * limit < total) /\
   (Pagination.hasNextPage pg = true <-> page < totalPages) /\
   (Pagination.hasPrevPage pg = true <-> page > 1) /\
   (Pagination.isFirstPage pg = true <-> page = 1) /\
   (Pagination.isLastPage pg = true <-> page = totalPages))%Z /\
  (total = 25 -> limit = 10 -> page = 1 ->
   Pagination.startIndex pg = 1 /\ Pagination.endIndex pg = 10 /\
   Pagination.remainingItems pg = 15 /\
   Pagination.hasNextPage pg = true /\ Pagination.isFirstPage pg = true)%Z /\
  (total = 25 -> limit = 10 -> page = 3 ->
   Pagination.startIndex pg = 21 /\ Pagination.endIndex pg = 25 /\
   Pagination.remainingItems pg = 0 /\
   Pagination.isLastPage pg = true)%Z.
Proof.
  intros Hp Hp1 Hl Hl1 H.
  assert (E : pg = paginationOf page limit total).
  { rewrite <- (pageOf_given q page Hp Hp1), <- (limitOf_given q limit Hl Hl1).
    destruct (list_pagination_total user q st items pg) as [Hc Hr].
    destruct H as [[H ->] | [id [H ->]]]; [now apply Hc | now apply (Hr id)]. }
  subst pg.
  destruct (ceilDiv_spec total limit ltac:(lia)) as [Hc1 Hc2].
  simpl. split; [|split].
  - repeat split; lia.
  - intros -> -> ->. repeat split.
  - intros -> -> ->. repeat split.
Qed.

(** Past the last document the page is empty. *)
Lemma findPage_beyond (query : Comment -> bool) (s : SortObj)
    (skip limit : Z) (db : list Comment) :
  (Z.of_nat (countDocuments query db) <= skip)%Z ->
  findPage bson_compare query s skip limit db = [].
Proof.
  unfold findPage, countDocuments. intros H.
  rewrite skipn_all2; [apply firstn_nil|].
  rewrite stableSort_length. lia.
Qed.

Lemma listPage_beyond (user : option UserId) (w : bool)
    (query : Comment -> bool) (s : SortObj) (page limit : Z)
    (db : list Comment) :
  let total := Z.of_nat (countDocuments query db) in
  (1 <= limit)%Z -> (0 < total)%Z -> (ceilDiv total limit < page)%Z ->
  listPage bson_compare user w query s page limit db
    = PageExceeds page (ceilDiv total limit) total.
Proof.
  intros total Hl Ht Hp. unfold listPage. fold total.
  destruct (ceilDiv_spec total limit ltac:(lia)) as [Hc1 Hc2].
  pose proof (ceilDiv_pos total limit ltac:(lia) Ht) as Hc0.
  rewrite findPage_beyond by (fold total; nia).
  simpl length. simpl Nat.eqb.
  apply Z.ltb_lt in Hp, Hc0. now rewrite Hp, Hc0.
Qed.

(** C6, as the code has it.  When at least one document matches and
    the effective page is beyond the last page, [getComments] and
    [getReplies] answer with the error that carries the page, the
    number of pages and the total, not with a page. *)
Theorem page_beyond_last_is_error (user : option UserId) (q : Query.t)
    (st : State) :
  let page := pageOf q in
  let limit := limitOf q in
  includes validSortOptions (sortOf q) = true ->
  (forall total,
      total = totalOf (commentsQuery q) st ->
      (forall p, truthy (Query.parentComment q) = Some p ->
                 ObjectId_isValid p = true) ->
      (0 < total)%Z -> (ceilDiv total limit < page)%Z ->
      getComments bson_compare ObjectId_isValid user q st
        = PageExceeds page (ceilDiv total limit) total) /\
  (forall id parent total,
      total = totalOf (activeWithParent (Some id)) st ->
      ObjectId_isValid id = true ->
      findById id (comments st) = Some parent -> isActive parent = true ->
      (0 < total)%Z -> (ceilDiv total limit < page)%Z ->
      getReplies bson_compare ObjectId_isValid user id q st
        = PageExceeds page (ceilDiv total limit) total).
Proof.
  intros page limit Hs. pose proof (limitOf_range q) as Hl. split.
  - intros total -> Hv Ht Hp. unfold getComments.
    rewrite skip_nonneg, Hs. simpl negb. cbv iota.
    unfold totalOf, commentsQuery in *.
    destruct (truthy (Query.parentComment q)) as [p|] eqn:Ep.
    + rewrite (Hv p eq_refl). simpl negb. cbv iota.
      apply listPage_beyond; fold limit; lia.
    + apply listPage_beyond; fold limit; lia.
  - intros id parent total -> Hv Hf Ha Ht Hp. unfold getReplies.
    rewrite skip_nonneg, Hv, Hs, Hf, Ha. simpl negb. cbv iota.
    unfold totalOf in *. apply listPage_beyond; fold limit; lia.
Qed.

(** The documents of a successful list answer are a page of the sorted
    matching documents. *)
Lemma list_docs (user : option UserId) (q : Query.t) (st : State)
    (items : list View.t) (pg : Pagination.t) :
  getComments bson_compare ObjectId_isValid user q st = Listed items pg \/
  (exists id,
      getReplies bson_compare ObjectId_isValid user id q st
        = Listed items pg) ->
  exists query,
    map View.doc items =
      findPage bson_compare query (sortObjOf (sortOf q))
               ((pageOf q - 1) * limitOf q) (limitOf q) (comments st).
Proof.
  intros [H | [id H]].
  - exists (commentsQuery q). unfold getComments in H.
    destruct (_ <? 0)%Z; [discriminate|].
    destruct (negb (includes _ _)); [discriminate|].
    unfold commentsQuery.
    destruct (truthy (Query.parentComment q)) as [p|] eqn:Ep.
    + destruct (negb (ObjectId_isValid p)); [discriminate|].
      apply listPage_Listed in H. tauto.
    + apply listPage_Listed in H. tauto.
  - exists (activeWithParent (Some id)). unfold getReplies in H.
    destruct (_ <? 0)%Z; [discriminate|].
    destruct (negb (ObjectId_isValid id)); [discriminate|].
    destruct (negb (includes _ _)); [discriminate|].
    destruct (findById id (comments st)) as [parent|]; [|discriminate].
    destruct (negb (isActive parent)); [discriminate|].
    apply listPage_Listed in H. tauto.
Qed.

Lemma beforeDesc_createdAt (a b : Comment) :
  beforeDesc bson_compare [ByCreatedAt] a b = true <->
  (createdAt b <= createdAt a)%Z.
Proof.
  unfold beforeDesc. simpl.
  destruct (Z.compare_spec (createdAt a) (createdAt b)); split;
    intros; try reflexivity; try discriminate; lia.
Qed.

Lemma Sorted_weaken {A : Type} (R S : A -> A -> Prop) (l : list A) :
  (forall x y, R x y -> S x y) -> Sorted R l -> Sorted S l.
Proof.
  intros HRS. induction 1 as [|x l Hs IH Hhd]; constructor; [exact IH|].
  destruct Hhd; constructor. now apply HRS.
Qed.

(** With [sort=newest] the documents of a successful list answer are in
    descending order of [createdAt]. *)
Lemma newest_is_sorted (user : option UserId) (q : Query.t) (st : State)
    (items : list View.t) (pg : Pagination.t) :
  sortOf q = "newest" ->
  getComments bson_compare ObjectId_isValid user q st = Listed items pg \/
  (exists id,
      getReplies bson_compare ObjectId_isValid user id q st
        = Listed items pg) ->
  Sorted (fun a b => createdAt b <= createdAt a)%Z (map View.doc items).
Proof.
  intros Hs H. destruct (list_docs user q st items pg H) as [query ->].
  rewrite Hs. change (sortObjOf "newest") with [ByCreatedAt].
  unfold findPage. apply Sorted_firstn, Sorted_skipn.
  apply Sorted_weaken with (R := inOrder (beforeDesc bson_compare [ByCreatedAt])).
  - intros x y Hxy. now apply beforeDesc_createdAt.
  - apply stableSort_sorted. intros x y Hxy.
    apply beforeDesc_createdAt.
    destruct (beforeDesc bson_compare [ByCreatedAt] x y) eqn:E; [discriminate|].
    assert (Hn : ~ (createdAt y <= createdAt x)%Z).
    { intros Hle. apply beforeDesc_createdAt in Hle. congruence. }
    lia.
Qed.

(** Under [mostLiked] the order of two comments is settled by the
    largest entries of their [likes] arrays whenever these differ; the
    lengths of the arrays are not read. *)
Lemma mostLiked_reads_largest (a b : Comment) (x y : Reaction.t) :
  largest bson_compare (likes a) = Some x ->
  largest bson_compare (likes b) = Some y ->
  bson_compare x y = Lt ->
  beforeDesc bson_compare (sortObjOf "mostLiked") a b = false.
Proof.
  intros Ha Hb Hxy. change (sortObjOf "mostLiked") with [ByLikes; ByCreatedAt].
  unfold beforeDesc, compareBy, compareField. rewrite Ha, Hb.
  unfold compareKey. now rewrite Hxy.
Qed.

End ListingProperties.

Lemma pagination_metadata_witness :
  exists items pg,
    getComments userThenDate Js.isHex24 None
                (Query.mk (Some 2%Z) (Some 20%Z) None None) Sample.many
      = Listed items pg /\
    Pagination.currentPage pg = 2%Z /\
    Pagination.limit pg = 20%Z /\
    Pagination.total pg = 25%Z /\
    Pagination.startIndex pg = ((2 - 1) * 20 + 1)%Z /\
    Pagination.endIndex pg = Z.min (2 * 20) 25.
Proof.
  eexists. eexists. split; [vm_compute; reflexivity|].
  assert (H1 : (1 <= 2)%Z) by lia.
  assert (H2 : (1 <= 20 <= 100)%Z) by lia.
  pose proof (pagination_metadata userThenDate Js.isHex24 None
                (Query.mk (Some 2%Z) (Some 20%Z) None None)
                Sample.many _ _ 2%Z 20%Z 25%Z
                eq_refl H1 eq_refl H2 (or_introl (conj eq_refl eq_refl)))
    as H.
  destruct H as ((Hc & Hl & Ht & Hs & He & _) & _).
  split; [exact Hc|]. split; [exact Hl|]. split; [exact Ht|].
  split; [exact Hs | exact He].
Defined.

Lemma page_beyond_last_witness :
  getComments userThenDate Js.isHex24 None Sample.pageTwo Sample.thread
    = PageExceeds 2 1 1.
Proof.
  destruct (page_beyond_last_is_error userThenDate Js.isHex24 None
              Sample.pageTwo Sample.thread eq_refl) as [H _].
  apply (H 1%Z); [reflexivity | discriminate | reflexivity | reflexivity].
Defined.

(** C6, as stated, fails when nothing matches: page 2 of an empty
    collection is a successful empty page. *)
Lemma page_beyond_empty_is_success :
  getComments userThenDate Js.isHex24 None Sample.pageTwo Sample.empty
    = Listed [] (Pagination.mk 2 10 0 0 false true false false 11 0 0) /\
  success (getComments userThenDate Js.isHex24 None Sample.pageTwo
             Sample.empty) = true.
Proof. split; reflexivity. Qed.

(** Whatever order the database has on reaction entries, if the single
    like of the older sample comment is above both likes of the newer
    one, [mostLiked] lists the comment with one like first. *)
Lemma most_liked_any_order
    (bson_compare : Reaction.t -> Reaction.t -> comparison)
    (ObjectId_isValid : string -> bool) :
  bson_compare (Reaction.mk Sample.ann 10) (Reaction.mk Sample.cyd 30) = Lt ->
  bson_compare (Reaction.mk Sample.bob 20) (Reaction.mk Sample.cyd 30) = Lt ->
  exists items pg,
    getComments bson_compare ObjectId_isValid None Sample.byMostLiked
                Sample.liked = Listed items pg /\
    map View.doc items = [Sample.oneLike; Sample.twoLikes].
Proof.
  intros H1 H2.
  assert (Hb : beforeDesc bson_compare [ByLikes; ByCreatedAt]
                 Sample.twoLikes Sample.oneLike = false).
  { unfold beforeDesc, compareBy, compareField. simpl.
    destruct (bson_compare (Reaction.mk Sample.ann 10)
                           (Reaction.mk Sample.bob 20));
      simpl; rewrite ?H1, ?H2; reflexivity. }
  assert (Hf : findPage bson_compare (activeWithParent None)
                 [ByLikes; ByCreatedAt] 0 10 (comments Sample.liked)
               = [Sample.oneLike; Sample.twoLikes]).
  { unfold findPage, stableSort.
    change (filter (activeWithParent None) (comments Sample.liked))
      with [Sample.twoLikes; Sample.oneLike].
    cbn [fold_right insertSorted]. rewrite Hb. reflexivity. }
  assert (Hg : getComments bson_compare ObjectId_isValid None
                 Sample.byMostLiked Sample.liked
               = listPage bson_compare None true (activeWithParent None)
                   [ByLikes; ByCreatedAt] 1 10 (comments Sample.liked))
    by reflexivity.
  eexists. eexists. split.
  - rewrite Hg. unfold listPage. change ((1 - 1) * 10)%Z with 0%Z.
    rewrite Hf. reflexivity.
  - reflexivity.
Qed.

(** C4, at the failing input.  Of two top-level comments the newer has
    two likes and the older has one; with [sort=mostLiked] the answer
    lists the comment with ONE like first, under either field order of
    the stored entries. *)
Theorem most_liked_is_not_by_count :
  likeCount Sample.twoLikes = 2 /\
  likeCount Sample.oneLike = 1 /\
  (createdAt Sample.oneLike < createdAt Sample.twoLikes)%Z /\
  (exists items pg,
      getComments userThenDate Js.isHex24 None Sample.byMostLiked Sample.liked
        = Listed items pg /\
      map View.doc items = [Sample.oneLike; Sample.twoLikes]) /\
  (exists items pg,
      getComments dateThenUser Js.isHex24 None Sample.byMostLiked Sample.liked
        = Listed items pg /\
      map View.doc items = [Sample.oneLike; Sample.twoLikes]).
Proof.
  split; [reflexivity|]. split; [reflexivity|]. split; [reflexivity|].
  split; apply most_liked_any_order; reflexivity.
Qed.

(** ** The client merge *)

Module ClientProperties.
Import Client.

Lemma existsb_hasId (id : CommentId) (l : list Comment) :
  existsb (hasId id) l = true <-> In id (ids l).
Proof.
  unfold ids. rewrite existsb_exists, in_map_iff. split.
  - intros [c [Hin Hc]]. exists c. split; [|exact Hin].
    now apply String.eqb_eq in Hc.
  - intros [c [Hc Hin]]. exists c. split; [exact Hin|].
    unfold hasId. now apply String.eqb_eq.
Qed.

Lemma existsb_eqb_In (id : CommentId) (l : list CommentId) :
  existsb (String.eqb id) l = true <-> In id l.
Proof.
  rewrite existsb_exists. split.
  - intros [x [Hin Hx]]. apply String.eqb_eq in Hx. now subst.
  - intros Hin. exists id. split; [exact Hin | apply String.eqb_refl].
Qed.

Lemma allReplies_unfold (st : Item) :
  allReplies st =
    stableSort newerFirst
      (filter (fresh (replies st)) (realTimeReplies st) ++ replies st).
Proof. reflexivity. Qed.

Lemma ids_filter_In (f : Comment -> bool) (l : list Comment) (id : CommentId) :
  In id (ids (filter f l)) -> In id (ids l).
Proof.
  unfold ids. rewrite !in_map_iff. intros [c [Hc Hin]].
  apply filter_In in Hin. exists c. tauto.
Qed.

Lemma NoDup_ids_filter (f : Comment -> bool) (l : list Comment) :
  NoDup (ids l) -> NoDup (ids (filter f l)).
Proof.
  induction l as [|c l IH]; simpl; intros H; [constructor|].
  inversion H as [|x xs Hnotin Hnd]; subst.
  destruct (f c); simpl; [|now apply IH].
  constructor; [|now apply IH].
  intros Hin. apply Hnotin. now apply ids_filter_In in Hin.
Qed.

(** The rendered list has each id once when each of the two lists
    has. *)
Lemma allReplies_NoDup (st : Item) :
  NoDup (ids (replies st)) -> NoDup (ids (realTimeReplies st)) ->
  NoDup (ids (allReplies st)).
Proof.
  intros Hs Hr. rewrite allReplies_unfold.
  apply (Permutation_NoDup
           (l := ids (filter (fresh (replies st)) (realTimeReplies st)
                      ++ replies st))).
  - unfold ids. apply Permutation_map, Permutation_sym, stableSort_perm.
  - unfold ids. rewrite map_app. apply NoDup_app; [| exact Hs |].
    + now apply NoDup_ids_filter.
    + intros id Hin Hin'. apply in_map_iff in Hin.
      destruct Hin as [c [Hc Hin]]. apply filter_In in Hin.
      destruct Hin as [_ Hf]. unfold fresh in Hf.
      apply negb_true_iff in Hf. subst id.
      apply existsb_eqb_In in Hin'. congruence.
Qed.

Lemma handleNewReply_lists (n : Comment) (st : Item) :
  replies (handleNewReply n st) = replies st /\
  (realTimeReplies (handleNewReply n st) = realTimeReplies st \/
   (realTimeReplies (handleNewReply n st) = n :: realTimeReplies st /\
    existsb (hasId (_id n)) (realTimeReplies st) = false)).
Proof.
  unfold handleNewReply.
  destruct (parentComment n) as [p|]; [|now split; [|left]].
  destruct (String.eqb p (_id (currentComment st))); [|now split; [|left]].
  simpl. split; [reflexivity|].
  destruct (existsb (hasId (_id n)) (realTimeReplies st)); simpl;
    [left | right]; auto.
Qed.

Lemma handleNewReply_present (n : Comment) (st : Item) :
  existsb (hasId (_id n)) (realTimeReplies st) = true ->
  realTimeReplies (handleNewReply n st) = realTimeReplies st.
Proof.
  intros H. destruct (handleNewReply_lists n st) as [_ [E | [_ E]]];
    [exact E | congruence].
Qed.

Lemma handleNewReply_NoDup (n : Comment) (st : Item) :
  NoDup (ids (realTimeReplies st)) ->
  NoDup (ids (realTimeReplies (handleNewReply n st))).
Proof.
  intros H. destruct (handleNewReply_lists n st) as [_ [E | [E Hn]]];
    rewrite E; [exact H|].
  simpl. constructor; [|exact H].
  intros Hin. apply existsb_hasId in Hin. congruence.
Qed.

(** A reply that is already in one of the two lists leaves the
    rendered list as it is. *)
Lemma handleNewReply_rendered (n : Comment) (st : Item) :
  In (_id n) (ids (replies st)) \/ In (_id n) (ids (realTimeReplies st)) ->
  allReplies (handleNewReply n st) = allReplies st.
Proof.
  intros H. rewrite !allReplies_unfold.
  destruct (handleNewReply_lists n st) as [Hs [E | [E Hn]]]; rewrite Hs, E;
    [reflexivity|].
  destruct H as [H | H].
  - simpl. unfold fresh at 1. apply existsb_eqb_In in H.
    unfold ids in H. now rewrite H.
  - apply existsb_hasId in H. congruence.
Qed.

(** Receiving the same [newReply] twice leaves both reply lists as the
    first receipt left them. *)
Lemma handleNewReply_twice (n : Comment) (st : Item) :
  realTimeReplies (handleNewReply n (handleNewReply n st))
    = realTimeReplies (handleNewReply n st) /\
  replies (handleNewReply n (handleNewReply n st))
    = replies (handleNewReply n st).
Proof.
  split; [|now destruct (handleNewReply_lists n (handleNewReply n st))].
  unfold handleNewReply at 2 3.
  destruct (parentComment n) as [p|] eqn:Ep.
  - destruct (String.eqb p (_id (currentComment st))) eqn:Eq.
    + unfold handleNewReply. rewrite Ep. simpl. rewrite Eq. simpl.
      destruct (existsb (hasId (_id n)) (realTimeReplies st)) eqn:Ex; simpl.
      * now rewrite Ex.
      * unfold hasId at 1. now rewrite String.eqb_refl.
    + unfold handleNewReply. now rewrite Ep, Eq.
  - unfold handleNewReply. now rewrite Ep.
Qed.

Lemma applyReaction_counts (user : option UserId) (data : ReactionData.t)
    (c : Comment) :
  likeCount (applyReaction user data c) = ReactionData.likeCount data /\
  dislikeCount (applyReaction user data c) = ReactionData.dislikeCount data /\
  _id (applyReaction user data c) = _id c.
Proof.
  unfold applyReaction.
  destruct (isCaller user data); [|now simpl].
  repeat (destruct (String.eqb _ _); [now simpl|]). now simpl.
Qed.

Lemma applyReaction_other (user : option UserId) (data : ReactionData.t)
    (c : Comment) :
  isCaller user data = false ->
  isLikedByUser (applyReaction user data c) = isLikedByUser c /\
  isDislikedByUser (applyReaction user data c) = isDislikedByUser c.
Proof. unfold applyReaction. intros ->. now simpl. Qed.

Lemma applyReaction_caller (user : option UserId) (data : ReactionData.t)
    (c : Comment) :
  isCaller user data = true ->
  (ReactionData.type data = "like" ->
   isLikedByUser (applyReaction user data c) = true /\
   isDislikedByUser (applyReaction user data c) = false) /\
  (ReactionData.type data = "dislike" ->
   isLikedByUser (applyReaction user data c) = false /\
   isDislikedByUser (applyReaction user data c) = true) /\
  (ReactionData.type data = "remove" ->
   isLikedByUser (applyReaction user data c) = false /\
   isDislikedByUser (applyReaction user data c) = false).
Proof.
  unfold applyReaction. intros ->.
  split; [|split]; intros ->; split; reflexivity.
Qed.

(** Receiving the same reaction twice is receiving it once. *)
Lemma applyReaction_twice (user : option UserId) (data : ReactionData.t)
    (c : Comment) :
  applyReaction user data (applyReaction user data c)
    = applyReaction user data c.
Proof.
  unfold applyReaction.
  destruct (isCaller user data); [|reflexivity].
  repeat (destruct (String.eqb _ _); [reflexivity|]). reflexivity.
Qed.

(** The listener of the comment list does the same on the comment the
    event names. *)
Lemma listReaction_counts (user : option UserId) (data : ReactionData.t)
    (c : Comment) :
  _id c = ReactionData.commentId data ->
  likeCount (listReaction user data c) = ReactionData.likeCount data /\
  dislikeCount (listReaction user data c) = ReactionData.dislikeCount data /\
  (isCaller user data = false ->
   isLikedByUser (listReaction user data c) = isLikedByUser c /\
   isDislikedByUser (listReaction user data c) = isDislikedByUser c).
Proof.
  intros Hid. unfold listReaction. rewrite Hid, String.eqb_refl. simpl.
  split; [reflexivity|]. split; [reflexivity|]. intros ->. now split.
Qed.

(** The counter of replies is moved by every [newReply] event of the
    shown comment, whether or not the reply is already listed. *)
Lemma handleNewReply_replyCount (n : Comment) (st : Item) :
  parentComment n = Some (_id (currentComment st)) ->
  replyCount (currentComment (handleNewReply n st))
    = Some (orZero (replyCount (currentComment st)) + 1).
Proof.
  unfold handleNewReply. intros ->. now rewrite String.eqb_refl.
Qed.

(** What the merge keeps.  A [newReply] whose id is already among the
    socket replies leaves that list as it is; one whose id is in either
    reply list leaves the rendered list as it is; the lists never hold
    an id twice; receiving the event a second time changes neither
    list.  A reaction event for the shown comment (or for a listed
    reply) sets both counts to the event's, and leaves the two flags as
    they were unless the event's user is the local caller. *)
Lemma merge_by_id_and_caller (user : option UserId)
    (data : ReactionData.t) (n : Comment) (st : Item) :
  (In (_id n) (ids (realTimeReplies st)) ->
   realTimeReplies (handleNewReply n st) = realTimeReplies st) /\
  (In (_id n) (ids (replies st)) \/ In (_id n) (ids (realTimeReplies st)) ->
   allReplies (handleNewReply n st) = allReplies st) /\
  (NoDup (ids (replies st)) -> NoDup (ids (realTimeReplies st)) ->
   NoDup (ids (realTimeReplies (handleNewReply n st))) /\
   NoDup (ids (allReplies (handleNewReply n st)))) /\
  (realTimeReplies (handleNewReply n (handleNewReply n st))
     = realTimeReplies (handleNewReply n st) /\
   replies (handleNewReply n (handleNewReply n st))
     = replies (handleNewReply n st)) /\
  (ReactionData.commentId data = _id (currentComment st) ->
   let shown := currentComment (handleCommentReaction user data st) in
   likeCount shown = ReactionData.likeCount data /\
   dislikeCount shown = ReactionData.dislikeCount data /\
   (isCaller user data = false ->
    isLikedByUser shown = isLikedByUser (currentComment st) /\
    isDislikedByUser shown = isDislikedByUser (currentComment st))) /\
  (forall reply,
      _id reply = ReactionData.commentId data ->
      let reply' := updateReplyReaction user data reply in
      likeCount reply' = ReactionData.likeCount data /\
      dislikeCount reply' = ReactionData.dislikeCount data /\
      (isCaller user data = false ->
       isLikedByUser reply' = isLikedByUser reply /\
       isDislikedByUser reply' = isDislikedByUser reply)).
Proof.
  split; [|split; [|split; [|split; [|split]]]].
  - intros H. apply handleNewReply_present. now apply existsb_hasId.
  - apply handleNewReply_rendered.
  - intros Hs Hr. pose proof (handleNewReply_NoDup n st Hr) as Hr'.
    split; [exact Hr'|]. apply allReplies_NoDup; [|exact Hr'].
    destruct (handleNewReply_lists n st) as [-> _]. exact Hs.
  - apply handleNewReply_twice.
  - intros Hid shown. subst shown. unfold handleCommentReaction.
    rewrite Hid, String.eqb_refl. simpl.
    destruct (applyReaction_counts user data (currentComment st))
      as (Hl & Hd & _).
    repeat split; try assumption; now apply applyReaction_other.
  - intros reply Hid reply'. subst reply'. unfold updateReplyReaction.
    rewrite Hid, String.eqb_refl.
    destruct (applyReaction_counts user data reply) as (Hl & Hd & _).
    repeat split; try assumption; now apply applyReaction_other.
Qed.

Lemma merge_by_id_and_caller_witness :
  realTimeReplies (handleNewReply Sample.received Sample.item)
    = realTimeReplies Sample.item.
Proof.
  destruct (merge_by_id_and_caller (Some Sample.ann) Sample.bobLikes
              Sample.received Sample.item) as [H _].
  apply H. simpl. left. reflexivity.
Defined.

(** C9, at the failing input.  The CommentItem of [idA] has no reply
    and counts none.  The [newReply] event of the reply [idB] puts it
    among the socket replies and raises [replyCount] to 1.  The same
    event a second time leaves both lists and the rendered list as
    they are, but raises [replyCount] to 2: the state after two
    deliveries is not the state after one, so the merge is not
    idempotent, and the counter shows two replies where one is
    listed. *)
Theorem duplicate_reply_is_counted :
  let st0 := mkItem (set_replyCount 0 Sample.shown) [] [] in
  let st1 := handleNewReply Sample.received st0 in
  let st2 := handleNewReply Sample.received st1 in
  st1 = Sample.item /\
  In (_id Sample.received) (ids (realTimeReplies st1)) /\
  replies st2 = replies st1 /\
  realTimeReplies st2 = realTimeReplies st1 /\
  allReplies st2 = allReplies st1 /\
  length (allReplies st2) = 1 /\
  replyCount (currentComment st1) = Some 1 /\
  replyCount (currentComment st2) = Some 2 /\
  st2 <> st1.
Proof.
  repeat (split; [reflexivity|]).
  split; [left; reflexivity|].
  repeat (split; [reflexivity|]).
  intros H.
  apply (f_equal (fun st => replyCount (currentComment st))) in H.
  discriminate H.
Qed.

End ClientProperties.

(* ================================================================= *)
(** * Further properties of the back end *)

(** ** The reaction state machine *)

Lemma addDislike_id (now : Z) (u : UserId) (c : Comment) :
  _id (addDislike now u c) = _id c /\
  isActive (addDislike now u c) = isActive c /\
  parentComment (addDislike now u c) = parentComment c.
Proof. unfold addDislike. now destruct (negb _). Qed.

Lemma addDislike_disliked (now : Z) (u : UserId) (c : Comment) :
  isLikedBy (addDislike now u c) u = false /\
  isDislikedBy (addDislike now u c) u = true.
Proof.
  unfold addDislike, isLikedBy, isDislikedBy. simpl.
  destruct (existsb (byUser u) (dislikes c)) eqn:E; simpl.
  - split; [apply existsb_filter_notByUser | exact E].
  - split; [apply existsb_filter_notByUser | apply existsb_byUser_snoc].
Qed.

(** X1.  Whatever the state before, after [addLike] the caller is in
    [likes] and not in [dislikes] (state LIKED), after [addDislike] the
    caller is in [dislikes] and not in [likes] (state DISLIKED), and
    after [removeReaction] the caller is in neither list (state
    NONE). *)
Theorem reaction_transitions (now : Z) (u : UserId) (c : Comment) :
  (isLikedBy (addLike now u c) u = true /\
   isDislikedBy (addLike now u c) u = false /\
   userState (addLike now u c) u = LIKED) /\
  (isLikedBy (addDislike now u c) u = false /\
   isDislikedBy (addDislike now u c) u = true /\
   userState (addDislike now u c) u = DISLIKED) /\
  (isLikedBy (removeReactionOf u c) u = false /\
   isDislikedBy (removeReactionOf u c) u = false /\
   userState (removeReactionOf u c) u = NONE).
Proof.
  destruct (addLike_liked now u c) as [HL HD].
  destruct (addDislike_disliked now u c) as [HL' HD'].
  assert (HR : isLikedBy (removeReactionOf u c) u = false /\
               isDislikedBy (removeReactionOf u c) u = false).
  { unfold removeReactionOf, isLikedBy, isDislikedBy. simpl.
    now rewrite !existsb_filter_notByUser. }
  destruct HR as [HL'' HD''].
  unfold userState. rewrite HL, HD, HL', HD', HL'', HD''.
  split; [|split]; (split; [reflexivity|split; reflexivity]).
Qed.

Lemma byUser_other (u v : UserId) (r : Reaction.t) :
  u <> v -> byUser v r = true -> notByUser u r = true.
Proof.
  intros Hne Hv. unfold notByUser. apply negb_true_iff.
  destruct (byUser u r) eqn:Hu; [|reflexivity].
  apply byUser_true in Hu, Hv. congruence.
Qed.

Lemma filter_byUser_filter (u v : UserId) (l : list Reaction.t) :
  u <> v -> filter (byUser v) (filter (notByUser u) l) = filter (byUser v) l.
Proof.
  intros Hne. induction l as [|r l IH]; simpl; [reflexivity|].
  destruct (byUser v r) eqn:Hv.
  - rewrite (byUser_other u v r Hne Hv). simpl. now rewrite Hv, IH.
  - destruct (notByUser u r); simpl; [now rewrite Hv|exact IH].
Qed.

Lemma filter_byUser_snoc (u v : UserId) (now : Z) (l : list Reaction.t) :
  u <> v -> filter (byUser v) (l ++ [Reaction.mk u now]) = filter (byUser v) l.
Proof.
  intros Hne. rewrite filter_app. simpl.
  destruct (byUser v (Reaction.mk u now)) eqn:E.
  - apply byUser_true in E. simpl in E. congruence.
  - apply app_nil_r.
Qed.

Lemma existsb_filter_same {A : Type} (f : A -> bool) (l : list A) :
  existsb f l = existsb f (filter f l).
Proof.
  induction l as [|x l IH]; simpl; [reflexivity|].
  destruct (f x) eqn:E; simpl; [now rewrite E | exact IH].
Qed.

(** X2.  An operation by one user leaves every other user's entries, in
    both lists and with their dates, as they were, and so leaves their
    state as it was. *)
Theorem reaction_leaves_others (op : ReactionOp) (v : UserId) (c : Comment) :
  opUser op <> v ->
  filter (byUser v) (likes (applyOp c op)) = filter (byUser v) (likes c) /\
  filter (byUser v) (dislikes (applyOp c op))
    = filter (byUser v) (dislikes c) /\
  userState (applyOp c op) v = userState c v.
Proof.
  intros Hne.
  assert (H : filter (byUser v) (likes (applyOp c op))
              = filter (byUser v) (likes c) /\
              filter (byUser v) (dislikes (applyOp c op))
              = filter (byUser v) (dislikes c)).
  { destruct op as [u t | u t | u]; simpl in Hne; simpl.
    - unfold addLike, isLikedBy. simpl.
      destruct (existsb (byUser u) (likes c)); simpl;
        rewrite ?filter_byUser_snoc, ?filter_byUser_filter by assumption;
        now split.
    - unfold addDislike, isDislikedBy. simpl.
      destruct (existsb (byUser u) (dislikes c)); simpl;
        rewrite ?filter_byUser_snoc, ?filter_byUser_filter by assumption;
        now split.
    - unfold removeReactionOf. simpl.
      rewrite !filter_byUser_filter by assumption. now split. }
  destruct H as [HL HD]. split; [exact HL|]. split; [exact HD|].
  unfold userState, isLikedBy, isDislikedBy.
  rewrite (existsb_filter_same (byUser v) (likes (applyOp c op))).
  rewrite (existsb_filter_same (byUser v) (dislikes (applyOp c op))).
  rewrite HL, HD. now rewrite <- !existsb_filter_same.
Qed.

Lemma reaction_leaves_others_witness :
  userState (applyOp (addLike 1 Sample.ann Sample.top)
                     (OpDislike Sample.bob 2)) Sample.ann
    = userState (addLike 1 Sample.ann Sample.top) Sample.ann.
Proof.
  apply (reaction_leaves_others (OpDislike Sample.bob 2) Sample.ann
           (addLike 1 Sample.ann Sample.top)).
  discriminate.
Defined.

Lemma length_filter_notByUser (u : UserId) (l : list Reaction.t) :
  NoDup (usersOf l) ->
  length (filter (notByUser u) l) + indicator (existsb (byUser u) l)
    = length l.
Proof.
  induction l as [|r l IH]; simpl; intros H; [reflexivity|].
  inversion H as [|x xs Hnotin Hnd]; subst.
  unfold notByUser at 1. destruct (byUser u r) eqn:E; simpl.
  - apply byUser_true in E. subst u.
    assert (Hn : existsb (byUser (Reaction.user r)) l = false).
    { destruct (existsb _ l) eqn:Ex; [|reflexivity].
      apply existsb_byUser in Ex. contradiction. }
    rewrite (filter_notByUser_id _ _ Hn). lia.
  - specialize (IH Hnd). lia.
Qed.

(** X3.  On well-formed lists the counts move by exactly the caller's
    own entries: [addLike] adds one like unless the caller already
    likes, and takes away one dislike exactly when the caller
    disliked; [addDislike] is the mirror image; [removeReaction] takes
    away the caller's entry from whichever list holds it. *)
Theorem reaction_counts (now : Z) (u : UserId) (c : Comment) :
  reactionsOk c ->
  (likeCount (addLike now u c)
     = likeCount c + indicator (negb (isLikedBy c u)) /\
   dislikeCount (addLike now u c) + indicator (isDislikedBy c u)
     = dislikeCount c) /\
  (dislikeCount (addDislike now u c)
     = dislikeCount c + indicator (negb (isDislikedBy c u)) /\
   likeCount (addDislike now u c) + indicator (isLikedBy c u)
     = likeCount c) /\
  (likeCount (removeReactionOf u c) + indicator (isLikedBy c u)
     = likeCount c /\
   dislikeCount (removeReactionOf u c) + indicator (isDislikedBy c u)
     = dislikeCount c).
Proof.
  intros (HL & HD & _).
  pose proof (length_filter_notByUser u (likes c) HL) as EL.
  pose proof (length_filter_notByUser u (dislikes c) HD) as ED.
  unfold likeCount, dislikeCount, isLikedBy, isDislikedBy in *.
  repeat split.
  - unfold addLike, isLikedBy. simpl.
    destruct (existsb (byUser u) (likes c)); simpl;
      rewrite ?length_app; simpl; lia.
  - unfold addLike, isLikedBy. simpl.
    destruct (existsb (byUser u) (likes c)); simpl; exact ED.
  - unfold addDislike, isDislikedBy. simpl.
    destruct (existsb (byUser u) (dislikes c)); simpl;
      rewrite ?length_app; simpl; lia.
  - unfold addDislike, isDislikedBy. simpl.
    destruct (existsb (byUser u) (dislikes c)); simpl; exact EL.
  - exact EL.
  - exact ED.
Qed.

Lemma reaction_counts_witness :
  likeCount (addLike 5 Sample.bob Sample.twoLikes)
    = likeCount Sample.twoLikes
      + indicator (negb (isLikedBy Sample.twoLikes Sample.bob)).
Proof.
  refine (proj1 (proj1 (reaction_counts 5 Sample.bob Sample.twoLikes _))).
  unfold reactionsOk. simpl. repeat split.
  - constructor.
    + simpl. intros [H | []]. discriminate H.
    + constructor; [intros [] | constructor].
  - constructor.
  - intros u _ [].
Defined.



(** ** What the mutating handlers do to the collection and the channel *)

Lemma react_rejected (kind : string) (method : Comment -> Comment)
    (liked disliked : bool) (caller : UserId) (id : CommentId) (st : State) :
  success (fst (react kind method liked disliked caller id st)) = false ->
  snd (react kind method liked disliked caller id st) = st.
Proof.
  unfold react. destruct (findById id (comments st)) as [c|]; [|reflexivity].
  destruct (negb (isActive c)); [reflexivity | discriminate].
Qed.

Lemma refused_not_success (r : Response) :
  (400 <= status r < 500)%Z -> success r = false.
Proof. destruct r; simpl; intros H; try reflexivity; lia. Qed.

(** X5.  An answer of 400, 403 or 404 is sent before anything is
    written: after a request that one of the six mutating handlers
    answers with such a status, the collection and the list of emitted
    events are as they were before.  (Nothing is said of a 500: the
    catch blocks also send it when a call that follows the write is
    rejected.) *)
Theorem refusal_changes_nothing (st : State) :
  (forall now fresh caller body,
      (400 <= status (fst (createComment now fresh caller body st)) < 500)%Z ->
      snd (createComment now fresh caller body st) = st) /\
  (forall now caller id raw,
      (400 <= status (fst (updateComment now caller id raw st)) < 500)%Z ->
      snd (updateComment now caller id raw st) = st) /\
  (forall caller id,
      (400 <= status (fst (deleteComment caller id st)) < 500)%Z ->
      snd (deleteComment caller id st) = st) /\
  (forall now caller id,
      (400 <= status (fst (likeComment now caller id st)) < 500)%Z ->
      snd (likeComment now caller id st) = st) /\
  (forall now caller id,
      (400 <= status (fst (dislikeComment now caller id st)) < 500)%Z ->
      snd (dislikeComment now caller id st) = st) /\
  (forall caller id,
      (400 <= status (fst (removeReaction caller id st)) < 500)%Z ->
      snd (removeReaction caller id st) = st).
Proof.
  split; [|split; [|split; [|split; [|split]]]].
  - intros t fresh caller body H.
    apply createComment_rejected, refused_not_success, H.
  - intros t caller id raw. unfold updateComment.
    destruct (validateUpdateComment raw); [|reflexivity].
    destruct (findById id (comments st)) as [c|]; [|reflexivity].
    destruct (negb (isActive c)); [reflexivity|].
    destruct (negb (canModify c caller)); [reflexivity|].
    destruct (schemaContent s); [|reflexivity].
    intros H. apply refused_not_success in H. discriminate.
  - intros caller id. unfold deleteComment.
    destruct (findById id (comments st)) as [c|]; [|reflexivity].
    destruct (negb (canModify c caller)); [reflexivity|].
    intros H. apply refused_not_success in H. discriminate.
  - intros t caller id H. apply react_rejected, refused_not_success, H.
  - intros t caller id H. apply react_rejected, refused_not_success, H.
  - intros caller id H. apply react_rejected, refused_not_success, H.
Qed.

Lemma refusal_changes_nothing_witness :
  status (fst (updateComment 5 Sample.bob Sample.idA "mine now" Sample.thread))
    = 403%Z /\
  snd (updateComment 5 Sample.bob Sample.idA "mine now" Sample.thread)
    = Sample.thread.
Proof.
  assert (E : status (fst (updateComment 5 Sample.bob Sample.idA "mine now"
                              Sample.thread)) = 403%Z) by reflexivity.
  split; [exact E|].
  destruct (refusal_changes_nothing Sample.thread) as (_ & H & _).
  apply (H 5%Z Sample.bob Sample.idA "mine now"%string). rewrite E. lia.
Defined.

Lemma react_event (kind : string) (method : Comment -> Comment)
    (liked disliked : bool) (caller : UserId) (id : CommentId) (st : State) :
  (forall c, parentComment (method c) = parentComment c) ->
  success (fst (react kind method liked disliked caller id st)) = true ->
  exists c e,
    findById id (comments st) = Some c /\
    emitted (snd (react kind method liked disliked caller id st))
      = emitted st ++ [e] /\
    isReplyEvent e = isSome (parentComment c).
Proof.
  intros Hp. unfold react.
  destruct (findById id (comments st)) as [c|]; [|discriminate].
  destruct (negb (isActive c)); [discriminate|]. intros _. simpl.
  exists c. eexists. split; [reflexivity|]. split; [reflexivity|].
  rewrite Hp. now destruct (parentComment c).
Qed.

(** X6.  A request that is answered with success emits exactly one
    event, and the event is one of the reply events exactly when the
    comment it is about has a parent. *)
Theorem success_emits_one_event (st : State) :
  (forall now fresh caller body,
      success (fst (createComment now fresh caller body st)) = true ->
      exists e,
        emitted (snd (createComment now fresh caller body st))
          = emitted st ++ [e] /\
        isReplyEvent e = isSome (truthy (Body.parentComment body))) /\
  (forall now caller id raw,
      success (fst (updateComment now caller id raw st)) = true ->
      exists c e,
        findById id (comments st) = Some c /\
        emitted (snd (updateComment now caller id raw st))
          = emitted st ++ [e] /\
        isReplyEvent e = isSome (parentComment c)) /\
  (forall caller id,
      success (fst (deleteComment caller id st)) = true ->
      exists c e,
        findById id (comments st) = Some c /\
        emitted (snd (deleteComment caller id st)) = emitted st ++ [e] /\
        isReplyEvent e = isSome (parentComment c)) /\
  (forall now caller id,
      success (fst (likeComment now caller id st)) = true ->
      exists c e,
        findById id (comments st) = Some c /\
        emitted (snd (likeComment now caller id st)) = emitted st ++ [e] /\
        isReplyEvent e = isSome (parentComment c)) /\
  (forall now caller id,
      success (fst (dislikeComment now caller id st)) = true ->
      exists c e,
        findById id (comments st) = Some c /\
        emitted (snd (dislikeComment now caller id st)) = emitted st ++ [e] /\
        isReplyEvent e = isSome (parentComment c)) /\
  (forall caller id,
      success (fst (removeReaction caller id st)) = true ->
      exists c e,
        findById id (comments st) = Some c /\
        emitted (snd (removeReaction caller id st)) = emitted st ++ [e] /\
        isReplyEvent e = isSome (parentComment c)).
Proof.
  split; [|split; [|split; [|split; [|split]]]].
  - intros t fresh caller body. unfold createComment.
    destruct (validateCreateComment body) as [b|] eqn:Hv; [|discriminate].
    destruct (validateCreateComment_parent _ _ Hv) as [Hpb _]. rewrite Hpb.
    cast_cases; [discriminate|].
    destruct (negb _); [discriminate|].
    destruct (schemaContent (Body.content b)); [|discriminate].
    intros _. simpl. eexists. split; [reflexivity|].
    now destruct (truthy (Body.parentComment body)).
  - intros t caller id raw. unfold updateComment.
    destruct (validateUpdateComment raw); [|discriminate].
    destruct (findById id (comments st)) as [c|]; [|discriminate].
    destruct (negb (isActive c)); [discriminate|].
    destruct (negb (canModify c caller)); [discriminate|].
    destruct (schemaContent s); [|discriminate].
    intros _. simpl. exists c. eexists. split; [reflexivity|].
    split; [reflexivity|]. now destruct (parentComment c).
  - intros caller id. unfold deleteComment.
    destruct (findById id (comments st)) as [c|]; [|discriminate].
    destruct (negb (canModify c caller)); [discriminate|].
    intros _. simpl. exists c. eexists. split; [reflexivity|].
    split; [reflexivity|]. now destruct (parentComment c).
  - intros t caller id. apply react_event. intros c. apply addLike_id.
  - intros t caller id. apply react_event. intros c. apply addDislike_id.
  - intros caller id. apply react_event. intros c. apply removeReactionOf_id.
Qed.

Lemma success_emits_one_event_witness :
  exists c e,
    findById Sample.idB (comments Sample.thread) = Some c /\
    emitted (snd (likeComment 9 Sample.ann Sample.idB Sample.thread))
      = emitted Sample.thread ++ [e] /\
    isReplyEvent e = isSome (parentComment c).
Proof.
  destruct (success_emits_one_event Sample.thread) as (_ & _ & _ & H & _).
  apply H. reflexivity.
Defined.

Lemma touchesOnly_refl (id : CommentId) (db : list Comment) :
  Forall2 (touchesOnly id) db db.
Proof.
  induction db as [|d db IH]; constructor; [|exact IH]. now split.
Qed.

Lemma save_touchesOnly (c : Comment) (db : list Comment) :
  Forall2 (touchesOnly (_id c)) db (save c db).
Proof.
  unfold save. induction db as [|d db IH]; simpl; constructor; [|exact IH].
  destruct (hasId (_id c) d) eqn:E.
  - apply hasId_true in E. split; [now symmetry | congruence].
  - now split.
Qed.

Lemma react_touchesOnly (kind : string) (method : Comment -> Comment)
    (liked disliked : bool) (caller : UserId) (id : CommentId) (st : State) :
  (forall c, _id (method c) = _id c) ->
  Forall2 (touchesOnly id) (comments st)
          (comments (snd (react kind method liked disliked caller id st))).
Proof.
  intros Hm. unfold react.
  destruct (findById id (comments st)) as [c|] eqn:Hf;
    [|apply touchesOnly_refl].
  destruct (negb (isActive c)); [apply touchesOnly_refl|]. simpl.
  rewrite <- (findById_id _ _ _ Hf), <- (Hm c). apply save_touchesOnly.
Qed.

(** X7.  Update, delete and the three reaction handlers never add,
    remove or reorder a stored comment and never change a comment other
    than the one the request names: position by position the ids are
    the same, and a document with another id is the same document. *)
Theorem only_target_changes (id : CommentId) (st : State) :
  (forall now caller raw,
      Forall2 (touchesOnly id) (comments st)
              (comments (snd (updateComment now caller id raw st)))) /\
  (forall caller,
      Forall2 (touchesOnly id) (comments st)
              (comments (snd (deleteComment caller id st)))) /\
  (forall now caller,
      Forall2 (touchesOnly id) (comments st)
              (comments (snd (likeComment now caller id st)))) /\
  (forall now caller,
      Forall2 (touchesOnly id) (comments st)
              (comments (snd (dislikeComment now caller id st)))) /\
  (forall caller,
      Forall2 (touchesOnly id) (comments st)
              (comments (snd (removeReaction caller id st)))).
Proof.
  split; [|split; [|split; [|split]]].
  - intros t caller raw. unfold updateComment.
    destruct (validateUpdateComment raw); [|apply touchesOnly_refl].
    destruct (findById id (comments st)) as [c|] eqn:Hf;
      [|apply touchesOnly_refl].
    destruct (negb (isActive c)); [apply touchesOnly_refl|].
    destruct (negb (canModify c caller)); [apply touchesOnly_refl|].
    destruct (schemaContent s); [|apply touchesOnly_refl]. simpl.
    rewrite <- (findById_id _ _ _ Hf).
    apply (save_touchesOnly (set_edited s0 t c)).
  - intros caller. unfold deleteComment.
    destruct (findById id (comments st)) as [c|] eqn:Hf;
      [|apply touchesOnly_refl].
    destruct (negb (canModify c caller)); [apply touchesOnly_refl|]. simpl.
    rewrite <- (findById_id _ _ _ Hf).
    apply (save_touchesOnly (set_isActive false c)).
  - intros t caller. apply react_touchesOnly. intros c. apply addLike_id.
  - intros t caller. apply react_touchesOnly. intros c. apply addDislike_id.
  - intros caller. apply react_touchesOnly. intros c.
    apply removeReactionOf_id.
Qed.

(** X8.  A create that succeeds appends exactly one comment to the
    collection: its id is the fresh one, its author is the caller, it
    is active, not edited, dated now, without reactions, and its
    parent is the one of the request. *)
Theorem create_appends (now : Z) (fresh : CommentId) (caller : UserId)
    (body : Body.t) (st : State) :
  success (fst (createComment now fresh caller body st)) = true ->
  exists c,
    fst (createComment now fresh caller body st) = Created c /\
    comments (snd (createComment now fresh caller body st))
      = comments st ++ [c] /\
    _id c = fresh /\ author c = caller /\ createdAt c = now /\
    parentComment c = truthy (Body.parentComment body) /\
    likes c = [] /\ dislikes c = [] /\
    isActive c = true /\ isEdited c = false /\ editedAt c = None.
Proof.
  unfold createComment.
  destruct (validateCreateComment body) as [b|] eqn:Hv; [|discriminate].
  destruct (validateCreateComment_parent _ _ Hv) as [Hpb _]. rewrite Hpb.
  cast_cases; [discriminate|].
  destruct (negb _); [discriminate|].
  destruct (schemaContent (Body.content b)) as [txt|]; [|discriminate].
  intros _. simpl. eexists. split; [reflexivity|]. simpl.
  repeat split.
Qed.

Lemma create_appends_witness :
  exists c,
    fst (createComment 300 Sample.idC Sample.cyd
           (Body.mk "third" (Some Sample.idA)) Sample.thread) = Created c /\
    comments (snd (createComment 300 Sample.idC Sample.cyd
                     (Body.mk "third" (Some Sample.idA)) Sample.thread))
      = comments Sample.thread ++ [c] /\
    _id c = Sample.idC /\ author c = Sample.cyd.
Proof.
  destruct (create_appends 300 Sample.idC Sample.cyd
              (Body.mk "third" (Some Sample.idA)) Sample.thread eq_refl)
    as (c & H1 & H2 & H3 & H4 & _).
  exists c. repeat split; assumption.
Defined.

(** X9.  On a stored comment whose author is not the caller, delete
    answers 403 and changes nothing, and so does update when the
    comment is active and the content is valid; 403 is not the 404 of
    a missing comment. *)
Theorem only_author_modifies (caller : UserId) (id : CommentId)
    (st : State) (c : Comment) :
  findById id (comments st) = Some c ->
  author c <> caller ->
  deleteComment caller id st = (NotAuthorized, st) /\
  (forall now raw,
      isActive c = true -> isSome (validateUpdateComment raw) = true ->
      updateComment now caller id raw st = (NotAuthorized, st)) /\
  status NotAuthorized = 403%Z /\
  status NotAuthorized <> status CommentNotFound.
Proof.
  intros Hf Hne.
  assert (Hm : canModify c caller = false).
  { unfold canModify. now apply String.eqb_neq. }
  split; [|split; [|split]].
  - unfold deleteComment. now rewrite Hf, Hm.
  - intros t raw Ha Hv. unfold updateComment.
    destruct (validateUpdateComment raw); [|discriminate].
    now rewrite Hf, Ha, Hm.
  - reflexivity.
  - discriminate.
Qed.

Lemma only_author_modifies_witness :
  deleteComment Sample.bob Sample.idA Sample.thread
    = (NotAuthorized, Sample.thread).
Proof.
  apply (only_author_modifies Sample.bob Sample.idA Sample.thread Sample.top);
    [reflexivity | discriminate].
Defined.

(** ** Soft delete *)




(** ** The number of replies *)

Lemma save_absent (c : Comment) (db : list Comment) :
  ~ In (_id c) (map _id db) -> save c db = db.
Proof.
  unfold save. induction db as [|d db IH]; simpl; intros H; [reflexivity|].
  destruct (hasId (_id c) d) eqn:E.
  - apply hasId_true in E. exfalso. apply H. now left.
  - rewrite IH; [reflexivity|]. intros Hin. apply H. now right.
Qed.

Lemma findById_absent (id : CommentId) (db : list Comment) :
  ~ In id (map _id db) -> findById id db = None.
Proof.
  intros H. unfold findById. destruct (find (hasId id) db) as [c|] eqn:E;
    [|reflexivity].
  apply find_some in E. destruct E as [Hin Hid]. apply hasId_true in Hid.
  exfalso. apply H. apply in_map_iff. now exists c.
Qed.

Lemma findById_app_absent (id : CommentId) (db : list Comment) (c : Comment) :
  ~ In id (map _id db) -> _id c = id -> findById id (db ++ [c]) = Some c.
Proof.
  intros H Hc. unfold findById.
  assert (Hh : hasId id c = true) by now apply hasId_true.
  induction db as [|d db IH]; simpl; [now rewrite Hh|].
  destruct (hasId id d) eqn:E.
  - apply hasId_true in E. exfalso. apply H. now left.
  - apply IH. intros Hin. apply H. now right.
Qed.

Lemma countDocuments_snoc (query : Comment -> bool) (db : list Comment)
    (c : Comment) :
  countDocuments query (db ++ [c])
    = countDocuments query db + indicator (query c).
Proof.
  unfold countDocuments. rewrite filter_app, length_app. simpl.
  now destruct (query c).
Qed.

Lemma createComment_Created (now : Z) (fresh : CommentId) (caller : UserId)
    (body : Body.t) (st : State) (c : Comment) :
  fst (createComment now fresh caller body st) = Created c ->
  comments (snd (createComment now fresh caller body st)) = comments st ++ [c]
  /\ _id c = fresh /\ author c = caller /\ isActive c = true
  /\ isSome (validateContent (Body.content body)) = true
  /\ schemaContent (Js.escape (Js.trim (Body.content body)))
     = Some (content c).
Proof.
  unfold createComment, validateCreateComment, validateContent.
  destruct (_ && _); [|discriminate]. simpl.
  destruct (validateParent (Body.parentComment body)); [|discriminate]. simpl.
  cast_cases; [discriminate|].
  destruct (negb _); [discriminate|].
  destruct (schemaContent _) as [txt|]; [|discriminate].
  simpl. intros H. injection H as <-. simpl. repeat split.
Qed.

(** X11.  When the id is new to the collection, creating a reply raises
    the number of active replies of its parent by one and of no other
    comment, and deleting that reply brings every comment's number of
    replies back to what it was before the create. *)
Theorem reply_count_round_trip (now : Z) (fresh : CommentId)
    (caller : UserId) (body : Body.t) (st : State) (r : Comment) :
  ~ In fresh (map _id (comments st)) ->
  fst (createComment now fresh caller body st) = Created r ->
  let st1 := snd (createComment now fresh caller body st) in
  let st2 := snd (deleteComment caller fresh st1) in
  fst (deleteComment caller fresh st1) = Deleted /\
  forall x,
    replyCountOf (comments st1) x
      = replyCountOf (comments st) x
        + indicator (activeWithParent (Some (_id x)) r) /\
    replyCountOf (comments st2) x = replyCountOf (comments st) x.
Proof.
  intros Hfresh Hc st1 st2.
  destruct (createComment_Created _ _ _ _ _ _ Hc) as (Hs & Hid & Ha & Hact & _).
  fold st1 in Hs.
  assert (Hf : findById fresh (comments st1) = Some r).
  { rewrite Hs. now apply findById_app_absent. }
  assert (Hm : canModify r caller = true).
  { unfold canModify. rewrite Ha. apply String.eqb_refl. }
  assert (Hd : fst (deleteComment caller fresh st1) = Deleted /\
               comments st2 = comments st ++ [set_isActive false r]).
  { subst st2. unfold deleteComment. rewrite Hf, Hm. simpl.
    split; [reflexivity|]. rewrite Hs. unfold save. rewrite map_app.
    fold (save (set_isActive false r) (comments st)).
    rewrite save_absent by (simpl; now rewrite Hid). simpl.
    assert (Hh : hasId (_id r) r = true) by now apply hasId_true.
    now rewrite Hh. }
  destruct Hd as [Hd Hs2]. split; [exact Hd|]. intros x. split.
  - unfold replyCountOf. rewrite Hs. apply countDocuments_snoc.
  - unfold replyCountOf. rewrite Hs2, countDocuments_snoc.
    unfold activeWithParent at 2. simpl. lia.
Qed.

Lemma reply_count_round_trip_witness :
  replyCountOf
    (comments
       (snd (deleteComment Sample.cyd Sample.idC
               (snd (createComment 300 Sample.idC Sample.cyd
                       (Body.mk "third" (Some Sample.idA)) Sample.thread)))))
    Sample.top
  = replyCountOf (comments Sample.thread) Sample.top.
Proof.
  assert (Hfresh : ~ In Sample.idC (map _id (comments Sample.thread))).
  { simpl. intros [E | [E | []]]; discriminate E. }
  exact (proj2 (proj2 (reply_count_round_trip 300 Sample.idC Sample.cyd
                         (Body.mk "third" (Some Sample.idA)) Sample.thread
                         (mkComment Sample.idC "third" Sample.cyd
                            (Some Sample.idA) [] [] false None true 300)
                         Hfresh eq_refl) Sample.top)).
Defined.

(** ** What a list answer contains *)

Lemma activeWithParent_true (p : option CommentId) (c : Comment) :
  activeWithParent p c = true -> isActive c = true /\ parentComment c = p.
Proof.
  unfold activeWithParent. intros H. apply andb_true_iff in H.
  destruct H as [Ha Hp]. split; [exact Ha|].
  destruct p as [x|], (parentComment c) as [y|]; try discriminate;
    [|reflexivity].
  apply String.eqb_eq in Hp. now subst.
Qed.

Lemma In_firstn {A : Type} (n : nat) (l : list A) (x : A) :
  In x (firstn n l) -> In x l.
Proof.
  intros H. rewrite <- (firstn_skipn n l). apply in_or_app. now left.
Qed.

Lemma In_skipn {A : Type} (n : nat) (l : list A) (x : A) :
  In x (skipn n l) -> In x l.
Proof.
  intros H. rewrite <- (firstn_skipn n l). apply in_or_app. now right.
Qed.

Section ListContents.

Variable bson_compare : Reaction.t -> Reaction.t -> comparison.
Variable ObjectId_isValid : string -> bool.

Lemma getComments_Listed (user : option UserId) (q : Query.t) (st : State)
    (items : list View.t) (pg : Pagination.t) :
  getComments bson_compare ObjectId_isValid user q st = Listed items pg ->
  listPage bson_compare user true (commentsQuery q) (sortObjOf (sortOf q))
           (pageOf q) (limitOf q) (comments st) = Listed items pg.
Proof.
  unfold getComments, commentsQuery.
  destruct (_ <? 0)%Z; [discriminate|].
  destruct (negb (includes _ _)); [discriminate|].
  destruct (truthy (Query.parentComment q)) as [p|]; [|tauto].
  destruct (negb (ObjectId_isValid p)); [discriminate | tauto].
Qed.

Lemma getReplies_Listed (user : option UserId) (id : CommentId)
    (q : Query.t) (st : State) (items : list View.t) (pg : Pagination.t) :
  getReplies bson_compare ObjectId_isValid user id q st = Listed items pg ->
  (exists parent,
      findById id (comments st) = Some parent /\ isActive parent = true) /\
  listPage bson_compare user false (activeWithParent (Some id))
           (sortObjOf (sortOf q)) (pageOf q) (limitOf q) (comments st)
    = Listed items pg.
Proof.
  unfold getReplies.
  destruct (_ <? 0)%Z; [discriminate|].
  destruct (negb (ObjectId_isValid id)); [discriminate|].
  destruct (negb (includes _ _)); [discriminate|].
  destruct (findById id (comments st)) as [parent|]; [|discriminate].
  destruct (isActive parent) eqn:Ha; [|discriminate]. simpl.
  intros H. split; [|exact H]. now exists parent.
Qed.

Lemma listPage_items (user : option UserId) (w : bool)
    (query : Comment -> bool) (s : SortObj) (page limit : Z)
    (db : list Comment) (items : list View.t) (pg : Pagination.t) :
  listPage bson_compare user w query s page limit db = Listed items pg ->
  items =
    map (fun c => annotate user
                    (if w then Some (replyCountOf db c) else None) c)
        (findPage bson_compare query s ((page - 1) * limit) limit db).
Proof.
  unfold listPage. destruct (_ && _ && _); [discriminate|].
  intros H. now injection H as <- _.
Qed.

Lemma In_findPage (query : Comment -> bool) (s : SortObj) (skip limit : Z)
    (db : list Comment) (c : Comment) :
  In c (findPage bson_compare query s skip limit db) ->
  In c db /\ query c = true.
Proof.
  unfold findPage. intros H. apply In_firstn, In_skipn in H.
  apply (Permutation_in _ (stableSort_perm _ _)) in H.
  now apply filter_In in H.
Qed.

Lemma findPage_length (query : Comment -> bool) (s : SortObj)
    (skip limit : Z) (db : list Comment) :
  (0 <= limit)%Z ->
  (Z.of_nat (length (findPage bson_compare query s skip limit db))
     <= limit)%Z.
Proof.
  intros Hl. unfold findPage.
  pose proof (firstn_le_length (Z.to_nat limit)
                (skipn (Z.to_nat skip)
                   (stableSort (beforeDesc bson_compare s) (filter query db)))).
  lia.
Qed.

Lemma listPage_matching (user : option UserId) (w : bool)
    (query : Comment -> bool) (s : SortObj) (page limit : Z)
    (db : list Comment) (items : list View.t) (pg : Pagination.t) :
  (0 <= limit)%Z ->
  listPage bson_compare user w query s page limit db = Listed items pg ->
  (Z.of_nat (length items) <= limit)%Z /\
  Forall (fun v => In (View.doc v) db /\ query (View.doc v) = true) items.
Proof.
  intros Hl H. pose proof (listPage_Listed _ _ _ _ _ _ _ _ _ _ H) as [_ Hd].
  split.
  - rewrite <- (length_map View.doc), Hd. now apply findPage_length.
  - apply Forall_forall. intros v Hv.
    apply (In_findPage query s ((page - 1) * limit) limit db).
    rewrite <- Hd. now apply in_map.
Qed.

(** X12.  A list answer never holds more than [limit] items, [limit]
    being at most 100, and holds only stored comments that are active:
    [getComments] only comments whose parent is the one of the query
    (top-level ones when the query names none), [getReplies] only
    replies of the comment it is asked about, which then exists and is
    active. *)
Theorem listed_are_matching (user : option UserId) (q : Query.t)
    (st : State) (items : list View.t) (pg : Pagination.t) :
  (getComments bson_compare ObjectId_isValid user q st = Listed items pg ->
   (Z.of_nat (length items) <= limitOf q <= 100)%Z /\
   Forall (fun v => In (View.doc v) (comments st) /\
                    isActive (View.doc v) = true /\
                    parentComment (View.doc v)
                      = truthy (Query.parentComment q)) items) /\
  (forall id,
      getReplies bson_compare ObjectId_isValid user id q st
        = Listed items pg ->
      (Z.of_nat (length items) <= limitOf q <= 100)%Z /\
      (exists parent,
          findById id (comments st) = Some parent /\
          isActive parent = true) /\
      Forall (fun v => In (View.doc v) (comments st) /\
                       isActive (View.doc v) = true /\
                       parentComment (View.doc v) = Some id) items).
Proof.
  pose proof (limitOf_range q) as Hl.
  assert (H0 : (0 <= limitOf q)%Z) by lia. split.
  - intros H. apply getComments_Listed in H.
    destruct (listPage_matching _ _ _ _ _ _ _ _ _ H0 H) as [Hn Hf].
    split; [lia|]. apply Forall_impl with (2 := Hf).
    intros v [Hin Hq]. apply activeWithParent_true in Hq. tauto.
  - intros id H. apply getReplies_Listed in H. destruct H as [Hp H].
    destruct (listPage_matching _ _ _ _ _ _ _ _ _ H0 H) as [Hn Hf].
    split; [lia|]. split; [exact Hp|]. apply Forall_impl with (2 := Hf).
    intros v [Hin Hq]. apply activeWithParent_true in Hq. tauto.
Qed.

Lemma annotate_fields (user : option UserId) (rc : option nat) (c : Comment) :
  let v := annotate user rc c in
  View.doc v = c /\ View.replyCount v = rc /\
  View.likeCount v = likeCount c /\
  View.dislikeCount v = dislikeCount c /\
  View.engagementScore v = engagementScore c /\
  (truthy user = None ->
   View.isLikedByUser v = false /\ View.isDislikedByUser v = false /\
   View.canEdit v = false) /\
  (forall uid, truthy user = Some uid ->
   View.isLikedByUser v = isLikedBy c uid /\
   View.isDislikedByUser v = isDislikedBy c uid /\
   View.canEdit v = canModify c uid).
Proof.
  unfold annotate. destruct (truthy user) as [uid|]; simpl;
    repeat split; try discriminate.
  all: match goal with E : Some _ = Some _ |- _ =>
         injection E as <-; reflexivity end.
Qed.

Lemma not_both (c : Comment) (u : UserId) :
  reactionsOk c -> isLikedBy c u = true -> isDislikedBy c u = true -> False.
Proof.
  intros (_ & _ & HX) HL HD. unfold isLikedBy, isDislikedBy in *.
  apply existsb_byUser in HL, HD. exact (HX u HL HD).
Qed.

(** X13.  Every item of a list answer carries the counts of its own
    document: [likeCount] and [dislikeCount] are the lengths of the two
    lists and [engagementScore] their difference.  For an anonymous
    request the three caller flags are false; for a caller they say
    whether the caller is in [likes], is in [dislikes], is the author;
    and when the stored lists are well formed no item is both liked
    and disliked by the caller.  In [getComments] the [replyCount] of
    an item is the number of active stored comments whose parent it
    is. *)
Theorem listed_derived_fields (user : option UserId) (q : Query.t)
    (st : State) (items : list View.t) (pg : Pagination.t) :
  getComments bson_compare ObjectId_isValid user q st = Listed items pg \/
  (exists id,
      getReplies bson_compare ObjectId_isValid user id q st
        = Listed items pg) ->
  Forall
    (fun v =>
       View.likeCount v = length (likes (View.doc v)) /\
       View.dislikeCount v = length (dislikes (View.doc v)) /\
       View.engagementScore v
         = (Z.of_nat (View.likeCount v) - Z.of_nat (View.dislikeCount v))%Z /\
       (truthy user = None ->
        View.isLikedByUser v = false /\ View.isDislikedByUser v = false /\
        View.canEdit v = false) /\
       (forall uid, truthy user = Some uid ->
        View.isLikedByUser v = isLikedBy (View.doc v) uid /\
        View.isDislikedByUser v = isDislikedBy (View.doc v) uid /\
        (View.canEdit v = true <-> author (View.doc v) = uid)) /\
       (storeOk st ->
        ~ (View.isLikedByUser v = true /\ View.isDislikedByUser v = true)))
    items /\
  (getComments bson_compare ObjectId_isValid user q st = Listed items pg ->
   Forall (fun v => View.replyCount v
                    = Some (replyCountOf (comments st) (View.doc v))) items).
Proof.
  intros H.
  assert (Hi : exists w query,
             listPage bson_compare user w query (sortObjOf (sortOf q))
                      (pageOf q) (limitOf q) (comments st) = Listed items pg).
  { destruct H as [H | [id H]].
    - apply getComments_Listed in H. eauto.
    - apply getReplies_Listed in H. destruct H as [_ H]. eauto. }
  destruct Hi as (w & query & Hi).
  pose proof (limitOf_range q) as Hl.
  assert (H0 : (0 <= limitOf q)%Z) by lia.
  destruct (listPage_matching _ _ _ _ _ _ _ _ _ H0 Hi) as [_ Hin].
  pose proof (listPage_items _ _ _ _ _ _ _ _ _ Hi) as Hitems.
  split.
  - rewrite Forall_forall in Hin |- *. intros v Hv.
    destruct (Hin v Hv) as [Hdb _].
    rewrite Hitems in Hv. apply in_map_iff in Hv.
    destruct Hv as (c & <- & _).
    destruct (annotate_fields user
                (if w then Some (replyCountOf (comments st) c) else None) c)
      as (Hd & _ & HL & HD & HE & Hanon & Hcaller).
    rewrite Hd in *. rewrite HL, HD, HE.
    split; [reflexivity|]. split; [reflexivity|]. split; [reflexivity|].
    split; [exact Hanon|]. split.
    + intros uid Hu. destruct (Hcaller uid Hu) as (H1 & H2 & H3).
      split; [exact H1|]. split; [exact H2|]. rewrite H3.
      unfold canModify. apply String.eqb_eq.
    + intros Hok [H1 H2]. destruct (truthy user) as [uid|] eqn:Hu.
      * destruct (Hcaller uid eq_refl) as (E1 & E2 & _).
        rewrite E1 in H1. rewrite E2 in H2.
        unfold storeOk in Hok. rewrite Forall_forall in Hok.
        exact (not_both c uid (Hok c Hdb) H1 H2).
      * destruct (Hanon eq_refl) as (E1 & _). congruence.
  - intros Hc. apply getComments_Listed in Hc.
    pose proof (listPage_items _ _ _ _ _ _ _ _ _ Hc) as Hit.
    rewrite Hit. apply Forall_forall. intros v Hv. apply in_map_iff in Hv.
    destruct Hv as (c & <- & _). unfold annotate.
    now destruct (truthy user).
Qed.

Lemma firstn_app_skipn {A : Type} (a b : nat) :
  forall l : list A, firstn a l ++ firstn b (skipn a l) = firstn (a + b) l.
Proof.
  induction a as [|a IH]; intros l; [reflexivity|].
  destruct l as [|x l]; simpl.
  - now rewrite firstn_nil.
  - now rewrite IH.
Qed.

(** The pages 1 to [n] one after the other. *)
Lemma pages_prefix (query : Comment -> bool) (s : SortObj) (limit : Z)
    (db : list Comment) (n : nat) :
  (0 <= limit)%Z ->
  flat_map (fun page => findPage bson_compare query s
                          ((Z.of_nat page - 1) * limit) limit db)
           (seq 1 n)
  = firstn (n * Z.to_nat limit)
           (stableSort (beforeDesc bson_compare s) (filter query db)).
Proof.
  intros Hl. induction n as [|n IH]; [reflexivity|].
  rewrite seq_S, flat_map_app, IH. cbn [flat_map]. rewrite app_nil_r.
  unfold findPage.
  assert (E : forall k, (Z.of_nat k = Z.of_nat n + 1)%Z ->
                Z.to_nat ((Z.of_nat k - 1) * limit) = n * Z.to_nat limit).
  { intros k Hk. replace (Z.of_nat k - 1)%Z with (Z.of_nat n) by lia.
    rewrite Z2Nat.inj_mul by lia. now rewrite Nat2Z.id. }
  rewrite E by lia.
  rewrite firstn_app_skipn. f_equal. lia.
Qed.

(** A list in order, without ties, is the only arrangement of its
    elements that is in order. *)
Lemma sorted_perm_unique {A : Type} (R : A -> A -> Prop) :
  (forall x y z, R x y -> R y z -> R x z) ->
  forall l1 l2 : list A,
    (forall x y, In x l1 -> In y l1 -> R x y -> R y x -> x = y) ->
    Sorted R l1 -> Sorted R l2 -> Permutation l1 l2 -> l1 = l2.
Proof.
  intros Htr l1. induction l1 as [|x l1 IH]; intros l2 Hanti H1 H2 Hp.
  - symmetry. now apply Permutation_nil.
  - destruct l2 as [|y l2].
    + apply Permutation_sym, Permutation_nil in Hp. discriminate.
    + apply Sorted_StronglySorted in H1; [|exact Htr].
      apply Sorted_StronglySorted in H2; [|exact Htr].
      apply StronglySorted_inv in H1. destruct H1 as [H1 Hx].
      apply StronglySorted_inv in H2. destruct H2 as [H2 Hy].
      rewrite Forall_forall in Hx, Hy.
      assert (Hyin : In y (x :: l1)).
      { apply (Permutation_in _ (Permutation_sym Hp)). now left. }
      assert (Hxin : In x (y :: l2)).
      { apply (Permutation_in _ Hp). now left. }
      assert (E : x = y).
      { destruct Hyin as [E | Hyin]; [exact E|].
        destruct Hxin as [E | Hxin]; [now symmetry|].
        apply Hanti; [now left | now right | now apply Hx | now apply Hy]. }
      subst y. f_equal. apply Permutation_cons_inv in Hp.
      apply IH; try assumption.
      * intros a b Ha Hb. apply Hanti; now right.
      * now apply StronglySorted_Sorted.
      * now apply StronglySorted_Sorted.
Qed.

(** Inside the range of pages [listPage] answers with the page the
    database finds. *)
Lemma listPage_within (user : option UserId) (w : bool)
    (query : Comment -> bool) (s : SortObj) (page limit : Z)
    (db : list Comment) :
  (page <= ceilDiv (Z.of_nat (countDocuments query db)) limit)%Z ->
  success (listPage bson_compare user w query s page limit db) = true /\
  docsOf (listPage bson_compare user w query s page limit db)
    = findPage bson_compare query s ((page - 1) * limit) limit db.
Proof.
  intros Hp. unfold listPage.
  destruct (Z.ltb_spec (ceilDiv (Z.of_nat (countDocuments query db)) limit)
                       page) as [Hlt|_]; [lia|].
  rewrite andb_false_r. simpl. split; [reflexivity|].
  rewrite map_map.
  rewrite <- (map_id (findPage bson_compare _ _ _ _ _)) at 2.
  apply map_ext. intros c. unfold annotate. now destruct (truthy user).
Qed.

(** Another page of a request that was answered with a page goes
    through the same checks and reaches [listPage] with the same
    query, sort and limit. *)
Lemma getComments_other_page (user : option UserId) (q : Query.t)
    (st : State) (items : list View.t) (pg : Pagination.t) (page : Z) :
  getComments bson_compare ObjectId_isValid user q st = Listed items pg ->
  (1 <= page)%Z ->
  getComments bson_compare ObjectId_isValid user (withPage page q) st
    = listPage bson_compare user true (commentsQuery q)
               (sortObjOf (sortOf q)) page (limitOf q) (comments st).
Proof.
  intros H Hp.
  assert (Hpage : pageOf (withPage page q) = page).
  { unfold pageOf, withPage. simpl. destruct page; simpl; lia. }
  unfold getComments in H |- *. rewrite Hpage.
  change (limitOf (withPage page q)) with (limitOf q).
  change (sortOf (withPage page q)) with (sortOf q).
  change (Query.parentComment (withPage page q)) with (Query.parentComment q).
  pose proof (limitOf_range q).
  destruct (Z.ltb_spec ((page - 1) * limitOf q) 0); [nia|].
  destruct (_ <? 0)%Z; [discriminate|].
  destruct (negb (includes _ _)); [discriminate|].
  unfold commentsQuery.
  destruct (truthy (Query.parentComment q)) as [p|]; [|reflexivity].
  destruct (negb (ObjectId_isValid p)); [discriminate | reflexivity].
Qed.

Lemma getReplies_other_page (user : option UserId) (id : CommentId)
    (q : Query.t) (st : State) (items : list View.t) (pg : Pagination.t)
    (page : Z) :
  getReplies bson_compare ObjectId_isValid user id q st = Listed items pg ->
  (1 <= page)%Z ->
  getReplies bson_compare ObjectId_isValid user id (withPage page q) st
    = listPage bson_compare user false (activeWithParent (Some id))
               (sortObjOf (sortOf q)) page (limitOf q) (comments st).
Proof.
  intros H Hp.
  assert (Hpage : pageOf (withPage page q) = page).
  { unfold pageOf, withPage. simpl. destruct page; simpl; lia. }
  unfold getReplies in H |- *. rewrite Hpage.
  change (limitOf (withPage page q)) with (limitOf q).
  change (sortOf (withPage page q)) with (sortOf q).
  pose proof (limitOf_range q).
  destruct (Z.ltb_spec ((page - 1) * limitOf q) 0); [nia|].
  destruct (_ <? 0)%Z; [discriminate|].
  destruct (negb (ObjectId_isValid id)); [discriminate|].
  destruct (negb (includes _ _)); [discriminate|].
  destruct (findById id (comments st)) as [parent|]; [|discriminate].
  destruct (negb (isActive parent)); [discriminate | reflexivity].
Qed.

(** All pages of [listPage], one after the other, are the matching
    documents in the one order the sort allows. *)
Lemma listPage_all_pages (user : option UserId) (w : bool)
    (query : Comment -> bool) (s : SortObj) (limit : Z) (db : list Comment)
    (sorted : list Comment) :
  (1 <= limit)%Z ->
  linear (beforeDesc bson_compare s) ->
  noTies (beforeDesc bson_compare s) (filter query db) ->
  Permutation sorted (filter query db) ->
  Sorted (inOrder (beforeDesc bson_compare s)) sorted ->
  flat_map (fun page => docsOf (listPage bson_compare user w query s
                                         (Z.of_nat page) limit db))
           (seq 1 (Z.to_nat (ceilDiv (Z.of_nat (countDocuments query db))
                                     limit)))
    = sorted.
Proof.
  intros Hl [Htot Htr] Hties Hperm Hsorted.
  set (total := Z.of_nat (countDocuments query db)).
  pose proof (ceilDiv_nonneg total limit ltac:(lia) ltac:(unfold total; lia))
    as Hn.
  transitivity
    (flat_map (fun page => findPage bson_compare query s
                             ((Z.of_nat page - 1) * limit) limit db)
              (seq 1 (Z.to_nat (ceilDiv total limit)))).
  { rewrite !flat_map_concat_map. f_equal. apply map_ext_in.
    intros page Hin. apply in_seq in Hin.
    apply (listPage_within user w query s (Z.of_nat page) limit db).
    fold total. lia. }
  rewrite pages_prefix by lia.
  rewrite firstn_all2.
  - symmetry. apply (sorted_perm_unique (inOrder (beforeDesc bson_compare s))).
    + intros x y z. unfold inOrder. apply Htr.
    + intros x y Hx Hy. unfold inOrder.
      apply Hties; apply (Permutation_in _ Hperm); assumption.
    + exact Hsorted.
    + now apply stableSort_sorted.
    + apply perm_trans with (filter query db); [exact Hperm|].
      apply Permutation_sym, stableSort_perm.
  - rewrite stableSort_length.
    destruct (ceilDiv_spec total limit ltac:(lia)) as [Hc _].
    unfold total, countDocuments in *. nia.
Qed.

(** Under [newest] the order is linear, and documents with different
    creation dates do not tie. *)
Lemma newest_linear : linear (beforeDesc bson_compare [ByCreatedAt]).
Proof.
  split.
  - intros x y H. apply beforeDesc_createdAt.
    destruct (Z.le_gt_cases (createdAt x) (createdAt y)) as [Hle|Hgt];
      [exact Hle|].
    assert (Hb : beforeDesc bson_compare [ByCreatedAt] x y = true)
      by (apply beforeDesc_createdAt; lia).
    congruence.
  - intros x y z Hxy Hyz. apply beforeDesc_createdAt.
    apply beforeDesc_createdAt in Hxy, Hyz. lia.
Qed.

Lemma NoDup_map_inj {A B : Type} (f : A -> B) (l : list A) (x y : A) :
  NoDup (map f l) -> In x l -> In y l -> f x = f y -> x = y.
Proof.
  induction l as [|a l IH]; simpl; intros Hn Hx Hy E; [contradiction|].
  inversion Hn as [|b l' Hnot Hn']; subst.
  destruct Hx as [-> | Hx], Hy as [-> | Hy].
  - reflexivity.
  - exfalso. apply Hnot. rewrite E. now apply in_map.
  - exfalso. apply Hnot. rewrite <- E. now apply in_map.
  - now apply IH.
Qed.

Lemma newest_noTies (l : list Comment) :
  NoDup (map createdAt l) -> noTies (beforeDesc bson_compare [ByCreatedAt]) l.
Proof.
  intros Hn x y Hx Hy Hxy Hyx.
  apply beforeDesc_createdAt in Hxy, Hyx.
  apply (NoDup_map_inj createdAt l x y Hn Hx Hy). lia.
Qed.

(** X14.  Take a request that [getComments] or [getReplies] answers
    with a page, on a collection that does not change, and a sort
    under which no two matching documents tie.  Then every page from 1
    to the [totalPages] of the answer is answered with success, and
    the documents of these pages, one page after the other, are the
    matching documents in the order of the sort: whatever list is a
    rearrangement of the matching documents in that order, it is this
    one.  So paging through shows every matching comment once and only
    once. *)
Theorem pages_cover_everything (user : option UserId) (q : Query.t)
    (st : State) (handler : Query.t -> Response) (query : Comment -> bool)
    (items : list View.t) (pg : Pagination.t) (sorted : list Comment) :
  (handler = (fun q' => getComments bson_compare ObjectId_isValid user q' st)
   /\ query = activeWithParent (truthy (Query.parentComment q))) \/
  (exists id,
      handler
      = (fun q' => getReplies bson_compare ObjectId_isValid user id q' st)
      /\ query = activeWithParent (Some id)) ->
  handler q = Listed items pg ->
  let before := beforeDesc bson_compare (sortObjOf (sortOf q)) in
  let matching := filter query (comments st) in
  linear before -> noTies before matching ->
  Permutation sorted matching -> Sorted (inOrder before) sorted ->
  let pages :=
    flat_map (fun page => docsOf (handler (withPage (Z.of_nat page) q)))
             (seq 1 (Z.to_nat (Pagination.totalPages pg))) in
  (forall page, (1 <= page <= Pagination.totalPages pg)%Z ->
                success (handler (withPage page q)) = true) /\
  pages = sorted /\
  Permutation pages matching.
Proof.
  intros Hh H before matching Hlin Hties Hperm Hsorted pages.
  pose proof (limitOf_range q) as Hl.
  assert (Hw : exists w,
             listPage bson_compare user w query (sortObjOf (sortOf q))
                      (pageOf q) (limitOf q) (comments st) = Listed items pg /\
             forall page, (1 <= page)%Z ->
               handler (withPage page q)
               = listPage bson_compare user w query (sortObjOf (sortOf q))
                          page (limitOf q) (comments st)).
  { destruct Hh as [[-> ->] | [id [-> ->]]].
    - exists true. split; [now apply getComments_Listed|].
      intros page Hp. now apply (getComments_other_page user q st items pg).
    - exists false. split; [now apply getReplies_Listed in H|].
      intros page Hp. now apply (getReplies_other_page user id q st items pg). }
  destruct Hw as (w & Hq & Hother).
  assert (Htp : Pagination.totalPages pg
                = ceilDiv (Z.of_nat (countDocuments query (comments st)))
                          (limitOf q)).
  { apply listPage_Listed in Hq. destruct Hq as [-> _]. reflexivity. }
  assert (E : pages = sorted).
  { subst pages. rewrite Htp.
    rewrite <- (listPage_all_pages user w query (sortObjOf (sortOf q))
                  (limitOf q) (comments st) sorted ltac:(lia)
                  Hlin Hties Hperm Hsorted).
    rewrite !flat_map_concat_map. f_equal. apply map_ext_in.
    intros page Hin. apply in_seq in Hin. rewrite Hother by lia.
    reflexivity. }
  split; [|split].
  - intros page Hp. rewrite Hother by lia.
    apply listPage_within. rewrite <- Htp. lia.
  - exact E.
  - rewrite E. exact Hperm.
Qed.

End ListContents.

Lemma listed_derived_fields_witness :
  exists items pg,
    getComments userThenDate Js.isHex24 (Some Sample.ann) Sample.byMostLiked
                Sample.liked = Listed items pg /\
    Forall (fun v => View.replyCount v
                     = Some (replyCountOf (comments Sample.liked)
                                          (View.doc v))) items.
Proof.
  eexists. eexists. split; [vm_compute; reflexivity|].
  refine (proj2 (listed_derived_fields userThenDate Js.isHex24
                   (Some Sample.ann) Sample.byMostLiked Sample.liked _ _
                   (or_introl eq_refl)) eq_refl).
Defined.

Lemma pages_cover_everything_witness :
  flat_map
    (fun page =>
       docsOf (getComments userThenDate Js.isHex24 None
                 (withPage (Z.of_nat page)
                    (Query.mk (Some 1%Z) (Some 1%Z) None None))
                 Sample.liked))
    (seq 1 2)
  = [Sample.twoLikes; Sample.oneLike].
Proof.
  assert (Hn : NoDup (map createdAt [Sample.twoLikes; Sample.oneLike])).
  { constructor; [simpl; intros [H|[]]; discriminate H|].
    constructor; [simpl; tauto | constructor]. }
  assert (Hs : Sorted (inOrder (beforeDesc userThenDate [ByCreatedAt]))
                      [Sample.twoLikes; Sample.oneLike]).
  { repeat constructor. }
  exact (proj1 (proj2
    (pages_cover_everything userThenDate Js.isHex24 None
       (Query.mk (Some 1%Z) (Some 1%Z) None None) Sample.liked
       (fun q' => getComments userThenDate Js.isHex24 None q' Sample.liked)
       (activeWithParent None)
       [annotate None (Some 0) Sample.twoLikes]
       (paginationOf 1 1 2)
       [Sample.twoLikes; Sample.oneLike]
       (or_introl (conj eq_refl eq_refl)) eq_refl
       (newest_linear userThenDate)
       (newest_noTies userThenDate [Sample.twoLikes; Sample.oneLike] Hn)
       (Permutation_refl _) Hs))).
Defined.

(** ** Trimming and escaping *)

Lemma append_assoc (a b c : string) :
  ((a ++ b) ++ c)%string = (a ++ (b ++ c))%string.
Proof. induction a as [|x a IH]; simpl; [reflexivity | now rewrite IH]. Qed.

Lemma length_append (a b : string) :
  String.length (a ++ b) = String.length a + String.length b.
Proof. induction a as [|x a IH]; simpl; [reflexivity | now rewrite IH]. Qed.

Lemma list_of_append (a b : string) :
  list_ascii_of_string (a ++ b)
    = list_ascii_of_string a ++ list_ascii_of_string b.
Proof. induction a as [|c a IH]; simpl; [reflexivity | now rewrite IH]. Qed.

Lemma string_of_app (x y : list ascii) :
  string_of_list_ascii (x ++ y)
    = (string_of_list_ascii x ++ string_of_list_ascii y)%string.
Proof. induction x as [|c x IH]; simpl; [reflexivity | now rewrite IH]. Qed.

Lemma reverse_involutive (s : string) : Js.reverse (Js.reverse s) = s.
Proof.
  unfold Js.reverse. rewrite list_ascii_of_string_of_list_ascii.
  rewrite rev_involutive. apply string_of_list_ascii_of_string.
Qed.

Lemma reverse_append (a b : string) :
  Js.reverse (a ++ b) = (Js.reverse b ++ Js.reverse a)%string.
Proof.
  unfold Js.reverse. rewrite list_of_append, rev_app_distr.
  apply string_of_app.
Qed.

Lemma trimStart_suffix (s : string) :
  exists w, s = (w ++ Js.trimStart s)%string.
Proof.
  induction s as [|c s [w IH]]; simpl.
  - now exists EmptyString.
  - destruct (Js.isWhiteSpace c).
    + exists (String c w). simpl. now rewrite <- IH.
    + now exists EmptyString.
Qed.

Lemma trimEnd_prefix (s : string) :
  exists w, s = (Js.trimEnd s ++ w)%string.
Proof.
  destruct (trimStart_suffix (Js.reverse s)) as [w Hw].
  exists (Js.reverse w). unfold Js.trimEnd.
  rewrite <- reverse_append, <- Hw. symmetry. apply reverse_involutive.
Qed.

(** A string that does not begin with white space. *)
Lemma trimStart_clean (s : string) :
  match s with
  | EmptyString => True
  | String c _ => Js.isWhiteSpace c = false
  end -> Js.trimStart s = s.
Proof. destruct s as [|c s]; simpl; [reflexivity | now intros ->]. Qed.

Lemma trimStart_head (s : string) :
  match Js.trimStart s with
  | EmptyString => True
  | String c _ => Js.isWhiteSpace c = false
  end.
Proof.
  induction s as [|c s IH]; simpl; [exact I|].
  destruct (Js.isWhiteSpace c) eqn:E; [exact IH | exact E].
Qed.

Lemma trimStart_idem (s : string) :
  Js.trimStart (Js.trimStart s) = Js.trimStart s.
Proof. apply trimStart_clean, trimStart_head. Qed.

Lemma trimEnd_idem (s : string) : Js.trimEnd (Js.trimEnd s) = Js.trimEnd s.
Proof.
  unfold Js.trimEnd. now rewrite reverse_involutive, trimStart_idem.
Qed.

Lemma trimEnd_keeps_start (s : string) :
  Js.trimStart s = s -> Js.trimStart (Js.trimEnd s) = Js.trimEnd s.
Proof.
  intros Hs. apply trimStart_clean.
  destruct (trimEnd_prefix s) as [w Hw].
  destruct (Js.trimEnd s) as [|c t]; [exact I|].
  pose proof (trimStart_head s) as Hh. rewrite Hs, Hw in Hh. exact Hh.
Qed.

(** Trimming cuts white space at both ends and nothing else, so
    trimming twice is trimming once. *)
Lemma trim_idem (s : string) : Js.trim (Js.trim s) = Js.trim s.
Proof.
  unfold Js.trim.
  rewrite (trimEnd_keeps_start (Js.trimStart s) (trimStart_idem s)).
  apply trimEnd_idem.
Qed.

Lemma trim_clean (s : string) :
  Js.trimStart s = s -> Js.trimEnd s = s -> Js.trim s = s.
Proof. unfold Js.trim. now intros -> ->. Qed.

Lemma trim_is_clean (s : string) :
  Js.trimStart (Js.trim s) = Js.trim s /\ Js.trimEnd (Js.trim s) = Js.trim s.
Proof.
  unfold Js.trim. split.
  - apply trimEnd_keeps_start, trimStart_idem.
  - apply trimEnd_idem.
Qed.

Lemma escape_append (a b : string) :
  Js.escape (a ++ b) = (Js.escape a ++ Js.escape b)%string.
Proof.
  induction a as [|c a IH]; simpl; [reflexivity|].
  rewrite IH. symmetry. apply append_assoc.
Qed.

(** What [escape] puts for one character begins and ends with a
    character that is white space only if the character is, and holds
    no markup character. *)
Lemma escapeChar_ends (c : ascii) :
  Js.isWhiteSpace c = false ->
  (exists c' r, Js.escapeChar c = String c' r /\
                Js.isWhiteSpace c' = false) /\
  (exists c' r, Js.reverse (Js.escapeChar c) = String c' r /\
                Js.isWhiteSpace c' = false).
Proof.
  destruct c as [[] [] [] [] [] [] [] []]; intros H; try discriminate H;
    split; eexists; eexists; split; reflexivity.
Qed.

Lemma escapeChar_no_markup (c : ascii) :
  existsb isMarkup (list_ascii_of_string (Js.escapeChar c)) = false.
Proof. destruct c as [[] [] [] [] [] [] [] []]; reflexivity. Qed.

Lemma escape_no_markup (s : string) : hasMarkup (Js.escape s) = false.
Proof.
  unfold hasMarkup. induction s as [|c s IH]; simpl; [reflexivity|].
  rewrite list_of_append, existsb_app, escapeChar_no_markup. exact IH.
Qed.

Lemma escape_keeps_start (s : string) :
  Js.trimStart s = s -> Js.trimStart (Js.escape s) = Js.escape s.
Proof.
  intros Hs. apply trimStart_clean.
  destruct s as [|c s]; simpl; [exact I|].
  pose proof (trimStart_head (String c s)) as Hh. rewrite Hs in Hh.
  destruct (escapeChar_ends c Hh) as [(c' & r & -> & Hc') _]. exact Hc'.
Qed.

Lemma trimEnd_fix (s : string) :
  Js.trimEnd s = s <-> Js.trimStart (Js.reverse s) = Js.reverse s.
Proof.
  unfold Js.trimEnd. split; intros H.
  - rewrite <- H at 2. now rewrite reverse_involutive.
  - rewrite H. apply reverse_involutive.
Qed.

Lemma reverse_cons (c : ascii) (s : string) :
  Js.reverse (String c s) = (Js.reverse s ++ String c EmptyString)%string.
Proof.
  change (String c s) with (String c EmptyString ++ s)%string.
  now rewrite reverse_append.
Qed.

Lemma escape_keeps_end (s : string) :
  Js.trimEnd s = s -> Js.trimEnd (Js.escape s) = Js.escape s.
Proof.
  intros Hs. apply trimEnd_fix. apply trimEnd_fix in Hs.
  rewrite <- (reverse_involutive s).
  destruct (Js.reverse s) as [|c t] eqn:E; [reflexivity|].
  pose proof (trimStart_head (String c t)) as Hh. rewrite Hs in Hh.
  rewrite reverse_cons, escape_append, reverse_append.
  apply trimStart_clean.
  destruct (escapeChar_ends c Hh) as [_ (c' & r & Hr & Hc')].
  change (Js.escape (String c EmptyString))
    with (Js.escapeChar c ++ EmptyString)%string.
  replace (Js.escapeChar c ++ EmptyString)%string with (Js.escapeChar c)
    by (clear; induction (Js.escapeChar c) as [|x a IH]; simpl;
        [reflexivity | now rewrite <- IH]).
  rewrite Hr. exact Hc'.
Qed.

(** The sanitised content passes the schema's [trim] unchanged. *)
Lemma trim_escape_trim (raw : string) :
  Js.trim (Js.escape (Js.trim raw)) = Js.escape (Js.trim raw).
Proof.
  destruct (trim_is_clean raw) as [Hs He].
  apply trim_clean; [now apply escape_keeps_start | now apply escape_keeps_end].
Qed.

Lemma schemaContent_sanitised (raw txt : string) :
  schemaContent (Js.escape (Js.trim raw)) = Some txt ->
  txt = Js.escape (Js.trim raw) /\
  (1 <= String.length txt <= 1000).
Proof.
  unfold schemaContent. rewrite trim_escape_trim.
  destruct (String.length (Js.escape (Js.trim raw)) =? 0) eqn:E0;
    [discriminate|].
  destruct (1000 <? String.length (Js.escape (Js.trim raw))) eqn:E1;
    [discriminate|].
  simpl. intros H. injection H as <-.
  apply Nat.eqb_neq in E0. apply Nat.ltb_ge in E1. split; [reflexivity | lia].
Qed.

(** X15.  The content a successful create stores is the trimmed input
    with the eight special characters replaced by entities, nothing
    more and nothing less: it holds no quote, apostrophe, angle
    bracket, slash, backslash or backtick, it is between 1 and 1000
    characters long, and the input's trimmed length was between 1 and
    500. *)
Theorem created_content_is_sanitised (now : Z) (fresh : CommentId)
    (caller : UserId) (body : Body.t) (st : State) (c : Comment) :
  fst (createComment now fresh caller body st) = Created c ->
  content c = Js.escape (Js.trim (Body.content body)) /\
  hasMarkup (content c) = false /\
  (1 <= String.length (content c) <= 1000) /\
  (1 <= trimmedLength (Body.content body) <= 500).
Proof.
  intros H.
  destruct (createComment_Created _ _ _ _ _ _ H) as (_ & _ & _ & _ & Hv & Hs).
  destruct (schemaContent_sanitised _ _ Hs) as [E Hlen].
  split; [exact E|]. split; [rewrite E; apply escape_no_markup|].
  split; [exact Hlen|]. now apply validateContent_accepts.
Qed.

Lemma created_content_is_sanitised_witness :
  content (mkComment Sample.idC "a &lt; b" Sample.cyd None [] [] false None
                     true 300)
    = Js.escape (Js.trim "  a < b  ").
Proof.
  refine (proj1 (created_content_is_sanitised 300 Sample.idC Sample.cyd
                   (Body.mk "  a < b  " None) Sample.empty _ eq_refl)).
Defined.



(** ** Page and limit out of range *)

Section Clamping.

Variable bson_compare : Reaction.t -> Reaction.t -> comparison.
Variable ObjectId_isValid : string -> bool.

(** Both list handlers read the request only through the effective
    page, limit and sort and the parent filter. *)
Lemma list_handlers_read (user : option UserId) (q1 q2 : Query.t)
    (st : State) :
  pageOf q1 = pageOf q2 -> limitOf q1 = limitOf q2 ->
  sortOf q1 = sortOf q2 ->
  Query.parentComment q1 = Query.parentComment q2 ->
  getComments bson_compare ObjectId_isValid user q1 st
    = getComments bson_compare ObjectId_isValid user q2 st /\
  forall id,
    getReplies bson_compare ObjectId_isValid user id q1 st
      = getReplies bson_compare ObjectId_isValid user id q2 st.
Proof.
  intros Hp Hl Hs Hq. unfold getComments, getReplies.
  now rewrite Hp, Hl, Hs, Hq.
Qed.

(** X17.  A page that is 0, negative or not a number is answered as
    page 1.  A limit that is 0 or not a number is answered as limit
    10, a negative limit as limit 1, a limit over 100 as limit 100.
    This holds for [getComments] and for [getReplies]. *)
Theorem out_of_range_page_and_limit (user : option UserId) (q : Query.t)
    (st : State) (handler : Query.t -> Response) :
  handler = (fun q' => getComments bson_compare ObjectId_isValid user q' st)
  \/ (exists id,
        handler
        = fun q' => getReplies bson_compare ObjectId_isValid user id q' st) ->
  (forall n, (n <= 1)%Z -> handler (withPage n q) = handler (withPage 1 q)) /\
  (Query.page q = None -> handler q = handler (withPage 1 q)) /\
  (forall l, (l < 0)%Z ->
             handler (withLimit (Some l) q) = handler (withLimit (Some 1%Z) q))
  /\
  (forall l, (100 < l)%Z ->
             handler (withLimit (Some l) q)
               = handler (withLimit (Some 100%Z) q)) /\
  handler (withLimit (Some 0%Z) q) = handler (withLimit (Some 10%Z) q) /\
  handler (withLimit None q) = handler (withLimit (Some 10%Z) q).
Proof.
  intros Hh.
  assert (Hread : forall q1 q2,
             pageOf q1 = pageOf q2 -> limitOf q1 = limitOf q2 ->
             sortOf q1 = sortOf q2 ->
             Query.parentComment q1 = Query.parentComment q2 ->
             handler q1 = handler q2).
  { intros q1 q2 Hp Hl Hs Hq.
    destruct (list_handlers_read user q1 q2 st Hp Hl Hs Hq) as [Hc Hr].
    destruct Hh as [-> | [id ->]]; [exact Hc | apply Hr]. }
  assert (Hpage : forall n, (n <= 1)%Z -> pageOf (withPage n q) = 1%Z).
  { intros n Hn. unfold pageOf, withPage. simpl.
    destruct n; simpl; lia. }
  assert (Hlim : forall l,
             limitOf (withLimit (Some l) q)
             = if (l =? 0)%Z then 10%Z else Z.min (Z.max 1 l) 100).
  { intros l. unfold limitOf, withLimit. simpl. now destruct l. }
  split; [|split; [|split; [|split; [|split]]]].
  - intros n Hn. apply Hread; try reflexivity.
    now rewrite (Hpage n Hn), (Hpage 1%Z).
  - intros Hnone. apply Hread; try reflexivity.
    rewrite (Hpage 1%Z) by lia. unfold pageOf. now rewrite Hnone.
  - intros l Hl. apply Hread; try reflexivity. rewrite !Hlim.
    destruct (Z.eqb_spec l 0); simpl; lia.
  - intros l Hl. apply Hread; try reflexivity. rewrite !Hlim.
    destruct (Z.eqb_spec l 0); simpl; lia.
  - apply Hread; reflexivity.
  - apply Hread; reflexivity.
Qed.

End Clamping.

Lemma out_of_range_page_and_limit_witness :
  getComments userThenDate Js.isHex24 None
    (withPage (-3) (Sample.page 2)) Sample.many
  = getComments userThenDate Js.isHex24 None
      (withPage 1 (Sample.page 2)) Sample.many.
Proof.
  refine (proj1 (out_of_range_page_and_limit userThenDate Js.isHex24 None
                   (Sample.page 2) Sample.many
                   (fun q' => getComments userThenDate Js.isHex24 None q'
                                          Sample.many)
                   (or_introl eq_refl)) (-3)%Z _).
  lia.
Defined.

(* ================================================================= *)
(** * Further properties of the client *)

Module ItemProperties.
Import Client CommentItem.

Lemma isNot_In (id : CommentId) (l : list Comment) :
  ~ In id (ids (filter (isNot id) l)).
Proof.
  unfold ids. rewrite in_map_iff. intros (r & Hr & Hin).
  apply filter_In in Hin. destruct Hin as [_ Hn]. unfold isNot in Hn.
  apply negb_true_iff, String.eqb_neq in Hn. contradiction.
Qed.

Lemma isNot_absent (id : CommentId) (l : list Comment) :
  ~ In id (ids l) -> filter (isNot id) l = l.
Proof.
  unfold ids. induction l as [|r l IH]; simpl; intros H; [reflexivity|].
  unfold isNot at 1. destruct (String.eqb_spec (_id r) id) as [E | E]; simpl.
  - exfalso. apply H. now left.
  - rewrite IH; [reflexivity|]. intros Hin. apply H. now right.
Qed.

Lemma find_hasId_absent (id : CommentId) (l : list Comment) :
  ~ In id (ids l) -> find (hasId id) l = None.
Proof.
  intros H. destruct (find (hasId id) l) as [r|] eqn:E; [|reflexivity].
  apply find_some in E. destruct E as [Hin Hid]. unfold hasId in Hid.
  apply String.eqb_eq in Hid. exfalso. apply H. unfold ids.
  apply in_map_iff. now exists r.
Qed.

Lemma allReplies_ids (st : Item) (id : CommentId) :
  In id (ids (allReplies st)) ->
  In id (ids (replies st)) \/ In id (ids (realTimeReplies st)).
Proof.
  rewrite ClientProperties.allReplies_unfold. unfold ids. intros H.
  apply (Permutation_in id
           (Permutation_map _id (stableSort_perm newerFirst _))) in H.
  rewrite map_app in H. apply in_app_or in H. destruct H as [H | H].
  - right. now apply ClientProperties.ids_filter_In in H.
  - now left.
Qed.

Lemma set_replyCount_same (c : Comment) (n : nat) :
  replyCount c = Some n -> set_replyCount n c = c.
Proof. destruct c. simpl. now intros ->. Qed.

(** X18.  After [replyDeleted] the reply is in neither reply list and
    is not rendered; every other reply stays, in its place; and an id
    that is in neither list leaves the whole component state
    unchanged. *)
Theorem reply_deleted (id : CommentId) (st : Item) :
  let st' := handleReplyDeleted id st in
  ~ In id (ids (replies st')) /\
  ~ In id (ids (realTimeReplies st')) /\
  ~ In id (ids (allReplies st')) /\
  replies st' = filter (isNot id) (replies st) /\
  realTimeReplies st' = filter (isNot id) (realTimeReplies st) /\
  (forall r, _id r <> id ->
             (In r (replies st') <-> In r (replies st)) /\
             (In r (realTimeReplies st') <-> In r (realTimeReplies st))) /\
  (~ In id (ids (replies st)) -> ~ In id (ids (realTimeReplies st)) ->
   st' = st).
Proof.
  intros st'. subst st'. unfold handleReplyDeleted. simpl.
  split; [apply isNot_In|]. split; [apply isNot_In|].
  split; [|split; [reflexivity|split; [reflexivity|split]]].
  - intros H. apply allReplies_ids in H. simpl in H.
    destruct H as [H | H]; now apply isNot_In in H.
  - intros r Hr.
    assert (Hn : isNot id r = true).
    { unfold isNot. now apply negb_true_iff, String.eqb_neq. }
    split; rewrite filter_In; tauto.
  - intros H1 H2. rewrite (find_hasId_absent id _ H1).
    rewrite (find_hasId_absent id _ H2). simpl.
    rewrite (isNot_absent id _ H1), (isNot_absent id _ H2). now destruct st.
Qed.



Lemma replaceBy_id (u r : Comment) : _id (replaceBy u r) = _id r.
Proof.
  unfold replaceBy. destruct (String.eqb_spec (_id r) (_id u)); congruence.
Qed.

Lemma replaceBy_twice (u r : Comment) :
  replaceBy u (replaceBy u r) = replaceBy u r.
Proof.
  unfold replaceBy. destruct (String.eqb_spec (_id r) (_id u)) as [E | E].
  - now rewrite String.eqb_refl.
  - apply String.eqb_neq in E. now rewrite E.
Qed.

Lemma map_replaceBy_absent (u : Comment) (l : list Comment) :
  ~ In (_id u) (ids l) -> map (replaceBy u) l = l.
Proof.
  unfold ids. induction l as [|r l IH]; simpl; intros H; [reflexivity|].
  unfold replaceBy at 1. destruct (String.eqb_spec (_id r) (_id u)) as [E|E].
  - exfalso. apply H. now left.
  - rewrite IH; [reflexivity|]. intros Hin. apply H. now right.
Qed.

(** X20.  [replyUpdated] never adds, removes or moves a reply: both
    lists keep their ids in order.  Every reply with the event's id
    becomes the event's comment and every other reply is kept; the
    same event a second time changes nothing; an id in neither list
    leaves the state unchanged. *)
Theorem reply_updated (u : Comment) (st : Item) :
  let st' := handleReplyUpdated u st in
  ids (replies st') = ids (replies st) /\
  ids (realTimeReplies st') = ids (realTimeReplies st) /\
  (forall r, In r (replies st') \/ In r (realTimeReplies st') ->
             _id r = _id u -> r = u) /\
  (forall r, _id r <> _id u ->
             (In r (replies st') <-> In r (replies st)) /\
             (In r (realTimeReplies st') <-> In r (realTimeReplies st))) /\
  handleReplyUpdated u st' = st' /\
  (~ In (_id u) (ids (replies st)) ->
   ~ In (_id u) (ids (realTimeReplies st)) -> st' = st).
Proof.
  intros st'. subst st'. unfold handleReplyUpdated. simpl.
  assert (Hids : forall l, ids (map (replaceBy u) l) = ids l).
  { intros l. unfold ids. rewrite map_map. apply map_ext, replaceBy_id. }
  assert (Hin : forall l r, In r (map (replaceBy u) l) ->
                  (_id r = _id u -> r = u) /\ (_id r <> _id u -> In r l)).
  { intros l r H. apply in_map_iff in H. destruct H as (x & <- & Hx).
    unfold replaceBy. destruct (String.eqb_spec (_id x) (_id u)); split;
      congruence || tauto. }
  assert (Hkeep : forall l r, _id r <> _id u -> In r l ->
                    In r (map (replaceBy u) l)).
  { intros l r Hr H. apply in_map_iff. exists r. split; [|exact H].
    unfold replaceBy. apply String.eqb_neq in Hr. now rewrite Hr. }
  split; [apply Hids|]. split; [apply Hids|].
  split; [|split; [|split]].
  - intros r [H | H] Hr; now apply (Hin _ _ H).
  - intros r Hr. split; split; intros H;
      solve [now apply (Hin _ _ H) | now apply Hkeep].
  - f_equal; rewrite map_map; apply map_ext, replaceBy_twice.
  - intros H1 H2.
    rewrite (map_replaceBy_absent u _ H1), (map_replaceBy_absent u _ H2).
    now destruct st.
Qed.

End ItemProperties.

Module ListProperties.
Import Client CommentList.

Lemma orElse_same (x : Z) : orElse x x = x.
Proof. unfold orElse. now destruct (x =? 0)%Z. Qed.

(** X21.  When the list was asked for with limit 10, as the component
    always does, the pagination state the component keeps is the
    block the back end sent, field by field: none of the fall-backs
    changes a value.  After an event that carries a total, the
    refreshed [total], [totalPages], [endIndex] and [remainingItems]
    are those the back end would send for the same page, limit 10 and
    that total. *)
Theorem client_pagination_agrees
    (bson_compare : Reaction.t -> Reaction.t -> comparison)
    (ObjectId_isValid : string -> bool) (user : option UserId)
    (q : Query.t) (st : State) (items : list View.t) (pg : Pagination.t) :
  getComments bson_compare ObjectId_isValid user q st = Listed items pg ->
  limitOf q = 10%Z ->
  let p := fromBackend pg in
  (currentPage p = Pagination.currentPage pg /\
   totalPages p = Pagination.totalPages pg /\
   total p = Pagination.total pg /\
   hasNextPage p = Pagination.hasNextPage pg /\
   hasPrevPage p = Pagination.hasPrevPage pg /\
   isFirstPage p = Pagination.isFirstPage pg /\
   isLastPage p = Pagination.isLastPage pg /\
   startIndex p = Pagination.startIndex pg /\
   endIndex p = Pagination.endIndex pg /\
   remainingItems p = Pagination.remainingItems pg) /\
  forall totalCount,
    let r := refreshed totalCount p in
    let b := paginationOf (currentPage p) 10 totalCount in
    currentPage r = currentPage p /\
    total r = Pagination.total b /\
    totalPages r = Pagination.totalPages b /\
    endIndex r = Pagination.endIndex b /\
    remainingItems r = Pagination.remainingItems b.
Proof.
  intros H Hl p.
  destruct (list_pagination bson_compare ObjectId_isValid user q st items pg
              (or_introl H)) as (t & Ht & Hpg).
  rewrite Hl in Hpg. subst p. rewrite Hpg.
  pose proof (pageOf_range q) as Hp. split.
  - unfold fromBackend, paginationOf. simpl.
    rewrite !orb_diag.
    replace ((pageOf q - 1) * 10 + 10)%Z with (pageOf q * 10)%Z by ring.
    rewrite !orElse_same. repeat split.
  - intros totalCount. unfold refreshed, fromBackend, paginationOf. simpl.
    replace ((pageOf q - 1) * 10 + 10)%Z with (pageOf q * 10)%Z by ring.
    repeat split. apply Z.min_comm.
Qed.

Lemma client_pagination_agrees_witness :
  exists items pg,
    getComments userThenDate Js.isHex24 None (Sample.page 3) Sample.many
      = Listed items pg /\
    endIndex (fromBackend pg) = Pagination.endIndex pg.
Proof.
  eexists. eexists. split; [vm_compute; reflexivity|].
  refine (let H := client_pagination_agrees userThenDate Js.isHex24 None
                     (Sample.page 3) Sample.many _ _ eq_refl eq_refl in _).
  destruct H as ((_ & _ & _ & _ & _ & _ & _ & _ & He & _) & _). exact He.
Defined.

Lemma find_hasId_none (id : CommentId) (l : list Comment) :
  ~ In id (ids l) -> find (hasId id) l = None.
Proof. apply ItemProperties.find_hasId_absent. Qed.

(** X22.  [commentDeleted] for an id that is not displayed leaves the
    displayed comments as they are; after [commentDeleted] the id is
    not displayed; and a [newComment] for a top-level comment that was
    not displayed, followed by the [commentDeleted] of the same id,
    gives back the displayed comments. *)
Theorem comment_added_then_deleted (captured : list Comment)
    (id : CommentId) (totalCount : option Z) (st : t) :
  ~ In id (ids (comments (onCommentDeleted captured id totalCount st))) /\
  (~ In id (ids (comments st)) ->
   comments (onCommentDeleted captured id totalCount st) = comments st) /\
  (forall c totalCount',
      _id c = id -> truthy (parentComment c) = None ->
      ~ In id (ids (comments st)) ->
      comments (onCommentDeleted captured id totalCount
                  (onNewComment c totalCount' st))
        = comments st).
Proof.
  split; [|split].
  - unfold onCommentDeleted. simpl.
    destruct (find (hasId id) (comments st)) as [d|];
      [destruct (truthy (parentComment d))|]; apply ItemProperties.isNot_In.
  - intros H. unfold onCommentDeleted. simpl.
    rewrite (find_hasId_none id _ H).
    now apply ItemProperties.isNot_absent.
  - intros c tc Hid Hp H. unfold onNewComment. rewrite Hp. simpl.
    unfold onCommentDeleted. simpl.
    unfold hasId at 1. rewrite Hid, String.eqb_refl. rewrite Hp.
    simpl. unfold CommentItem.isNot at 1. rewrite Hid, String.eqb_refl. simpl.
    now apply ItemProperties.isNot_absent.
Qed.

Lemma comment_added_then_deleted_witness :
  comments (onCommentDeleted [] Sample.idC None
              (onNewComment
                 (mkComment Sample.idC "third" None 0 0 None false false 300)
                 (Some 2%Z)
                 (mk [Sample.shown] (fromBackend (paginationOf 1 10 1)))))
  = [Sample.shown].
Proof.
  refine (proj2 (proj2 (comment_added_then_deleted [] Sample.idC None
                          (mk [Sample.shown]
                              (fromBackend (paginationOf 1 10 1)))))
            (mkComment Sample.idC "third" None 0 0 None false false 300)
            (Some 2%Z) eq_refl eq_refl _).
  simpl. intros [E | []]. discriminate E.
Defined.

End ListProperties.

Module PagingProperties.
Import Paging.

Lemma range_In (a b x : Z) : In x (range a b) <-> (a <= x <= b)%Z.
Proof.
  unfold range. rewrite in_map_iff. split.
  - intros (i & <- & Hi). apply in_seq in Hi. lia.
  - intros H. exists (Z.to_nat (x - a)). split; [lia|]. apply in_seq. lia.
Qed.

Lemma range_length (a b : Z) : length (range a b) = Z.to_nat (b - a + 1).
Proof. unfold range. now rewrite length_map, length_seq. Qed.

Lemma range_NoDup (a b : Z) : NoDup (range a b).
Proof.
  unfold range. generalize (Z.to_nat (b - a + 1)) as n. intros n.
  generalize 0 as k. induction n as [|n IH]; intros k; simpl; constructor.
  - rewrite in_map_iff. intros (i & Hi & Hin). apply in_seq in Hin. lia.
  - apply IH.
Qed.

(** X23.  For a current page between 1 and the number of pages, the
    Pagination component shows min(5, totalPages) page buttons, all
    between 1 and [totalPages], and the current page is one of
    them. *)
Theorem page_buttons (currentPage totalPages : Z) :
  (1 <= currentPage <= totalPages)%Z ->
  let l := renderPageNumbers currentPage totalPages in
  In currentPage l /\
  Forall (fun p => (1 <= p <= totalPages)%Z) l /\
  length l = Z.to_nat (Z.min 5 totalPages) /\
  NoDup l.
Proof.
  intros H l. subst l. unfold renderPageNumbers.
  change (5 / 2)%Z with 2%Z.
  set (s0 := Z.max 1 (currentPage - 2)).
  set (e := Z.min totalPages (s0 + 5 - 1)).
  destruct (Z.ltb_spec (e - s0 + 1) 5) as [Hlt | Hge].
  - split; [apply range_In; lia|]. split; [|split].
    + apply Forall_forall. intros p Hp. apply range_In in Hp. lia.
    + rewrite range_length. lia.
    + apply range_NoDup.
  - split; [apply range_In; lia|]. split; [|split].
    + apply Forall_forall. intros p Hp. apply range_In in Hp. lia.
    + rewrite range_length. lia.
    + apply range_NoDup.
Qed.

Lemma page_buttons_witness :
  In 9%Z (renderPageNumbers 9 10).
Proof.
  refine (proj1 (page_buttons 9 10 _)). lia.
Defined.

End PagingProperties.

Module EntriesProperties.
Import Paging PagingProperties.

Lemma range_empty (a b : Z) : (b < a)%Z -> range a b = [].
Proof.
  intros H. unfold range. now replace (Z.to_nat (b - a + 1)) with 0 by lia.
Qed.

Lemma range_cons (a b : Z) :
  (a <= b)%Z -> range a b = a :: range (a + 1) b.
Proof.
  intros H. unfold range.
  replace (Z.to_nat (b - a + 1)) with (S (Z.to_nat (b - (a + 1) + 1))) by lia.
  simpl. f_equal; [lia|]. rewrite <- seq_shift, map_map.
  apply map_ext. intros i. lia.
Qed.

Lemma range_sorted_then (a b t : Z) :
  (b < t)%Z -> Sorted Z.lt (range a b ++ [t]).
Proof.
  intros Hb.
  remember (Z.to_nat (b - a + 1)) as n eqn:Hn.
  revert a Hn. induction n as [|n IH]; intros a Hn.
  - rewrite range_empty by lia. simpl. repeat constructor.
  - rewrite range_cons by lia. simpl. constructor.
    + apply IH. lia.
    + destruct (Z_lt_le_dec b (a + 1)) as [Hlt | Hle].
      * rewrite range_empty by lia. simpl. constructor. lia.
      * rewrite range_cons by lia. simpl. constructor. lia.
Qed.

Lemma numbers_app (l1 l2 : list Entry) :
  numbers (l1 ++ l2) = numbers l1 ++ numbers l2.
Proof. unfold numbers. apply flat_map_app. Qed.

Lemma numbers_Page (l : list Z) : numbers (map Page l) = l.
Proof.
  unfold numbers. induction l as [|x l IH]; simpl; [reflexivity|].
  now rewrite IH.
Qed.

Lemma numbers_dots (b : bool) : numbers (if b then [Dots] else []) = [].
Proof. now destruct b. Qed.

(** The numbers of the entries: 1, a run of consecutive pages, the last
    page. *)
Lemma pageNumbers_shape (m cur total : Z) :
  (3 <= m < total)%Z -> (1 <= cur <= total)%Z ->
  exists s e,
    numbers (pageNumbers m cur total) = 1%Z :: range s e ++ [total] /\
    (2 <= s)%Z /\ (e <= total - 1)%Z /\
    (cur = 1 \/ cur = total \/ s <= cur <= e)%Z.
Proof.
  intros Hm Hc. unfold pageNumbers.
  destruct (Z.leb_spec total m) as [Hle | _]; [lia|].
  set (h := ((m - 3) / 2)%Z).
  assert (Hh : (0 <= h <= m - 3)%Z).
  { subst h. split; [apply Z.div_pos; lia|].
    apply Z.div_le_upper_bound; lia. }
  eexists. eexists. split.
  - rewrite !numbers_app, numbers_Page, !numbers_dots.
    destruct (Z.ltb_spec 1 total); [|lia]. simpl. reflexivity.
  - destruct (Z.leb_spec cur (h + 1));
      [|destruct (Z.leb_spec (total - h) cur)]; lia.
Qed.

(** X24.  When there are more pages than [maxVisiblePages] (at least
    3) and the current page is one of them, the entries of
    EnhancedPagination hold page 1, the last page and the current
    page, hold only pages between 1 and [totalPages], and hold them
    in ascending order, so none twice.  When the pages are at most
    [maxVisiblePages], the entries are all pages from 1 to
    [totalPages] and no dots. *)
Theorem page_entries (m cur total : Z) :
  (3 <= m)%Z -> (1 <= cur <= total)%Z ->
  let l := numbers (pageNumbers m cur total) in
  In cur l /\
  Forall (fun p => (1 <= p <= total)%Z) l /\
  Sorted Z.lt l /\
  In 1%Z l /\ In total l /\
  ((total <= m)%Z -> pageNumbers m cur total = map Page (range 1 total)).
Proof.
  intros Hm Hc l.
  destruct (Z_le_gt_dec total m) as [Hle | Hgt].
  - assert (E : pageNumbers m cur total = map Page (range 1 total)).
    { unfold pageNumbers. destruct (Z.leb_spec total m); [reflexivity | lia]. }
    subst l. rewrite E, numbers_Page.
    split; [apply range_In; lia|]. split; [|split; [|split; [|split]]].
    + apply Forall_forall. intros p Hp. now apply range_In in Hp.
    + pose proof (range_sorted_then 1 (total - 1) total ltac:(lia)) as Hs.
      replace (range 1 total) with (range 1 (total - 1) ++ [total]);
        [exact Hs|].
      clear Hs. remember (Z.to_nat total) as n eqn:Hn.
      assert (Hgen : forall a, (a <= total)%Z ->
                range a (total - 1) ++ [total] = range a total).
      { intros a. remember (Z.to_nat (total - a)) as k eqn:Hk.
        revert a Hk. induction k as [|k IH]; intros a Hk Ha.
        - replace a with total by lia. rewrite range_empty by lia.
          rewrite (range_cons total total) by lia.
          now rewrite range_empty by lia.
        - rewrite (range_cons a (total - 1)) by lia.
          rewrite (range_cons a total) by lia. simpl. f_equal.
          apply IH; lia. }
      apply Hgen. lia.
    + apply range_In. lia.
    + apply range_In. lia.
    + intros _. reflexivity.
  - destruct (pageNumbers_shape m cur total ltac:(lia) Hc)
      as (s & e & E & Hs & He & Hcur).
    subst l. rewrite E.
    split; [|split; [|split; [|split; [|split]]]].
    + destruct Hcur as [-> | [-> | Hin]].
      * now left.
      * right. apply in_or_app. right. now left.
      * right. apply in_or_app. left. now apply range_In.
    + constructor; [lia|]. apply Forall_app. split.
      * apply Forall_forall. intros p Hp. apply range_In in Hp. lia.
      * constructor; [lia | constructor].
    + constructor; [apply range_sorted_then; lia|].
      destruct (Z_lt_le_dec e s) as [Hlt | Hle].
      * rewrite range_empty by lia. simpl. constructor. lia.
      * rewrite range_cons by lia. simpl. constructor. lia.
    + now left.
    + right. apply in_or_app. right. now left.
    + intros Hle. lia.
Qed.

Lemma page_entries_witness :
  In 5%Z (numbers (pageNumbers 7 5 20)).
Proof.
  refine (proj1 (page_entries 7 5 20 _ _)); lia.
Defined.

(** X25.  A page the control hands to [onPageChange], by a click or by
    the jump field, is between 1 and the number of pages of the answer
    it was rendered from; asking the back end for that page, with the
    rest of the request and the collection unchanged, is answered with
    a page and not with the page-exceeds error. *)
Theorem control_stays_in_range
    (bson_compare : Reaction.t -> Reaction.t -> comparison)
    (ObjectId_isValid : string -> bool) (user : option UserId)
    (q : Query.t) (st : State) (items : list View.t) (pg : Pagination.t)
    (loading : bool) (page : Z) :
  getComments bson_compare ObjectId_isValid user q st = Listed items pg ->
  handlePageChange (Pagination.totalPages pg) loading page = Some page \/
  handleJumpToPage (Pagination.totalPages pg) loading (Some page)
    = Some page ->
  (1 <= page <= Pagination.totalPages pg)%Z /\
  loading = false /\
  exists items' pg',
    getComments bson_compare ObjectId_isValid user (withPage page q) st
      = Listed items' pg' /\
    Pagination.currentPage pg' = page.
Proof.
  intros H Hc.
  assert (Hr : (1 <= page <= Pagination.totalPages pg)%Z /\ loading = false).
  { assert (Hp : handlePageChange (Pagination.totalPages pg) loading page
                 = Some page).
    { destruct Hc as [Hc | Hc]; [exact Hc|].
      unfold handleJumpToPage in Hc.
      destruct (_ && _); [exact Hc | discriminate]. }
    unfold handlePageChange in Hp.
    destruct (Z.ltb_spec page 1); [discriminate|].
    destruct (Z.ltb_spec (Pagination.totalPages pg) page); [discriminate|].
    destruct loading; [discriminate|]. split; [lia | reflexivity]. }
  destruct Hr as [Hr Hl]. split; [exact Hr|]. split; [exact Hl|].
  assert (Hpage : pageOf (withPage page q) = page).
  { unfold pageOf, withPage. simpl. destruct page; simpl; lia. }
  assert (Htp : Pagination.totalPages pg
                = ceilDiv (totalOf (commentsQuery q) st) (limitOf q)).
  { unfold getComments in H.
    destruct (_ <? 0)%Z; [discriminate|].
    destruct (negb (includes _ _)); [discriminate|].
    unfold totalOf, commentsQuery.
    destruct (truthy (Query.parentComment q)) as [p|] eqn:Ep.
    - destruct (negb (ObjectId_isValid p)); [discriminate|].
      apply listPage_Listed in H. destruct H as [-> _]. reflexivity.
    - apply listPage_Listed in H. destruct H as [-> _]. reflexivity. }
  assert (Hsame : getComments bson_compare ObjectId_isValid user
                    (withPage page q) st
                  = listPage bson_compare user true (commentsQuery q)
                      (sortObjOf (sortOf q)) page (limitOf q) (comments st)).
  { unfold getComments in H |- *. rewrite Hpage.
    change (limitOf (withPage page q)) with (limitOf q).
    change (sortOf (withPage page q)) with (sortOf q).
    change (Query.parentComment (withPage page q))
      with (Query.parentComment q).
    pose proof (limitOf_range q).
    destruct (Z.ltb_spec ((page - 1) * limitOf q) 0); [nia|].
    destruct (_ <? 0)%Z; [discriminate|].
    destruct (negb (includes _ _)); [discriminate|].
    unfold commentsQuery.
    destruct (truthy (Query.parentComment q)) as [p|]; [|reflexivity].
    destruct (negb (ObjectId_isValid p)); [discriminate | reflexivity]. }
  rewrite Hsame. unfold listPage. fold (totalOf (commentsQuery q) st).
  rewrite <- Htp.
  destruct (Z.ltb_spec (Pagination.totalPages pg) page); [lia|].
  rewrite andb_false_r. simpl. eexists. eexists. split; reflexivity.
Qed.

Lemma control_stays_in_range_witness :
  exists items' pg',
    getComments userThenDate Js.isHex24 None
      (withPage 3 (Sample.page 1)) Sample.many = Listed items' pg' /\
    Pagination.currentPage pg' = 3%Z.
Proof.
  refine (let H := control_stays_in_range userThenDate Js.isHex24 None
                     (Sample.page 1) Sample.many _ _ false 3 eq_refl
                     (or_introl eq_refl) in _).
  exact (proj2 (proj2 H)).
Defined.

End EntriesProperties.

Module FormatProperties.
Import Format.

Lemma toString_parse (n : Z) :
  DecimalString.NilZero.int_of_string (toString n) = Some (Z.to_int n).
Proof.
  unfold toString. apply DecimalString.NilZero.isi.
  - destruct n; simpl; try discriminate.
    intros H. injection H as H.
    now apply DecimalPos.Unsigned.to_uint_nonnil in H.
  - destruct n; simpl; try discriminate.
    intros H. injection H as H.
    now apply DecimalPos.Unsigned.to_uint_nonnil in H.
Qed.

Lemma toString_short (n : Z) :
  (0 <= n <= 99)%Z -> String.length (toString n) <= 2.
Proof.
  intros H.
  assert (Hall : forallb (fun k => String.length (toString (Z.of_nat k)) <=? 2)
                         (seq 0 100) = true) by (vm_compute; reflexivity).
  rewrite forallb_forall in Hall.
  specialize (Hall (Z.to_nat n)). rewrite Z2Nat.id in Hall by lia.
  apply Nat.leb_le, Hall, in_seq. lia.
Qed.

(** X26.  [formatCount] shows two counts the same way exactly when they
    are equal or both above 99; a count up to 99 is shown as its
    decimal numeral, which reads back as the count; and no count from
    0 up takes more than three characters. *)
Theorem formatCount_faithful (a b : Z) :
  (formatCount (Some a) = formatCount (Some b) <->
   a = b \/ (99 < a /\ 99 < b)%Z) /\
  ((a <= 99)%Z ->
   option_map Z.of_int
     (DecimalString.NilZero.int_of_string (formatCount (Some a)))
   = Some a) /\
  ((0 <= a)%Z -> String.length (formatCount (Some a)) <= 3).
Proof.
  assert (Hplus : forall n, toString n <> "99+").
  { intros n E. pose proof (toString_parse n) as Hp. rewrite E in Hp.
    discriminate Hp. }
  split; [|split].
  - unfold formatCount.
    destruct (Z.ltb_spec 99 a) as [Ha | Ha], (Z.ltb_spec 99 b) as [Hb | Hb].
    + split; [intros _; right; lia | reflexivity].
    + split; [intros E; symmetry in E; now apply Hplus in E | lia].
    + split; [intros E; now apply Hplus in E | lia].
    + split.
      * intros E. left. apply DecimalZ.to_int_inj.
        pose proof (toString_parse a) as Pa. rewrite E, toString_parse in Pa.
        congruence.
      * intros [-> | ?]; [reflexivity | lia].
  - intros Ha. unfold formatCount.
    destruct (Z.ltb_spec 99 a); [lia|].
    rewrite toString_parse. simpl. now rewrite DecimalZ.of_to.
  - intros Ha. unfold formatCount.
    destruct (Z.ltb_spec 99 a); [simpl; lia|].
    pose proof (toString_short a ltac:(lia)). lia.
Qed.

End FormatProperties.

Module FormProperties.
Import CommentForm.

Lemma trimStart_length (s : string) :
  String.length (Js.trimStart s) <= String.length s.
Proof.
  destruct (trimStart_suffix s) as [w Hw]. rewrite Hw at 2.
  rewrite length_append. lia.
Qed.

Lemma trimEnd_length (s : string) :
  String.length (Js.trimEnd s) <= String.length s.
Proof.
  destruct (trimEnd_prefix s) as [w Hw]. rewrite Hw at 2.
  rewrite length_append. lia.
Qed.

Lemma trim_length (s : string) :
  String.length (Js.trim s) <= String.length s.
Proof.
  unfold Js.trim. pose proof (trimEnd_length (Js.trimStart s)).
  pose proof (trimStart_length s). lia.
Qed.

Lemma step_content (st : t) (i : Input) :
  String.length (content st) <= 500 ->
  String.length (content (fst (step st i))) <= 500.
Proof.
  intros H. destruct i as [v|]; simpl.
  - unfold handleChange.
    destruct (Nat.leb_spec (String.length v) 500);
      destruct (negb (isTyping st) && _); simpl; try lia;
      destruct (isTyping st && _); simpl; lia.
  - unfold handleBlur. destruct (isTyping st); simpl; lia.
Qed.

Lemma run_content (inputs : list Input) :
  forall st, String.length (content st) <= 500 ->
             String.length (content (fst (run st inputs))) <= 500.
Proof.
  induction inputs as [|i rest IH]; intros st H; simpl; [exact H|].
  pose proof (step_content st i H) as H1.
  destruct (step st i) as [st1 out1]. simpl in H1.
  specialize (IH st1 H1). destruct (run st1 rest) as [st2 out2]. exact IH.
Qed.

(** X27.  Whatever is typed into the comment form, its text never
    exceeds 500 characters; and every content the comment form or the
    reply form sends passes the back end's content validation, so a
    submit the forms let through is not refused for its length. *)
Theorem forms_send_valid_content (st : t) (inputs : list Input) :
  String.length (content st) <= 500 ->
  let st' := fst (run st inputs) in
  String.length (content st') <= 500 /\
  (forall s, submitted st' = Some s ->
             isSome (validateContent s) = true) /\
  (forall typed s, replySubmitted typed = Some s ->
                   isSome (validateContent s) = true).
Proof.
  intros H st'. pose proof (run_content inputs st H) as H'. fold st' in H'.
  split; [exact H'|]. split.
  - intros s. unfold submitted.
    destruct (Nat.eqb_spec (String.length (Js.trim (content st'))) 0);
      [discriminate|].
    intros E. injection E as <-. apply validateContent_accepts.
    unfold trimmedLength. pose proof (trim_length (content st')). lia.
  - intros typed s. unfold replySubmitted.
    destruct (Nat.eqb_spec (String.length (Js.trim typed)) 0);
      [discriminate|].
    destruct (Nat.ltb_spec 500 (String.length typed)); [discriminate|].
    intros E. injection E as <-. apply validateContent_accepts.
    unfold trimmedLength. rewrite trim_idem.
    pose proof (trim_length typed). lia.
Qed.

Lemma forms_send_valid_content_witness :
  String.length
    (content (fst (run (mk "" false) [Change "hello"; Blur; Change "hi"])))
    <= 500.
Proof.
  refine (proj1 (forms_send_valid_content (mk "" false)
                   [Change "hello"; Blur; Change "hi"] _)).
  simpl. lia.
Defined.

Lemma step_signals (st : t) (i : Input) :
  (snd (step st i) = [] /\ isTyping (fst (step st i)) = isTyping st) \/
  (snd (step st i) = [typing] /\ isTyping st = false /\
   isTyping (fst (step st i)) = true) \/
  (snd (step st i) = [stopTyping] /\ isTyping st = true /\
   isTyping (fst (step st i)) = false).
Proof.
  destruct i as [v|]; simpl.
  - unfold handleChange. destruct (isTyping st); simpl.
    + destruct (String.length v =? 0); simpl; intuition.
    + destruct (0 <? String.length v); simpl; intuition.
  - unfold handleBlur. destruct (isTyping st) eqn:E; simpl; intuition.
Qed.

(** X28.  Over any sequence of changes and blurs the comment form emits
    its typing signals in alternation: a [typing] only when none is
    out, a [stopTyping] only when one is out, so never two of the same
    kind in a row; and [isTyping] says at the end whether a [typing]
    is out. *)
Theorem typing_signals_alternate (inputs : list Input) :
  forall st,
    alternates (isTyping st) (snd (run st inputs)) /\
    isTyping (fst (run st inputs))
      = settles (isTyping st) (snd (run st inputs)).
Proof.
  induction inputs as [|i rest IH]; intros st; simpl.
  - split; [exact I | reflexivity].
  - pose proof (step_signals st i) as Hs.
    destruct (step st i) as [st1 out1]. simpl in Hs.
    specialize (IH st1). destruct (run st1 rest) as [st2 out2].
    simpl in IH |- *. destruct IH as [IHa IHl].
    destruct Hs as [[-> Ht] | [[-> [Ht Ht1]] | [-> [Ht Ht1]]]]; simpl.
    + rewrite <- Ht. now split.
    + rewrite Ht1 in IHa, IHl. now split.
    + rewrite Ht1 in IHa, IHl. now split.
Qed.

End FormProperties.

(* ================================================================= *)
(** * Instances *)

Lemma listed_are_matching_witness :
  exists items pg,
    getComments userThenDate Js.isHex24 None (Sample.page 1) Sample.thread
      = Listed items pg /\
    (Z.of_nat (length items) <= limitOf (Sample.page 1) <= 100)%Z.
Proof.
  eexists. eexists. split; [vm_compute; reflexivity|].
  refine (proj1 (proj1 (listed_are_matching userThenDate Js.isHex24 None
                          (Sample.page 1) Sample.thread _ _) eq_refl)).
Defined.

Lemma reply_deleted_witness :
  CommentItem.handleReplyDeleted Sample.idC Sample.item = Sample.item.
Proof.
  destruct (ItemProperties.reply_deleted Sample.idC Sample.item)
    as (_ & _ & _ & _ & _ & _ & H).
  apply H; simpl.
  - tauto.
  - intros [E | []]. discriminate E.
Defined.

Lemma reply_updated_witness :
  CommentItem.handleReplyUpdated
    (Client.mkComment Sample.idC "third" (Some Sample.idA) 0 0 None false
                      false 300) Sample.item
  = Sample.item.
Proof.
  destruct (ItemProperties.reply_updated
              (Client.mkComment Sample.idC "third" (Some Sample.idA) 0 0 None
                                false false 300) Sample.item)
    as (_ & _ & _ & _ & _ & H).
  apply H; simpl.
  - tauto.
  - intros [E | []]. discriminate E.
Defined.

Lemma formatCount_faithful_witness :
  option_map Z.of_int
    (DecimalString.NilZero.int_of_string (Format.formatCount (Some 42%Z)))
  = Some 42%Z.
Proof.
  refine (proj1 (proj2 (FormatProperties.formatCount_faithful 42 0)) _). lia.
Defined.

(* ================================================================= *)
(** * Every state the handlers reach *)

Lemma save_ids (c : Comment) (db : list Comment) :
  map _id (save c db) = map _id db.
Proof.
  unfold save. rewrite map_map. apply map_ext. intros d.
  destruct (hasId (_id c) d) eqn:E; [|reflexivity].
  now apply hasId_true in E.
Qed.

Lemma wellFormedIn_ids (db db' : list Comment) (c : Comment) :
  (forall p, In p (map _id db) -> In p (map _id db')) ->
  wellFormedIn db c -> wellFormedIn db' c.
Proof.
  intros Hsub (H1 & H2 & H3 & H4 & H5).
  split; [exact H1|]. split; [exact H2|]. split; [exact H3|].
  split; [exact H4|]. intros p Hp. apply Hsub. now apply H5.
Qed.

Lemma save_wellFormed (c : Comment) (db : list Comment) :
  Forall (wellFormedIn db) db -> wellFormedIn db c ->
  Forall (wellFormedIn (save c db)) (save c db).
Proof.
  intros Hdb Hc.
  assert (Hsub : forall p, In p (map _id db) -> In p (map _id (save c db))).
  { intros p. now rewrite save_ids. }
  unfold save at 2. apply Forall_map.
  apply Forall_impl with (2 := Hdb). intros d Hd.
  destruct (hasId (_id c) d); now apply (wellFormedIn_ids db).
Qed.

Lemma react_wellFormed (kind : string) (method : Comment -> Comment)
    (liked disliked : bool) (caller : UserId) (id : CommentId) (st : State) :
  (forall c, reactionsOk c -> reactionsOk (method c)) ->
  (forall c, content (method c) = content c /\
             isEdited (method c) = isEdited c /\
             editedAt (method c) = editedAt c /\
             parentComment (method c) = parentComment c) ->
  wellFormed st ->
  wellFormed (snd (react kind method liked disliked caller id st)).
Proof.
  intros Hok Hsame Hst. unfold react.
  destruct (findById id (comments st)) as [c|] eqn:Hf; [|exact Hst].
  destruct (negb (isActive c)); [exact Hst|].
  unfold wellFormed. simpl. apply save_wellFormed; [exact Hst|].
  apply findById_In in Hf. unfold wellFormed in Hst.
  rewrite Forall_forall in Hst. destruct (Hst c Hf) as (H1 & H2 & H3 & H4 & H5).
  destruct (Hsame c) as (E1 & E2 & E3 & E4).
  unfold wellFormedIn. rewrite E1, E2, E3, E4.
  split; [now apply Hok|]. split; [exact H2|]. split; [exact H3|].
  split; [exact H4 | exact H5].
Qed.

Lemma addLike_same (now : Z) (u : UserId) (c : Comment) :
  content (addLike now u c) = content c /\
  isEdited (addLike now u c) = isEdited c /\
  editedAt (addLike now u c) = editedAt c /\
  parentComment (addLike now u c) = parentComment c.
Proof. unfold addLike. now destruct (negb _). Qed.

Lemma addDislike_same (now : Z) (u : UserId) (c : Comment) :
  content (addDislike now u c) = content c /\
  isEdited (addDislike now u c) = isEdited c /\
  editedAt (addDislike now u c) = editedAt c /\
  parentComment (addDislike now u c) = parentComment c.
Proof. unfold addDislike. now destruct (negb _). Qed.

Lemma handle_wellFormed (r : Request) (st : State) :
  wellFormed st -> wellFormed (snd (handle r st)).
Proof.
  intros Hst. destruct r as [t fresh caller body | t caller id raw
                             | caller id | t caller id | t caller id
                             | caller id]; simpl.
  - destruct (success (fst (createComment t fresh caller body st))) eqn:Es;
      [|now rewrite createComment_rejected].
    assert (Hc : exists c,
               fst (createComment t fresh caller body st) = Created c).
    { destruct (fst (createComment t fresh caller body st)) eqn:E;
        try discriminate Es; try (now eexists).
      all: exfalso; revert E; unfold createComment;
        destruct (validateCreateComment body); try discriminate;
        cast_cases; try discriminate;
        destruct (negb _); try discriminate;
        destruct (schemaContent _); discriminate. }
    destruct Hc as [c Hc].
    destruct (createComment_Created _ _ _ _ _ _ Hc) as (Hs & _ & _ & _ & _ & Hsc).
    destruct (schemaContent_sanitised _ _ Hsc) as [Ec Hlen].
    assert (Hshape : likes c = [] /\ dislikes c = [] /\ isEdited c = false /\
                     editedAt c = None /\
                     forall p, parentComment c = Some p ->
                               In p (map _id (comments st))).
    { revert Hc. unfold createComment.
      destruct (validateCreateComment body) as [b|] eqn:Hv; [|discriminate].
      destruct (validateCreateComment_parent _ _ Hv) as [Hpb _].
      destruct (truthy (Body.parentComment b)) as [p|] eqn:Ep.
      - destruct (negb (Js.isHex24 p)); [discriminate|].
        destruct (findById p (comments st)) as [pc|] eqn:Hf; [|discriminate].
        destruct (negb (isActive pc)); [discriminate|].
        destruct (schemaContent (Body.content b)); [|discriminate].
        simpl. intros H. injection H as <-. simpl. repeat split.
        intros p' Hp'. injection Hp' as <-.
        apply in_map_iff. exists pc. split.
        + now apply findById_id in Hf.
        + now apply findById_In in Hf.
      - simpl. destruct (schemaContent (Body.content b)); [|discriminate].
        simpl. intros H. injection H as <-. simpl. repeat split.
        discriminate. }
    destruct Hshape as (HL & HD & HE & HA & HP).
    unfold wellFormed. rewrite Hs. apply Forall_app. split.
    + apply Forall_impl with (2 := Hst). intros d.
      apply wellFormedIn_ids. intros p Hp. rewrite map_app.
      apply in_or_app. now left.
    + constructor; [|constructor]. unfold wellFormedIn.
      rewrite HE, HA. split; [now apply reactionsOk_empty|].
      split; [reflexivity|]. split; [rewrite Ec; apply escape_no_markup|].
      split; [exact Hlen|].
      intros p Hp. rewrite map_app. apply in_or_app. left. now apply HP.
  - unfold updateComment, validateUpdateComment, validateContent.
    destruct (_ && _); [|exact Hst].
    destruct (findById id (comments st)) as [c|] eqn:Hf; [|exact Hst].
    destruct (negb (isActive c)); [exact Hst|].
    destruct (negb (canModify c caller)); [exact Hst|].
    destruct (schemaContent _) as [txt|] eqn:Hs; [|exact Hst].
    destruct (schemaContent_sanitised _ _ Hs) as [Ec Hlen].
    unfold wellFormed. simpl. apply save_wellFormed; [exact Hst|].
    apply findById_In in Hf. unfold wellFormed in Hst.
    rewrite Forall_forall in Hst.
    destruct (Hst c Hf) as (H1 & H2 & H3 & H4 & H5).
    unfold wellFormedIn. simpl. split; [exact H1|]. split; [reflexivity|].
    split; [rewrite Ec; apply escape_no_markup|].
    split; [exact Hlen | exact H5].
  - unfold deleteComment.
    destruct (findById id (comments st)) as [c|] eqn:Hf; [|exact Hst].
    destruct (negb (canModify c caller)); [exact Hst|].
    unfold wellFormed. simpl. apply save_wellFormed; [exact Hst|].
    apply findById_In in Hf. unfold wellFormed in Hst.
    rewrite Forall_forall in Hst. exact (Hst c Hf).
  - apply react_wellFormed; [intros c; apply addLike_ok | | exact Hst].
    intros c. apply addLike_same.
  - apply react_wellFormed; [intros c; apply addDislike_ok | | exact Hst].
    intros c. apply addDislike_same.
  - apply react_wellFormed;
      [intros c; apply removeReactionOf_ok | | exact Hst].
    intros c. now unfold removeReactionOf.
Qed.

(** X29.  Whatever requests the six mutating handlers are given, in any
    order and by any callers, every comment of the collection they
    build from the empty one has reaction lists with at most one entry
    per user and no user in both, is marked edited exactly when it has
    an edit date, has a sanitised content of 1 to 1000 characters, and
    has a parent, if any, that is itself stored.  Each handler keeps
    these facts. *)
Theorem reachable_states_are_well_formed (requests : list Request) :
  (forall st, wellFormed st -> wellFormed (serve st requests)) /\
  wellFormed (serve (mkState [] []) requests).
Proof.
  assert (H : forall st, wellFormed st -> wellFormed (serve st requests)).
  { unfold serve. induction requests as [|r rs IH]; intros st Hst; simpl.
    - exact Hst.
    - apply IH. now apply handle_wellFormed. }
  split; [exact H|]. apply H. constructor.
Qed.

Lemma reachable_states_are_well_formed_witness :
  wellFormed
    (serve (mkState [] [])
       [ReqCreate 1 Sample.idA Sample.ann (Body.mk "first" None);
        ReqCreate 2 Sample.idB Sample.bob (Body.mk "second" (Some Sample.idA));
        ReqLike 3 Sample.bob Sample.idA;
        ReqUpdate 4 Sample.ann Sample.idA "first <b>";
        ReqDelete Sample.bob Sample.idB]).
Proof.
  refine (proj1 (reachable_states_are_well_formed _) (mkState [] []) _).
  constructor.
Defined.

(** X30.  When the request names no sort, an empty one, or [newest], the
    documents of a successful [getComments] or [getReplies] answer are
    in descending order of [createdAt]. *)
Theorem newest_first
    (bson_compare : Reaction.t -> Reaction.t -> comparison)
    (ObjectId_isValid : string -> bool) (user : option UserId)
    (q : Query.t) (st : State) (items : list View.t) (pg : Pagination.t) :
  Query.sort q = None \/ Query.sort q = Some "" \/
  Query.sort q = Some "newest" ->
  getComments bson_compare ObjectId_isValid user q st = Listed items pg \/
  (exists id,
      getReplies bson_compare ObjectId_isValid user id q st
        = Listed items pg) ->
  Sorted (fun a b => createdAt b <= createdAt a)%Z (map View.doc items).
Proof.
  intros Hs H. apply (newest_is_sorted bson_compare ObjectId_isValid user q st
                        items pg); [|exact H].
  unfold sortOf. destruct Hs as [-> | [-> | ->]]; reflexivity.
Qed.

Lemma newest_first_witness :
  exists items pg,
    getComments userThenDate Js.isHex24 None (Sample.page 2) Sample.many
      = Listed items pg /\
    Sorted (fun a b => createdAt b <= createdAt a)%Z (map View.doc items).
Proof.
  eexists. eexists. split; [vm_compute; reflexivity|].
  refine (newest_first userThenDate Js.isHex24 None (Sample.page 2)
            Sample.many _ _ (or_introl eq_refl) (or_introl eq_refl)).
Defined.
